(** * Website generation pipeline: key rotation, retry loops, planner,
      component generator and combiner

    A shallow embedding of the Python modules
      - [utils/api_keys.py]            (key managers, rate-limit classifiers)
      - [utils/component_planner.py]   (planner and its fallback plan)
      - [utils/component_generator.py] (image and markup generation)
      - [utils/website_combiner.py]    (final merge)
      - [routes/generate_code.py]      (post-checks of [create_website])
    followed by the properties of the specification that are stated about
    them.

    Conventions of the embedding.
      - Python [str] is [string]; [lower()] acts on the letters A-Z.
      - A dict with a known set of keys is a record whose optional keys are
        [option] fields; [d.get(k, dflt)] is [default dflt (field d)].
      - The insertion-ordered dict of generated markup is an association
        list; [form_data] is a [gmap string string].
      - Effects (the providers, the two global key managers, the log of
        external calls) are threaded through a state-and-exception monad.
      - [print], [time.sleep] and [traceback.print_exc] have no effect on
        any value and are left out. *)

From Stdlib Require Import ZArith Ascii String List Lia Bool Permutation Sorted.
From stdpp Require Import base option list gmap strings pretty.

Import ListNotations.
Local Open Scope string_scope.
Local Open Scope list_scope.

(* ===================================================================== *)
(** ** Python string operations *)
(* ===================================================================== *)

Module Py.

(** [c.lower()] on one character. *)
Definition lower_ascii (c : ascii) : ascii :=
  let n := nat_of_ascii c in
  if (65 <=? n)%nat && (n <=? 90)%nat then ascii_of_nat (n + 32) else c.

(** [s.lower()] *)
Fixpoint lower (s : string) : string :=
  match s with
  | EmptyString => EmptyString
  | String c s' => String (lower_ascii c) (lower s')
  end.

(** [s.startswith(p)] *)
Fixpoint startswith (p s : string) : bool :=
  match p, s with
  | EmptyString, _ => true
  | String _ _, EmptyString => false
  | String a p', String b s' => if Ascii.eqb a b then startswith p' s' else false
  end.

(** [needle in s] *)
Fixpoint str_in (needle s : string) : bool :=
  match s with
  | EmptyString => startswith needle EmptyString
  | String _ s' => startswith needle s || str_in needle s'
  end.

(** [s.find(needle)], [None] standing for [-1]. *)
Fixpoint find (needle s : string) : option nat :=
  if startswith needle s then Some 0%nat
  else match s with
       | EmptyString => None
       | String _ s' => option_map S (find needle s')
       end.

(** [s[n:]] *)
Fixpoint drop (n : nat) (s : string) : string :=
  match n, s with
  | O, _ => s
  | S _, EmptyString => EmptyString
  | S k, String _ s' => drop k s'
  end.

(** [s.replace(old, new)] for a non-empty [old]: occurrences are taken
    from the left and do not overlap.  [skip] counts the characters of a
    matched occurrence that are still to be passed over. *)
Fixpoint replace_from (old new : string) (skip : nat) (s : string) : string :=
  match s with
  | EmptyString => EmptyString
  | String c s' =>
      match skip with
      | S k => replace_from old new k s'
      | O =>
          if startswith old s
          then new ++ replace_from old new (String.length old - 1) s'
          else String c (replace_from old new 0 s')
      end
  end.

Definition replace (old new s : string) : string := replace_from old new 0 s.

(** [s.split(sep)] for a non-empty [sep], as the first piece and the list
    of the pieces after it. *)
Fixpoint split_from (sep : string) (skip : nat) (s : string) : string * list string :=
  match s with
  | EmptyString => (EmptyString, [])
  | String c s' =>
      match skip with
      | S k => split_from sep k s'
      | O =>
          if startswith sep s
          then let '(p, ps) := split_from sep (String.length sep - 1) s' in
               (EmptyString, p :: ps)
          else let '(p, ps) := split_from sep 0 s' in
               (String c p, ps)
      end
  end.

Definition split (sep s : string) : list string :=
  let '(p, ps) := split_from sep 0 s in p :: ps.

(** The characters [str.strip()] removes (ASCII range). *)
Definition is_space (c : ascii) : bool :=
  let n := nat_of_ascii c in
  ((9 <=? n)%nat && (n <=? 13)%nat) || ((28 <=? n)%nat && (n <=? 32)%nat).

Fixpoint lstrip (s : string) : string :=
  match s with
  | EmptyString => EmptyString
  | String c s' => if is_space c then lstrip s' else s
  end.

Fixpoint rstrip (s : string) : string :=
  match s with
  | EmptyString => EmptyString
  | String c s' =>
      match rstrip s' with
      | EmptyString => if is_space c then EmptyString else String c EmptyString
      | r => String c r
      end
  end.

(** [s.strip()] *)
Definition strip (s : string) : string := rstrip (lstrip s).

(** Truth value of a string: [bool(s)]. *)
Definition truthy (s : string) : bool :=
  match s with EmptyString => false | _ => true end.

(** [s.split(open_fence)[1].split("```")[0].strip()], the expression all
    three callers use to unwrap a fenced block.  It is only evaluated
    when [open_fence in s], so index 1 exists. *)
Definition between_fences (open_fence s : string) : string :=
  strip (hd EmptyString (split "```" (nth 1 (split open_fence s) EmptyString))).

(** The two-way fence clean-up:
<<
    if '```html' in code: code = code.split('```html')[1].split('```')[0].strip()
    elif '```' in code:   code = code.split('```')[1].split('```')[0].strip()
>>
    with the language tag as a parameter ([html] or [json]). *)
Definition strip_code_fence (tagged_fence s : string) : string :=
  if str_in tagged_fence s then between_fences tagged_fence s
  else if str_in "```" s then between_fences "```" s
  else s.

End Py.

(* ===================================================================== *)
(** ** Errors raised by provider calls *)
(* ===================================================================== *)

(** The exception classes the handlers tell apart. *)
Inductive exn_class : Type :=
| HTTPError          (* requests.exceptions.HTTPError *)
| JSONDecodeError    (* json.JSONDecodeError *)
| OtherException.    (* any other subclass of Exception *)

(** A dict found under the key ['error'] of an exception argument. *)
Record nested_payload : Type := {
  np_code    : option Z;        (* nested.get('code') *)
  np_message : option string    (* nested.get('message', '') *)
}.

(** One element of [error.args]: its [str()] and, when it is a dict whose
    ['error'] entry is itself a dict, that entry. *)
Record py_arg : Type := {
  arg_str     : string;
  arg_payload : option nested_payload
}.

(** What the classifiers and handlers read off an exception object. *)
Record py_error : Type := {
  err_class           : exn_class;
  err_type_name       : string;         (* type(error).__name__ *)
  err_str             : string;         (* str(error) *)
  err_args            : list py_arg;    (* error.args *)
  err_status_code     : option Z;       (* error.status_code, when present *)
  err_status          : option Z;       (* error.status, when present *)
  err_message         : option string;  (* str(error.message), when present *)
  err_response_status : option Z        (* error.response.status_code *)
}.

(** [Exception(msg)] *)
Definition Exception (msg : string) : py_error :=
  {| err_class := OtherException;
     err_type_name := "Exception";
     err_str := msg;
     err_args := [ {| arg_str := msg; arg_payload := None |} ];
     err_status_code := None;
     err_status := None;
     err_message := None;
     err_response_status := None |}.

Definition is_429 (o : option Z) : bool :=
  match o with Some z => (z =? 429)%Z | None => false end.

(* ===================================================================== *)
(** ** Key managers ([utils/api_keys.py]) *)
(* ===================================================================== *)

(** The three manager classes share their fields and their [get_key],
    [get_all_keys], [rotate_key] and [has_multiple_keys] methods line for
    line; they differ in [is_rate_limit_error].  Loading the keys from the
    environment (with its shuffle) happens before any of the code below
    runs. *)
Record KeyManager : Type := {
  keys              : list string;
  current_key_index : nat
}.

Definition get_key (m : KeyManager) : option string :=
  match keys m with
  | [] => None
  | _ => keys m !! current_key_index m
  end.

Definition get_all_keys (m : KeyManager) : list string := keys m.

(** [rotate_key]: the returned flag and the manager after the call. *)
Definition rotate_key (m : KeyManager) : bool * KeyManager :=
  if (length (keys m) <=? 1)%nat then (false, m)
  else (true, {| keys := keys m;
                 current_key_index := (current_key_index m + 1) mod length (keys m) |}).

Definition has_multiple_keys (m : KeyManager) : bool :=
  (1 <? length (keys m))%nat.

(** The kind of evidence a check of a classifier looks at. *)
Inductive check_kind : Type :=
| TextualMarker    (* a marker in str(error) or in the type name *)
| NumericStatus    (* a numeric status attribute *)
| ArgsPayload      (* error.args and the payload nested in them *)
| MessageAttr.     (* error.message *)

Definition check : Type := check_kind * (py_error -> bool).

(** A classifier is a chain of [if test: return True] statements closed by
    [return False]: the checks in source order. *)
Definition run_checks (cs : list check) (e : py_error) : bool :=
  existsb (fun c => snd c e) cs.

(** What a classifier reads off the exception object, in the order of
    the reads.  Each constructor stands for one expression of the source:
    [str(error)], [type(error).__name__], [error.status_code],
    [error.status], [error.response.status_code], [error.args], [str(arg)]
    for the argument at an index, the look at that argument as a dict
    (from [isinstance(arg, dict)] to [arg.get('error')] and the two
    entries of the nested dict), and [error.message].  An expression that
    occurs more than once in one condition
    ([hasattr(error, 'status') and error.status == 429]) counts once. *)
Inductive inspection : Type :=
| StrOfError
| TypeName
| StatusCodeField
| StatusField
| ResponseStatusField
| ArgsField
| StrOfArg (i : nat)
| NestedPayload (i : nat)
| MessageField.

(** A value together with the reads it took to compute it. *)
Definition inspected (A : Type) : Type := (A * list inspection)%type.

(** The value [v] obtained by the one read [i]. *)
Definition look {A} (i : inspection) (v : A) : inspected A := (v, [i]).

(** The reads [before], then [c]. *)
Definition after {A} (before : list inspection) (c : inspected A) : inspected A :=
  (fst c, before ++ snd c).

(** [if test: return True], followed by [rest]: the statements of [rest]
    run only when [test] is false. *)
Definition return_true_if (test rest : inspected bool) : inspected bool :=
  if fst test then (true, snd test)
  else (fst rest, snd test ++ snd rest).

Module OpenAIKeyManager.

Definition arg_is_rate_limit (a : py_arg) : bool :=
  Py.str_in "429" (arg_str a)
  || Py.str_in "rate limit" (Py.lower (arg_str a))
  || Py.str_in "quota" (Py.lower (arg_str a))
  || match arg_payload a with
     | Some nested =>
         is_429 (np_code nested)
         || Py.str_in "rate limit" (Py.lower (default "" (np_message nested)))
     | None => false
     end.

Definition checks : list check :=
  [ (TextualMarker, fun e => Py.str_in "429" (err_str e));
    (TextualMarker, fun e =>
       Py.str_in "rate limit exceeded" (Py.lower (err_str e))
       || Py.str_in "openai_ratelimit_error" (Py.lower (err_type_name e)));
    (NumericStatus, fun e => is_429 (err_status_code e));
    (NumericStatus, fun e => is_429 (err_status e));
    (ArgsPayload, fun e => existsb arg_is_rate_limit (err_args e));
    (MessageAttr, fun e =>
       match err_message e with
       | Some m => Py.str_in "429" m || Py.str_in "rate limit" (Py.lower m)
       | None => false
       end) ].

Definition is_rate_limit_error (e : py_error) : bool := run_checks checks e.

(** The two tests on [error_str], [error_lower] and [error_type], which
    are computed before the first test. *)
Definition text_marker (e : py_error) : bool :=
  Py.str_in "429" (err_str e)
  || (Py.str_in "rate limit exceeded" (Py.lower (err_str e))
      || Py.str_in "openai_ratelimit_error" (Py.lower (err_type_name e))).

(** The body of the loop over [error.args] for the argument at index
    [i]: the tests on [str(arg)], then the look into the dict. *)
Definition inspect_arg (i : nat) (a : py_arg) : inspected bool :=
  return_true_if
    (look (StrOfArg i)
       (Py.str_in "429" (arg_str a)
        || Py.str_in "rate limit" (Py.lower (arg_str a))
        || Py.str_in "quota" (Py.lower (arg_str a))))
    (look (NestedPayload i)
       match arg_payload a with
       | Some nested =>
           is_429 (np_code nested)
           || Py.str_in "rate limit" (Py.lower (default "" (np_message nested)))
       | None => false
       end).

(** [for arg in error.args: ...], from index [i] on. *)
Fixpoint inspect_args (i : nat) (args : list py_arg) : inspected bool :=
  match args with
  | [] => (false, [])
  | a :: rest => return_true_if (inspect_arg i a) (inspect_args (S i) rest)
  end.

(** [is_rate_limit_error] statement by statement, with its reads. *)
Definition is_rate_limit_error_traced (e : py_error) : inspected bool :=
  after [StrOfError; TypeName]
    (return_true_if (Py.str_in "429" (err_str e), [])
    (return_true_if (Py.str_in "rate limit exceeded" (Py.lower (err_str e))
                     || Py.str_in "openai_ratelimit_error" (Py.lower (err_type_name e)), [])
    (return_true_if (look StatusCodeField (is_429 (err_status_code e)))
    (return_true_if (look StatusField (is_429 (err_status e)))
    (return_true_if (after [ArgsField] (inspect_args 0 (err_args e)))
    (return_true_if (look MessageField
                       match err_message e with
                       | Some m => Py.str_in "429" m || Py.str_in "rate limit" (Py.lower m)
                       | None => false
                       end)
    (false, []))))))).


End OpenAIKeyManager.

Module OpenRouterKeyManager.

Definition checks : list check :=
  [ (TextualMarker, fun e =>
       Py.str_in "429 client error" (Py.lower (err_str e))
       || Py.str_in "rate limit exceeded" (Py.lower (err_str e)));
    (NumericStatus, fun e => is_429 (err_response_status e));
    (TextualMarker, fun e =>
       Py.str_in "x-ratelimit-remaining" (Py.lower (err_str e))
       || Py.str_in "openrouter_ratelimit" (Py.lower (err_str e))) ].

Definition is_rate_limit_error (e : py_error) : bool := run_checks checks e.

(** The first test, on [error_lower]. *)
Definition text_marker (e : py_error) : bool :=
  Py.str_in "429 client error" (Py.lower (err_str e))
  || Py.str_in "rate limit exceeded" (Py.lower (err_str e)).

(** [is_rate_limit_error] statement by statement, with its reads. *)
Definition is_rate_limit_error_traced (e : py_error) : inspected bool :=
  after [StrOfError]
    (return_true_if (Py.str_in "429 client error" (Py.lower (err_str e))
                     || Py.str_in "rate limit exceeded" (Py.lower (err_str e)), [])
    (return_true_if (look ResponseStatusField (is_429 (err_response_status e)))
    (return_true_if (Py.str_in "x-ratelimit-remaining" (Py.lower (err_str e))
                     || Py.str_in "openrouter_ratelimit" (Py.lower (err_str e)), [])
    (false, [])))).

End OpenRouterKeyManager.

(* ===================================================================== *)
(** ** Plans, requests and the outside world *)
(* ===================================================================== *)

(** A component descriptor: the dict a plan holds for one slot. *)
Record component : Type := {
  name               : option string;
  purpose            : option string;
  order              : option Z;
  needs_image        : option bool;
  image_prompt       : option string;
  image_dimensions   : option string;
  image_aspect_ratio : option string;
  image_usage        : option string;
  design_style       : option string;
  layout_type        : option string;
  visual_features    : option string
}.

(** The entry [image_plan['hero_image']]. *)
Record hero_image : Type := {
  hi_purpose      : string;
  hi_prompt       : string;
  hi_dimensions   : string;
  hi_aspect_ratio : string
}.

(** [image_plan]: a dict that is empty or holds ['hero_image']. *)
Definition image_plan_t : Type := option hero_image.

(** The dict a plan is. *)
Record plan_data : Type := {
  all_components     : option (list component);
  dynamic_components : option (list component);
  image_plan         : option image_plan_t;
  component_order    : option (list Z);
  notes              : option string
}.

Definition form_data_t : Type := gmap string string.

(** [component_design_info] as built by [generate_all_components]. *)
Record design_info : Type := {
  di_design_style     : string;
  di_layout_type      : string;
  di_visual_features  : string;
  di_image_dimensions : string;
  di_image_usage      : string
}.

(** The arguments [generate_component] hands to [get_component_prompt]. *)
Record component_prompt_args : Type := {
  cp_component_name        : string;
  cp_component_purpose     : string;
  cp_form_data             : form_data_t;
  cp_image_urls            : list string;
  cp_logo_url              : string;
  cp_favicon_url           : string;
  cp_theme_color           : string;
  cp_font_name             : string;
  cp_business_category     : string;
  cp_business_sub_category : string;
  cp_component_design_info : option design_info;
  cp_image_prompts_info    : image_plan_t
}.

(** What a chat-completion call sends.  The prompt text is a template
    filled from these arguments ([get_planning_prompt],
    [get_component_prompt] plus the optional reference documents,
    [get_combination_prompt]); the request is identified with the
    arguments. *)
Inductive chat_request : Type :=
| PlanningRequest (form_data : form_data_t)
| ComponentRequest (args : component_prompt_args) (bootstrap : list (string * string))
| CombinationRequest (all_components : list (string * string)) (form_data : form_data_t)
    (image_urls : list string) (logo_url favicon_url theme_color font_name : string).

(** How the [try] body of a chat call gets to the message content:
    [requests.post], [raise_for_status], [response.json()] and the walk
    down [choices[0].message.content] either raise, or yield a content
    that is missing or empty ([None]), or yield a content. *)
Inductive post_outcome : Type :=
| PostRaise (e : py_error)
| PostContent (content : option string).

(** How one image attempt ends: an exception (from the image API, the
    download or the file write), a response without image data, or the
    image saved under [static/generated]. *)
Inductive image_outcome : Type :=
| ImageRaise (e : py_error)
| ImageNoData
| ImageSaved.

Inductive result (A : Type) : Type :=
| Ok (a : A)
| Raise (e : py_error).
Arguments Ok {A} a.
Arguments Raise {A} e.

(** The collaborators the pipeline calls: the two providers, each a
    transition on an arbitrary world state, and [json.loads]. *)
Record Providers : Type := {
  World            : Type;
  chat_completions : World -> string -> chat_request -> post_outcome * World;
  images_generate  : World -> string -> string -> image_outcome * World;
  json_loads       : string -> result plan_data
}.

(** External calls, in the order they are made, with the credential used. *)
Inductive event : Type :=
| EvPost (key : string) (req : chat_request)
| EvImage (key : string) (prompt : string).

Definition is_post (ev : event) : bool :=
  match ev with EvPost _ _ => true | EvImage _ _ => false end.

Definition event_key (ev : event) : string :=
  match ev with EvPost k _ => k | EvImage k _ => k end.

(* ===================================================================== *)
(** ** The state-and-exception monad *)
(* ===================================================================== *)

Section Pipeline.

Variable P : Providers.

(** The mutable state a request runs in.  [openai_key_manager] and
    [openrouter_key_manager] are the module globals behind
    [get_openai_key], [rotate_openrouter_key], ...; the [consolidated_*]
    fields are the separate manager objects of [_key_manager], which the
    pipeline only asks for [get_all_keys] and [is_rate_limit_error]. *)
Record state : Type := {
  world                  : World P;
  openai_key_manager     : KeyManager;
  openrouter_key_manager : KeyManager;
  consolidated_openai     : KeyManager;
  consolidated_openrouter : KeyManager;
  log                    : list event
}.

Definition M (A : Type) : Type := state -> result A * state.

Definition ret {A} (a : A) : M A := fun st => (Ok a, st).
Definition raise {A} (e : py_error) : M A := fun st => (Raise e, st).
Definition bind {A B} (c : M A) (k : A -> M B) : M B :=
  fun st => match c st with
            | (Ok a, st') => k a st'
            | (Raise e, st') => (Raise e, st')
            end.
(** [try: c  except Exception as e: h e] *)
Definition try_except {A} (c : M A) (h : py_error -> M A) : M A :=
  fun st => match c st with
            | (Ok a, st') => (Ok a, st')
            | (Raise e, st') => h e st'
            end.

Notation "x <- c1 ;; c2" := (bind c1 (fun x => c2))
  (at level 100, c1 at next level, right associativity).
Notation "c1 ;; c2" := (bind c1 (fun _ => c2))
  (at level 100, right associativity).

Definition get_state : M state := fun st => (Ok st, st).

(** [requests.post(...)] and what follows it up to the content. *)
Definition post (key : string) (req : chat_request) : M (option string) :=
  fun st =>
    let '(o, w) := chat_completions P (world st) key req in
    let st' := {| world := w;
                  openai_key_manager := openai_key_manager st;
                  openrouter_key_manager := openrouter_key_manager st;
                  consolidated_openai := consolidated_openai st;
                  consolidated_openrouter := consolidated_openrouter st;
                  log := log st ++ [EvPost key req] |} in
    match o with
    | PostRaise e => (Raise e, st')
    | PostContent c => (Ok c, st')
    end.

(** One image attempt with the client's key. *)
Definition image_attempt (key prompt : string) : M bool :=
  fun st =>
    let '(o, w) := images_generate P (world st) key prompt in
    let st' := {| world := w;
                  openai_key_manager := openai_key_manager st;
                  openrouter_key_manager := openrouter_key_manager st;
                  consolidated_openai := consolidated_openai st;
                  consolidated_openrouter := consolidated_openrouter st;
                  log := log st ++ [EvImage key prompt] |} in
    match o with
    | ImageRaise e => (Raise e, st')
    | ImageNoData => (Ok false, st')
    | ImageSaved => (Ok true, st')
    end.

(** The module-level helpers of [api_keys.py] on the global managers. *)
Definition get_openrouter_key : M (option string) :=
  fun st => (Ok (get_key (openrouter_key_manager st)), st).

Definition get_openai_key : M (option string) :=
  fun st => (Ok (get_key (openai_key_manager st)), st).

Definition has_multiple_keys_openrouter : M bool :=
  fun st => (Ok (has_multiple_keys (openrouter_key_manager st)), st).

Definition has_multiple_keys_openai : M bool :=
  fun st => (Ok (has_multiple_keys (openai_key_manager st)), st).

Definition rotate_openrouter_key : M bool :=
  fun st =>
    let '(b, m) := rotate_key (openrouter_key_manager st) in
    (Ok b, {| world := world st;
              openai_key_manager := openai_key_manager st;
              openrouter_key_manager := m;
              consolidated_openai := consolidated_openai st;
              consolidated_openrouter := consolidated_openrouter st;
              log := log st |}).

Definition rotate_openai_key : M bool :=
  fun st =>
    let '(b, m) := rotate_key (openai_key_manager st) in
    (Ok b, {| world := world st;
              openai_key_manager := m;
              openrouter_key_manager := openrouter_key_manager st;
              consolidated_openai := consolidated_openai st;
              consolidated_openrouter := consolidated_openrouter st;
              log := log st |}).

(** [len(all_keys) if all_keys else 1] *)
Definition max_retries_of (m : KeyManager) : nat :=
  match get_all_keys m with
  | [] => 1%nat
  | ks => length ks
  end.

(* =================================================================== *)
(** ** The retry loop of the planner and of the combiner *)
(* =================================================================== *)

(** [plan_website_components] and [combine_components] wrap their [try]
    body in the same loop, handler for handler:
<<
    for attempt in range(max_retries):
        try:
            BODY
        except requests.exceptions.HTTPError as e:
            print(... e.response.status_code ...)
            if _key_manager.openrouter_manager.is_rate_limit_error(e):
                if has_multiple_keys_openrouter() and rotate_openrouter_key():
                    continue
            if attempt == max_retries - 1:
                raise Exception(f"Failed to WHAT after {max_retries} attempts: {str(e)}")
            else:
                raise Exception(f"Failed to WHAT: {str(e)}")
        except Exception as e:
            is_rate_limit = is_rate_limit_error_openrouter(e)
            if is_rate_limit and has_multiple_keys_openrouter() and attempt < max_retries - 1:
                rotate_openrouter_key(); continue
            elif attempt < max_retries - 1:
                if has_multiple_keys_openrouter():
                    rotate_openrouter_key()
                continue
            else:
                raise
    raise Exception("All WHICH attempts failed")
>>
    [remaining] counts the iterations still to run, so that
    [attempt = max_retries - remaining]. *)

Definition AttributeError_no_response : py_error :=
  {| err_class := OtherException;
     err_type_name := "AttributeError";
     err_str := "'NoneType' object has no attribute 'status_code'";
     err_args := [ {| arg_str := "'NoneType' object has no attribute 'status_code'";
                      arg_payload := None |} ];
     err_status_code := None; err_status := None;
     err_message := None; err_response_status := None |}.

(** The handler of [requests.exceptions.HTTPError]; [None] is [continue]. *)
Definition on_http_error (what : string) (max_retries attempt : nat)
    (e : py_error) : M (option unit) :=
  match err_response_status e with
  | None => raise AttributeError_no_response
  | Some _ =>
      rotated <-
        (if OpenRouterKeyManager.is_rate_limit_error e
         then multi <- has_multiple_keys_openrouter ;;
              if multi then rotate_openrouter_key else ret false
         else ret false) ;;
      if rotated then ret None
      else if (attempt =? max_retries - 1)%nat
      then raise (Exception ("Failed to " ++ what ++ " after " ++ pretty max_retries
                             ++ " attempts: " ++ err_str e))
      else raise (Exception ("Failed to " ++ what ++ ": " ++ err_str e))
  end.

(** The handler of every other [Exception]; [None] is [continue]. *)
Definition on_exception (max_retries attempt : nat) (e : py_error) : M (option unit) :=
  multi <- has_multiple_keys_openrouter ;;
  if OpenRouterKeyManager.is_rate_limit_error e && multi
     && (attempt <? max_retries - 1)%nat
  then rotate_openrouter_key ;; ret None
  else if (attempt <? max_retries - 1)%nat
  then (if multi then rotate_openrouter_key ;; ret tt else ret tt) ;; ret None
  else raise e.

Fixpoint retry_loop {A} (what which : string) (body : M A)
    (max_retries remaining : nat) : M A :=
  match remaining with
  | O => raise (Exception ("All " ++ which ++ " attempts failed"))
  | S remaining' =>
      let attempt := (max_retries - remaining)%nat in
      fun st =>
        match body st with
        | (Ok a, st') => (Ok a, st')
        | (Raise e, st') =>
            let handler :=
              match err_class e with
              | HTTPError => on_http_error what max_retries attempt e
              | _ => on_exception max_retries attempt e
              end in
            match handler st' with
            | (Ok _, st'') => retry_loop what which body max_retries remaining' st''
            | (Raise e', st'') => (Raise e', st'')
            end
        end
  end.

(* =================================================================== *)
(** ** The planner ([utils/component_planner.py]) *)
(* =================================================================== *)

Definition KeyError_name : py_error :=
  {| err_class := OtherException;
     err_type_name := "KeyError";
     err_str := "'name'";
     err_args := [ {| arg_str := "name"; arg_payload := None |} ];
     err_status_code := None; err_status := None;
     err_message := None; err_response_status := None |}.

(** [c.get('order', 0) in [3, 4, 5, 6]] *)
Definition is_dynamic (c : component) : bool :=
  let o := default 0%Z (order c) in
  (o =? 3)%Z || (o =? 4)%Z || (o =? 5)%Z || (o =? 6)%Z.

(** The loop that builds [image_plan]: every component with a true
    [needs_image] that is named ['Hero'] overwrites ['hero_image']. *)
Definition build_image_plan (comps : list component) : image_plan_t :=
  fold_left
    (fun (plan : image_plan_t) (comp : component) =>
       if default false (needs_image comp)
       then if String.eqb (default "" (name comp)) "Hero"
            then Some {| hi_purpose := "Hero section banner";
                         hi_prompt := default "" (image_prompt comp);
                         hi_dimensions := default "1920x600" (image_dimensions comp);
                         hi_aspect_ratio := default "16:5" (image_aspect_ratio comp) |}
            else plan
       else plan)
    comps None.

(** [c['name'] for c in all_components] raises [KeyError] at the first
    component without a name. *)
Definition all_named (comps : list component) : bool :=
  forallb (fun c => match name c with Some _ => true | None => false end) comps.

(** The statements of the [try] body from ["# Validate structure"] to
    [return plan_data]. *)
Definition validate_plan (pd : plan_data) : result plan_data :=
  match all_components pd with
  | None => Raise (Exception "Invalid plan: missing all_components")
  | Some comps =>
      if negb (length comps =? 8)%nat
      then Raise (Exception ("Invalid plan: expected 8 components, got "
                             +:+ pretty (length comps)))
      else if negb (all_named comps) then Raise KeyError_name
      else Ok {| all_components := all_components pd;
                 dynamic_components := Some (List.filter is_dynamic comps);
                 image_plan := Some (build_image_plan comps);
                 component_order := component_order pd;
                 notes := notes pd |}
  end.

(** From the message content to the returned plan. *)
Definition parse_plan (content : string) : result plan_data :=
  let plan_text := Py.strip_code_fence "```json" (Py.strip content) in
  match json_loads P plan_text with
  | Raise e => Raise e
  | Ok pd => validate_plan pd
  end.

(** The [try] body of one planning attempt. *)
Definition plan_attempt (form_data : form_data_t) (openrouter_key : string)
    : M plan_data :=
  content <- post openrouter_key (PlanningRequest form_data) ;;
  match content with
  | None => raise (Exception "No response from OpenRouter/Gemini")
  | Some c =>
      if Py.truthy c then fun st => (parse_plan c, st)
      else raise (Exception "No response from OpenRouter/Gemini")
  end.

Definition fallback_components (business_category business_sub_category theme_color : string)
    : list component :=
  [ {| name := Some "Navigation";
       purpose := Some "Navigation bar with logo and menu links";
       order := Some 1%Z; needs_image := Some false;
       image_prompt := None; image_dimensions := None;
       image_aspect_ratio := None; image_usage := None;
       design_style := Some "Modern sticky navigation";
       layout_type := None; visual_features := None |};
    {| name := Some "Hero";
       purpose := Some "Hero section with banner";
       order := Some 2%Z; needs_image := Some true;
       image_prompt := Some ("Professional rectangular hero banner (1920x600) for "
         +:+ business_category +:+ " - " +:+ business_sub_category
         +:+ " industry. Modern, sleek, professional quality with theme color "
         +:+ theme_color +:+ ".");
       image_dimensions := Some "1920x600";
       image_aspect_ratio := Some "16:5";
       image_usage := Some "Full-width hero banner";
       design_style := Some "Modern hero with gradient overlay";
       layout_type := None; visual_features := None |};
    {| name := Some "Services";
       purpose := Some "Showcase business services";
       order := Some 3%Z; needs_image := Some true;
       image_prompt := Some ("Professional business image (1200x800) for "
         +:+ business_category +:+ " - " +:+ business_sub_category
         +:+ " services. Modern, business-appropriate, theme color "
         +:+ theme_color +:+ ".");
       image_dimensions := Some "1200x800";
       image_aspect_ratio := Some "3:2";
       image_usage := Some "Side image or background";
       design_style := Some "Card-based layout";
       layout_type := Some "Grid layout";
       visual_features := Some "Rounded corners, shadows" |};
    {| name := Some "About";
       purpose := Some "About the business";
       order := Some 4%Z; needs_image := Some false;
       image_prompt := None; image_dimensions := None;
       image_aspect_ratio := None; image_usage := None;
       design_style := Some "Split-screen layout";
       layout_type := Some "Two-column";
       visual_features := Some "Clean typography" |};
    {| name := Some "Features";
       purpose := Some "Key features or benefits";
       order := Some 5%Z; needs_image := Some true;
       image_prompt := Some ("Professional feature image (800x600) for "
         +:+ business_category +:+ " - " +:+ business_sub_category
         +:+ ". Modern, illustrative, theme color " +:+ theme_color +:+ ".");
       image_dimensions := Some "800x600";
       image_aspect_ratio := Some "4:3";
       image_usage := Some "Feature illustration";
       design_style := Some "Glassmorphism";
       layout_type := Some "Three-column grid";
       visual_features := Some "Glass effect, blur" |};
    {| name := Some "Testimonials";
       purpose := Some "Customer testimonials";
       order := Some 6%Z; needs_image := Some false;
       image_prompt := None; image_dimensions := None;
       image_aspect_ratio := None; image_usage := None;
       design_style := Some "Carousel layout";
       layout_type := Some "Centered cards";
       visual_features := Some "Quotes, avatars" |};
    {| name := Some "Contact";
       purpose := Some "Contact form with mailto";
       order := Some 7%Z; needs_image := Some false;
       image_prompt := None; image_dimensions := None;
       image_aspect_ratio := None; image_usage := None;
       design_style := Some "Modern form design";
       layout_type := None; visual_features := None |};
    {| name := Some "Footer";
       purpose := Some "Footer with social links";
       order := Some 8%Z; needs_image := Some false;
       image_prompt := None; image_dimensions := None;
       image_aspect_ratio := None; image_usage := None;
       design_style := Some "Dark footer";
       layout_type := None; visual_features := None |} ].

Definition get_fallback_plan (form_data : form_data_t) : plan_data :=
  let business_category := default "Business" (form_data !! "businessCategory") in
  let business_sub_category := default "Services" (form_data !! "businessSubCategory") in
  let theme_color := default "#4f46e5" (form_data !! "themeColor") in
  let comps := fallback_components business_category business_sub_category theme_color in
  {| all_components := Some comps;
     dynamic_components := Some (List.filter is_dynamic comps);
     image_plan := Some (Some
       {| hi_purpose := "Hero section banner";
          hi_prompt := "Professional rectangular hero image for " +:+ business_category
                       +:+ " - " +:+ business_sub_category +:+ " industry";
          hi_dimensions := "1920x600";
          hi_aspect_ratio := "16:5" |});
     component_order := Some [1; 2; 3; 4; 5; 6; 7; 8]%Z;
     notes := Some ("Fallback plan for " +:+ business_category +:+ " - "
                    +:+ business_sub_category) |}.

(** [not openrouter_key] *)
Definition usable_key (k : option string) : option string :=
  match k with
  | Some s => if Py.truthy s then Some s else None
  | None => None
  end.

(** Both [except] clauses of the outer [try] return the fallback plan. *)
Definition plan_website_components (form_data : form_data_t) : M plan_data :=
  try_except
    (key <- get_openrouter_key ;;
     match usable_key key with
     | None => raise (Exception "OPENROUTER_API_KEY not configured")
     | Some openrouter_key =>
         st <- get_state ;;
         let max_retries := max_retries_of (consolidated_openrouter st) in
         retry_loop "plan website components" "planning"
           (plan_attempt form_data openrouter_key) max_retries max_retries
     end)
    (fun _ => ret (get_fallback_plan form_data)).

(* =================================================================== *)
(** ** Image generation ([generate_image_for_component]) *)
(* =================================================================== *)

Definition hero_fallback_path : string :=
  "/static/generated/hero_20251105_142354_0.png".
Definition additional_fallback_path : string :=
  "/static/generated/additional_20251106_160031_2.png".

(** [f"/static/generated/{comp_slug}_{timestamp}.png"] *)
Definition local_image_url (comp_name timestamp : string) : string :=
  let comp_slug := Py.replace "-" "_" (Py.replace " " "_" (Py.lower comp_name)) in
  "/static/generated/" +:+ comp_slug +:+ "_" +:+ timestamp +:+ ".png".

(** The [except Exception] handler of one image attempt.  It answers
    with the client to go on with ([continue]) or with [None] ([break]).
    [OpenAI(api_key=get_openai_key())] is the new client's key. *)
Definition on_image_error (max_retries attempt : nat) (openai_client : string)
    (e : py_error) : M (option string) :=
  multi <- has_multiple_keys_openai ;;
  if OpenAIKeyManager.is_rate_limit_error e && multi && (attempt <? max_retries - 1)%nat
  then rotate_openai_key ;;
       k <- get_openai_key ;;
       ret (Some (default openai_client k))
  else if multi && (attempt <? max_retries - 1)%nat
  then rotate_openai_key ;;
       k <- get_openai_key ;;
       ret (Some (default openai_client k))
  else ret None.

(** The [for attempt in range(max_retries)] loop.  [Some url] is the
    [return local_image_url] inside the loop; [None] is leaving the loop
    by [break] or by running out of attempts. *)
Fixpoint image_loop (comp_name image_prompt timestamp : string)
    (max_retries remaining : nat) (openai_client : string) : M (option string) :=
  match remaining with
  | O => ret None
  | S remaining' =>
      let attempt := (max_retries - remaining)%nat in
      fun st =>
        match image_attempt openai_client image_prompt st with
        | (Ok true, st') => (Ok (Some (local_image_url comp_name timestamp)), st')
        | (Ok false, st') =>
            image_loop comp_name image_prompt timestamp max_retries remaining'
              openai_client st'
        | (Raise e, st') =>
            match on_image_error max_retries attempt openai_client e st' with
            | (Ok (Some client'), st'') =>
                image_loop comp_name image_prompt timestamp max_retries remaining'
                  client' st''
            | (Ok None, st'') => (Ok None, st'')
            | (Raise e', st'') => (Raise e', st'')
            end
        end
  end.

(** The fallback returned after the loop (and by the outer handler). *)
Definition fallback_image (comp_name : string) : string :=
  if String.eqb comp_name "Hero" then hero_fallback_path
  else additional_fallback_path.

Definition generate_image_for_component (component_info : component)
    (timestamp openai_client : string) : M (option string) :=
  let comp_name := default "component" (name component_info) in
  let image_prompt := default "" (image_prompt component_info) in
  if negb (Py.truthy image_prompt) then ret None
  else
    try_except
      (st <- get_state ;;
       let max_retries := max_retries_of (consolidated_openai st) in
       r <- image_loop comp_name image_prompt timestamp max_retries max_retries
              openai_client ;;
       match r with
       | Some url => ret (Some url)
       | None => ret (Some (fallback_image comp_name))
       end)
      (fun _ => ret (Some (fallback_image comp_name))).

(* =================================================================== *)
(** ** Markup generation ([generate_component]) *)
(* =================================================================== *)

Definition _is_permission_error (e : py_error) : bool :=
  Py.str_in "permission" (Py.lower (err_str e))
  || Py.str_in "permission_denied" (Py.lower (err_str e))
  || Py.str_in "403" (Py.lower (err_str e))
  || existsb (fun a => Py.str_in "permission" (Py.lower (arg_str a))
                       || Py.str_in "403" (Py.lower (arg_str a)))
             (err_args e).

Definition AttributeError_clear : py_error :=
  {| err_class := OtherException;
     err_type_name := "AttributeError";
     err_str := "'NoneType' object has no attribute 'clear'";
     err_args := [ {| arg_str := "'NoneType' object has no attribute 'clear'";
                      arg_payload := None |} ];
     err_status_code := None; err_status := None;
     err_message := None; err_response_status := None |}.

(** [bool(bootstrap_files)] *)
Definition has_bootstrap (bootstrap_files : option (list (string * string))) : bool :=
  match bootstrap_files with
  | Some (_ :: _) => true
  | _ => false
  end.

(** The documents [build_contents(include_bootstrap)] adds to the prompt. *)
Definition build_contents (bootstrap_files : option (list (string * string)))
    (include_bootstrap : bool) : list (string * string) :=
  if include_bootstrap && has_bootstrap bootstrap_files
  then default [] bootstrap_files else [].

(** The [except Exception] handler of [generate_component].  Every path
    through it that does not raise goes on with the next iteration; the
    answer is the pair [bootstrap_files], [use_bootstrap_docs] to go on
    with. *)
Definition on_component_exception (max_retries attempt : nat)
    (bootstrap_files : option (list (string * string))) (use_bootstrap_docs : bool)
    (e : py_error) : M (option (list (string * string)) * bool) :=
  if _is_permission_error e
  then match bootstrap_files with
       | None => raise AttributeError_clear
       | Some _ => ret (Some [], false)
       end
  else
    multi <- has_multiple_keys_openrouter ;;
    if OpenRouterKeyManager.is_rate_limit_error e && multi
       && (attempt <? max_retries - 1)%nat
    then rotate_openrouter_key ;; ret (bootstrap_files, use_bootstrap_docs)
    else if multi && (attempt <? max_retries - 1)%nat
    then rotate_openrouter_key ;; ret (bootstrap_files, use_bootstrap_docs)
    else ret (bootstrap_files, use_bootstrap_docs).

(** [component_code.strip()] followed by the fence clean-up. *)
Definition clean_component_code (content : string) : string :=
  Py.strip_code_fence "```html" (Py.strip content).

(** The retry loop of [generate_component].  [Some code] is the
    [return component_code] inside the loop; [None] is the loop running
    out, with the final values of the two loop variables. *)
Fixpoint component_loop (args : component_prompt_args) (openrouter_key : string)
    (max_retries remaining : nat)
    (bootstrap_files : option (list (string * string))) (use_bootstrap_docs : bool)
    : M (option string * bool) :=
  match remaining with
  | O => ret (None, use_bootstrap_docs)
  | S remaining' =>
      let attempt := (max_retries - remaining)%nat in
      fun st =>
        match post openrouter_key
                (ComponentRequest args (build_contents bootstrap_files use_bootstrap_docs))
                st with
        | (Ok (Some content), st') =>
            if Py.truthy content
            then (Ok (Some (clean_component_code content), use_bootstrap_docs), st')
            else component_loop args openrouter_key max_retries remaining'
                   bootstrap_files use_bootstrap_docs st'
        | (Ok None, st') =>
            component_loop args openrouter_key max_retries remaining'
              bootstrap_files use_bootstrap_docs st'
        | (Raise e, st') =>
            match err_class e with
            | HTTPError =>
                match on_http_error "generate component" max_retries attempt e st' with
                | (Ok _, st'') =>
                    component_loop args openrouter_key max_retries remaining'
                      bootstrap_files use_bootstrap_docs st''
                | (Raise e', st'') => (Raise e', st'')
                end
            | _ =>
                match on_component_exception max_retries attempt bootstrap_files
                        use_bootstrap_docs e st' with
                | (Ok (files', use'), st'') =>
                    component_loop args openrouter_key max_retries remaining'
                      files' use' st''
                | (Raise e', st'') => (Raise e', st'')
                end
            end
        end
  end.

(** The last call without reference documents, made when
    [use_bootstrap_docs] is still true after the loop. *)
Definition final_fallback (args : component_prompt_args) (openrouter_key : string)
    : M (option string) :=
  try_except
    (content <- post openrouter_key (ComponentRequest args []) ;;
     match content with
     | Some c => if Py.truthy c then ret (Some (clean_component_code c)) else ret None
     | None => ret None
     end)
    (fun _ => ret None).

Definition generate_component (args : component_prompt_args) (openrouter_key : string)
    (bootstrap_files : option (list (string * string))) : M (option string) :=
  st <- get_state ;;
  let max_retries := max_retries_of (consolidated_openrouter st) in
  let use_bootstrap_docs := has_bootstrap bootstrap_files in
  r <- component_loop args openrouter_key max_retries max_retries
         bootstrap_files use_bootstrap_docs ;;
  match r with
  | (Some code, _) => ret (Some code)
  | (None, use_bootstrap_docs') =>
      if use_bootstrap_docs' then final_fallback args openrouter_key
      else ret None
  end.

(* =================================================================== *)
(** ** The generation run ([generate_all_components]) *)
(* =================================================================== *)

(** The dict [components]: markup by component name, in insertion order. *)
Definition markup_map : Type := list (string * string).

Definition dict_has (k : string) (d : markup_map) : bool :=
  existsb (fun kv => String.eqb (fst kv) k) d.

(** [d[k] = v]: an existing key keeps its position. *)
Fixpoint dict_set (k v : string) (d : markup_map) : markup_map :=
  match d with
  | [] => [(k, v)]
  | (k', v') :: d' =>
      if String.eqb k' k then (k', v) :: d' else (k', v') :: dict_set k v d'
  end.

(** The arguments of [generate_all_components] other than the plan and
    the initial image list, and the timestamp it reads at its start. *)
Record generation_context : Type := {
  gc_form_data             : form_data_t;
  gc_logo_url              : string;
  gc_favicon_url           : string;
  gc_theme_color           : string;
  gc_font_name             : string;
  gc_business_category     : string;
  gc_business_sub_category : string;
  gc_openai_client         : string;    (* the key the client was built with *)
  gc_openrouter_key        : string;
  gc_image_prompts_info    : image_plan_t;
  gc_timestamp             : string
}.

Definition bare_component (n p : string) (o : Z) (img : bool) : component :=
  {| name := Some n; purpose := Some p; order := Some o; needs_image := Some img;
     image_prompt := None; image_dimensions := None; image_aspect_ratio := None;
     image_usage := None; design_style := None; layout_type := None;
     visual_features := None |}.

Definition fixed_components : list component :=
  [ bare_component "Navigation"
      "Fixed navigation bar with logo and navigation links" 1 false;
    bare_component "Hero"
      "Hero section with hero image, headline, and call-to-action" 2 true;
    bare_component "Contact"
      "Contact form with mailto: link (form onsubmit uses mailto:EMAIL with subject and body), address display, phone, email, and optional Google Maps embed for location"
      7 false;
    bare_component "Footer"
      "Footer with social links, copyright, and company information" 8 false ].

Definition set_order (o : Z) (c : component) : component :=
  {| name := name c; purpose := purpose c; order := Some o;
     needs_image := needs_image c; image_prompt := image_prompt c;
     image_dimensions := image_dimensions c;
     image_aspect_ratio := image_aspect_ratio c; image_usage := image_usage c;
     design_style := design_style c; layout_type := layout_type c;
     visual_features := visual_features c |}.

(** [for idx, comp in enumerate(dynamic_components)]: give an order to
    the components that have none below 3. *)
Fixpoint ensure_orders (idx : Z) (comps : list component) : list component :=
  match comps with
  | [] => []
  | comp :: rest =>
      (match order comp with
       | Some o => if (o <? 3)%Z then set_order (3 + idx) comp else comp
       | None => set_order (3 + idx) comp
       end) :: ensure_orders (idx + 1) rest
  end.

(** [x.get('order', 999)] *)
Definition order_key (c : component) : Z := default 999%Z (order c).

(** [list.sort(key=...)] is stable; so is insertion from the right in
    front of the first element that is not smaller. *)
Fixpoint insert_by_order (c : component) (l : list component) : list component :=
  match l with
  | [] => [c]
  | d :: l' =>
      if (order_key c <=? order_key d)%Z then c :: d :: l'
      else d :: insert_by_order c l'
  end.

Definition sort_by_order (l : list component) : list component :=
  fold_right insert_by_order [] l.

(** The list the main loop runs over. *)
Definition components_to_generate (pd : plan_data) : list component :=
  let from_plan := default [] (all_components pd) in
  sort_by_order
    (match from_plan with
     | [] => fixed_components ++ ensure_orders 0 (default [] (dynamic_components pd))
     | _ => from_plan
     end).

(** [image_prompts_info], read from the plan when the argument is empty. *)
Definition image_prompts_of (ctx : generation_context) (pd : plan_data) : image_plan_t :=
  match gc_image_prompts_info ctx with
  | Some h => Some h
  | None => default None (image_plan pd)
  end.

Definition prompt_args (ctx : generation_context) (prompts : image_plan_t)
    (comp_name comp_purpose : string) (image_urls : list string)
    (design : option design_info) : component_prompt_args :=
  {| cp_component_name := comp_name;
     cp_component_purpose := comp_purpose;
     cp_form_data := gc_form_data ctx;
     cp_image_urls := image_urls;
     cp_logo_url := gc_logo_url ctx;
     cp_favicon_url := gc_favicon_url ctx;
     cp_theme_color := gc_theme_color ctx;
     cp_font_name := gc_font_name ctx;
     cp_business_category := gc_business_category ctx;
     cp_business_sub_category := gc_business_sub_category ctx;
     cp_component_design_info := design;
     cp_image_prompts_info := prompts |}.

Definition design_info_of (comp : component) : design_info :=
  {| di_design_style := default "" (design_style comp);
     di_layout_type := default "" (layout_type comp);
     di_visual_features := default "" (visual_features comp);
     di_image_dimensions := default "" (image_dimensions comp);
     di_image_usage := default "" (image_usage comp) |}.

(** STEP 1 of the loop body: the image list after the on-demand image. *)
Definition image_step (ctx : generation_context) (comp : component)
    (generated_image_urls : list string) : M (list string) :=
  if default false (needs_image comp)
  then image_url <- generate_image_for_component comp (gc_timestamp ctx)
                      (gc_openai_client ctx) ;;
       match image_url with
       | Some url =>
           if Py.truthy url then ret (generated_image_urls ++ [url])
           else ret generated_image_urls
       | None => ret generated_image_urls
       end
  else ret generated_image_urls.

(** STEP 2 of the loop body: the markup, recorded when it is not empty. *)
Definition markup_step (ctx : generation_context) (prompts : image_plan_t)
    (comp : component) (generated_image_urls : list string) (components : markup_map)
    : M markup_map :=
  let comp_name := default "Unknown" (name comp) in
  let comp_purpose := default "Component" (purpose comp) in
  comp_code <- generate_component
                 (prompt_args ctx prompts comp_name comp_purpose generated_image_urls
                    (Some (design_info_of comp)))
                 (gc_openrouter_key ctx) (Some []) ;;
  match comp_code with
  | Some code =>
      if Py.truthy code then ret (dict_set comp_name code components)
      else ret components
  | None => ret components
  end.

(** One iteration of [for comp in all_components_from_plan]. *)
Definition process_component (ctx : generation_context) (prompts : image_plan_t)
    (comp : component) (acc : markup_map * list string)
    : M (markup_map * list string) :=
  images <- image_step ctx comp (snd acc) ;;
  components <- markup_step ctx prompts comp images (fst acc) ;;
  ret (components, images).

(** The main loop.  An exception leaves it with the dict as it stood
    before the iteration that raised. *)
Fixpoint generation_loop (ctx : generation_context) (prompts : image_plan_t)
    (comps : list component) (acc : markup_map * list string)
    : state -> (markup_map * list string) * option py_error * state :=
  fun st =>
    match comps with
    | [] => (acc, None, st)
    | comp :: rest =>
        match process_component ctx prompts comp acc st with
        | (Ok acc', st') => generation_loop ctx prompts rest acc' st'
        | (Raise e, st') => (acc, Some e, st')
        end
    end.

(** [next((c for c in all if c.get('name') == role), None)] *)
Definition find_component (role : string) (comps : list component) : option component :=
  List.find (fun c => match name c with
                      | Some n => String.eqb n role
                      | None => false
                      end) comps.

(** The block ["if role not in components: ..."] after the loop, written
    once for ['Contact'] and once for ['Footer']. *)
Definition regenerate_if_missing (role default_purpose : string)
    (ctx : generation_context) (prompts : image_plan_t)
    (comps : list component) (generated_image_urls : list string)
    (components : markup_map) : M markup_map :=
  if dict_has role components then ret components
  else match find_component role comps with
       | None => ret components
       | Some comp =>
           code <- generate_component
                     (prompt_args ctx prompts role
                        (default default_purpose (purpose comp))
                        generated_image_urls None)
                     (gc_openrouter_key ctx) (Some []) ;;
           match code with
           | Some c => if Py.truthy c then ret (dict_set role c components)
                       else ret components
           | None => ret components
           end
       end.

(** What [generate_all_components] returns: the markup entries and,
    when the run got that far, the image list stored under
    ['__generated_images__']. *)
Record generated : Type := {
  components       : markup_map;
  generated_images : option (list string)
}.

(** [components['__generated_images__'] = generated_image_urls] takes
    the place of a markup entry of that name. *)
Definition store_images (components : markup_map) (images : list string) : generated :=
  {| components :=
       List.filter (fun kv => negb (String.eqb (fst kv) "__generated_images__")) components;
     generated_images := Some images |}.

Definition generate_all_components (pd : plan_data) (ctx : generation_context)
    (image_urls : list string) : state -> generated * state :=
  fun st =>
    let comps := components_to_generate pd in
    let prompts := image_prompts_of ctx pd in
    match generation_loop ctx prompts comps ([], image_urls) st with
    | (acc, Some _, st1) =>
        ({| components := fst acc; generated_images := None |}, st1)
    | (acc, None, st1) =>
        match regenerate_if_missing "Contact" "Contact form with mailto: link"
                ctx prompts comps (snd acc) (fst acc) st1 with
        | (Raise _, st2) =>
            ({| components := fst acc; generated_images := None |}, st2)
        | (Ok with_contact, st2) =>
            match regenerate_if_missing "Footer"
                    "Footer with social links, copyright, and company information"
                    ctx prompts comps (snd acc) with_contact st2 with
            | (Raise _, st3) =>
                ({| components := with_contact; generated_images := None |}, st3)
            | (Ok with_footer, st3) => (store_images with_footer (snd acc), st3)
            end
        end
    end.

(* =================================================================== *)
(** ** The combiner ([combine_components]) *)
(* =================================================================== *)

Definition nl : string := String "010"%char EmptyString.
Definition dquote : string := String "034"%char EmptyString.

(** The block under ["# Ensure it starts with <!DOCTYPE"]. *)
Definition ensure_doctype (html_code : string) : string :=
  if Py.startswith "<!DOCTYPE" html_code then html_code
  else match Py.find "<!DOCTYPE" html_code with
       | Some i => Py.drop i html_code
       | None => "<!DOCTYPE html>" +:+ nl +:+ html_code
       end.

Definition spacing_css : string :=
  nl +:+ "        /* Ensure proper spacing between sections */" +:+ nl
  +:+ "        section, .section, [class*=" +:+ dquote +:+ "section" +:+ dquote +:+ "] {" +:+ nl
  +:+ "            padding-top: 80px !important;" +:+ nl
  +:+ "            padding-bottom: 80px !important;" +:+ nl
  +:+ "        }" +:+ nl
  +:+ "        ".

(** The block under ["# Ensure proper spacing between sections"]. *)
Definition ensure_spacing (html_code : string) : string :=
  if negb (Py.str_in "padding-top: 80px" html_code) && negb (Py.str_in "py-5" html_code)
  then if Py.str_in "<style>" html_code
       then Py.replace "<style>" ("<style>" +:+ spacing_css) html_code
       else html_code
  else html_code.

(** From the message content to the returned document.  The check that
    every component still shows up in the merged text only feeds log
    lines and is left out. *)
Definition postprocess_html (content : string) : string :=
  ensure_spacing (ensure_doctype (Py.strip_code_fence "```html" (Py.strip content))).

(** The [try] body of one combination attempt. *)
Definition combine_attempt (req : chat_request) (openrouter_key : string) : M string :=
  content <- post openrouter_key req ;;
  match content with
  | None => raise (Exception "No response from OpenRouter/Gemini")
  | Some c =>
      if Py.truthy c then ret (postprocess_html c)
      else raise (Exception "No response from OpenRouter/Gemini")
  end.

(** [None] is the [return None] of the outer handler. *)
Definition combine_components (all_components : markup_map) (form_data : form_data_t)
    (image_urls : list string) (logo_url favicon_url theme_color font_name : string)
    : M (option string) :=
  try_except
    (key <- get_openrouter_key ;;
     match usable_key key with
     | None => raise (Exception "OPENROUTER_API_KEY not configured for final combination")
     | Some openrouter_key =>
         st <- get_state ;;
         let max_retries := max_retries_of (consolidated_openrouter st) in
         html <- retry_loop "combine components" "combination"
                   (combine_attempt
                      (CombinationRequest all_components form_data image_urls
                         logo_url favicon_url theme_color font_name)
                      openrouter_key)
                   max_retries max_retries ;;
         ret (Some html)
     end)
    (fun _ => ret None).

(* =================================================================== *)
(** ** The checks of [create_website] on the combined document *)
(* =================================================================== *)

Definition bootstrap_css : string :=
  "<link href=" +:+ dquote
  +:+ "https://cdn.jsdelivr.net/npm/bootstrap@5.3.0/dist/css/bootstrap.min.css"
  +:+ dquote +:+ " rel=" +:+ dquote +:+ "stylesheet" +:+ dquote +:+ ">" +:+ nl.

Definition bootstrap_js : string :=
  "<script src=" +:+ dquote
  +:+ "https://cdn.jsdelivr.net/npm/bootstrap@5.3.0/dist/js/bootstrap.bundle.min.js"
  +:+ dquote +:+ "></script>" +:+ nl.

(** The block under ["# Ensure Bootstrap CSS is included"]. *)
Definition ensure_bootstrap (generated_code : string) : string :=
  if negb (Py.str_in "bootstrap" (Py.lower generated_code))
     || negb (Py.str_in "cdn.jsdelivr.net/npm/bootstrap" (Py.lower generated_code))
  then
    let with_css :=
      if Py.str_in "</head>" generated_code
      then Py.replace "</head>" (bootstrap_css +:+ "</head>") generated_code
      else if Py.str_in "<head>" generated_code
      then Py.replace "<head>" ("<head>" +:+ nl +:+ bootstrap_css) generated_code
      else generated_code in
    if Py.str_in "</body>" with_css
    then Py.replace "</body>" (bootstrap_js +:+ "</body>") with_css
    else if Py.str_in "<body>" with_css
    then Py.replace "<body>" ("<body>" +:+ nl +:+ bootstrap_js) with_css
    else with_css
  else generated_code.

(** Lines 260-291 of [create_website]: from what [combine_components]
    returned to the ["code"] of the response, or the exception raised. *)
Definition finalize_document (generated_code : option string) : result string :=
  match generated_code with
  | None => Raise (Exception "Failed to combine components into final HTML")
  | Some code =>
      if negb (Py.truthy code)
      then Raise (Exception "Failed to combine components into final HTML")
      else if (String.length (Py.strip code) <? 100)%nat
      then Raise (Exception "Generated code is too short or empty. Please try again.")
      else if negb (Py.str_in "<html" (Py.lower code))
              || negb (Py.str_in "<body" (Py.lower code))
      then Raise (Exception
             "Generated code is missing required HTML structure (html, body tags)")
      else Ok (Py.strip (ensure_bootstrap code))
  end.

End Pipeline.

Arguments Ok {A} a.
Arguments Raise {A} e.
Arguments world {P} s.
Arguments openai_key_manager {P} s.
Arguments openrouter_key_manager {P} s.
Arguments consolidated_openai {P} s.
Arguments consolidated_openrouter {P} s.
Arguments log {P} s.
Arguments ret {P A} a st.
Arguments raise {P A} e st.
Arguments bind {P A B} c k st.
Arguments try_except {P A} c h st.
Arguments get_state {P} st.

(* ===================================================================== *)
(** ** Concrete providers and inputs *)
(* ===================================================================== *)

Module Examples.

(** Providers that answer the n-th chat call with [posts n] and the n-th
    image call with [images n]; the world counts the calls made. *)
Definition scripted (posts : nat -> post_outcome) (images : nat -> image_outcome)
    (loads : string -> result plan_data) : Providers :=
  {| World := nat * nat;
     chat_completions := fun w _ _ => (posts (fst w), (S (fst w), snd w));
     images_generate := fun w _ _ => (images (snd w), (fst w, S (snd w)));
     json_loads := loads |}.

(** A fresh request: both pools loaded with the given keys, cursors at
    0, nothing logged. *)
Definition initial_state (P : Providers) (w : World P)
    (openai_keys openrouter_keys : list string) : state P :=
  {| world := w;
     openai_key_manager := {| keys := openai_keys; current_key_index := 0 |};
     openrouter_key_manager := {| keys := openrouter_keys; current_key_index := 0 |};
     consolidated_openai := {| keys := openai_keys; current_key_index := 0 |};
     consolidated_openrouter := {| keys := openrouter_keys; current_key_index := 0 |};
     log := [] |}.

Definition plain_error (cls : exn_class) (type_name msg : string)
    (response_status : option Z) : py_error :=
  {| err_class := cls; err_type_name := type_name; err_str := msg;
     err_args := [ {| arg_str := msg; arg_payload := None |} ];
     err_status_code := None; err_status := None; err_message := None;
     err_response_status := response_status |}.

(** What [raise_for_status] raises on a 429 answer. *)
Definition http_429 : py_error :=
  plain_error HTTPError "HTTPError"
    "429 Client Error: Too Many Requests for url: https://openrouter.ai/api/v1/chat/completions"
    (Some 429%Z).

(** What [raise_for_status] raises on a 500 answer. *)
Definition http_500 : py_error :=
  plain_error HTTPError "HTTPError"
    "500 Server Error: Internal Server Error for url: https://openrouter.ai/api/v1/chat/completions"
    (Some 500%Z).

(** What [requests.post] raises when the connection drops. *)
Definition connection_error : py_error :=
  plain_error OtherException "ConnectionError" "Connection aborted." None.

(** An OpenAI API error that carries [status_code = 429] and says so in
    its text. *)
Definition openai_429 : py_error :=
  {| err_class := OtherException; err_type_name := "RateLimitError";
     err_str := "Error code: 429 - too many requests";
     err_args := [ {| arg_str := "Error code: 429 - too many requests";
                      arg_payload := None |} ];
     err_status_code := Some 429%Z; err_status := None; err_message := None;
     err_response_status := None |}.

(** An error with [status_code = 429] and a text that has no marker. *)
Definition silent_429 : py_error :=
  {| err_class := OtherException; err_type_name := "APIStatusError";
     err_str := "request failed";
     err_args := [ {| arg_str := "request failed"; arg_payload := None |} ];
     err_status_code := Some 429%Z; err_status := None; err_message := None;
     err_response_status := Some 429%Z |}.


Definition no_json (_ : string) : result plan_data :=
  Raise (plain_error JSONDecodeError "JSONDecodeError"
           "Expecting value: line 1 column 1 (char 0)" None).

(** Every chat call is answered with 429, every image call fails. *)
Definition always_429 : Providers :=
  scripted (fun _ => PostRaise http_429) (fun _ => ImageRaise openai_429) no_json.

(** The connection drops on every chat call. *)
Definition always_disconnected : Providers :=
  scripted (fun _ => PostRaise connection_error) (fun _ => ImageRaise openai_429) no_json.

(** Every chat call is answered with 500. *)
Definition always_500 : Providers :=
  scripted (fun _ => PostRaise http_500) (fun _ => ImageRaise openai_429) no_json.


(** A provider response with eight components that all claim slot 1. *)
Definition crowded_component : component :=
  {| name := Some "Banner"; purpose := None; order := Some 1%Z;
     needs_image := Some false; image_prompt := None; image_dimensions := None;
     image_aspect_ratio := None; image_usage := None; design_style := None;
     layout_type := None; visual_features := None |}.

Definition crowded_plan : plan_data :=
  {| all_components := Some (repeat crowded_component 8);
     dynamic_components := None; image_plan := None;
     component_order := None; notes := None |}.

Definition quoted (s : string) : string := dquote +:+ s +:+ dquote.

(** The JSON text of [crowded_component] and of [crowded_plan]. *)
Definition crowded_component_text : string :=
  "{" +:+ quoted "name" +:+ ": " +:+ quoted "Banner" +:+ ", "
  +:+ quoted "order" +:+ ": 1, " +:+ quoted "needs_image" +:+ ": false}".

Definition crowded_text : string :=
  "{" +:+ quoted "all_components" +:+ ": ["
  +:+ String.concat ", " (repeat crowded_component_text 8) +:+ "]}".

(** [json.loads] on the one text the crowded provider sends. *)
Definition crowded_loads (text : string) : result plan_data :=
  if String.eqb text crowded_text then Ok crowded_plan else no_json text.

Definition crowded_provider : Providers :=
  scripted (fun _ => PostContent (Some crowded_text)) (fun _ => ImageRaise openai_429)
    crowded_loads.

(** A descriptor with a name, a slot and a [needs_image] value only. *)
Definition slot_component (n : string) (o : Z) (img : bool) : component :=
  {| name := Some n; purpose := None; order := Some o;
     needs_image := Some img; image_prompt := None; image_dimensions := None;
     image_aspect_ratio := None; image_usage := None; design_style := None;
     layout_type := None; visual_features := None |}.

(** A provider response with the eight roles in their slots, but with an
    image asked for the Navigation and none for the Hero. *)
Definition misflagged_components : list component :=
  [ slot_component "Navigation" 1 true; slot_component "Hero" 2 false;
    slot_component "Services" 3 false; slot_component "About" 4 false;
    slot_component "Features" 5 false; slot_component "Testimonials" 6 false;
    slot_component "Contact" 7 false; slot_component "Footer" 8 false ].

Definition misflagged_plan : plan_data :=
  {| all_components := Some misflagged_components;
     dynamic_components := None; image_plan := None;
     component_order := None; notes := None |}.

Definition component_json (n o img : string) : string :=
  "{" +:+ quoted "name" +:+ ": " +:+ quoted n +:+ ", "
  +:+ quoted "order" +:+ ": " +:+ o +:+ ", " +:+ quoted "needs_image" +:+ ": " +:+ img +:+ "}".

Definition misflagged_text : string :=
  "{" +:+ quoted "all_components" +:+ ": ["
  +:+ String.concat ", "
        [ component_json "Navigation" "1" "true"; component_json "Hero" "2" "false";
          component_json "Services" "3" "false"; component_json "About" "4" "false";
          component_json "Features" "5" "false"; component_json "Testimonials" "6" "false";
          component_json "Contact" "7" "false"; component_json "Footer" "8" "false" ]
  +:+ "]}".

(** [json.loads] on the one text the misflagged provider sends. *)
Definition misflagged_loads (text : string) : result plan_data :=
  if String.eqb text misflagged_text then Ok misflagged_plan else no_json text.

Definition misflagged_provider : Providers :=
  scripted (fun _ => PostContent (Some misflagged_text)) (fun _ => ImageRaise openai_429)
    misflagged_loads.






(** A merge response that is a whole document without a doctype. *)
Definition plain_document_text : string :=
  "<html><head><title>Acme Bakery</title></head><body><h1>Acme Bakery</h1><p>Fresh bread every morning, baked on site.</p></body></html>".




(** A text provider that always answers with a small section; no image
    can be generated. *)
Definition always_answers : Providers :=
  scripted (fun _ => PostContent (Some "<section>ok</section>"))
    (fun _ => ImageRaise openai_429) no_json.


Definition bakery_context : generation_context :=
  {| gc_form_data := ∅; gc_logo_url := ""; gc_favicon_url := "";
     gc_theme_color := "#4f46e5"; gc_font_name := "Inter";
     gc_business_category := "Food"; gc_business_sub_category := "Bakery";
     gc_openai_client := "img-key"; gc_openrouter_key := "k1";
     gc_image_prompts_info := None; gc_timestamp := "20260101_000000" |}.


(** An environment for the key managers: a list variable with a
    repeated and an empty entry, a primary key, and numbered variables
    with a gap at 3. *)
Definition sample_env : gmap string string :=
  <["OPENAI_API_KEYS" := " k1 , k2,,k1 "]>
  (<["OPENAI_API_KEY" := "k3"]>
  (<["OPENAI_API_KEY_1" := "k2"]>
  (<["OPENAI_API_KEY_2" := "k4"]>
  (<["OPENAI_API_KEY_4" := "k5"]> ∅)))).


(** A Hero descriptor that carries an image prompt. *)
Definition hero_with_prompt : component :=
  {| name := Some "Hero"; purpose := Some "Hero section with banner";
     order := Some 2%Z; needs_image := Some true;
     image_prompt := Some "a bakery at dawn"; image_dimensions := Some "1920x600";
     image_aspect_ratio := Some "16:5"; image_usage := None; design_style := None;
     layout_type := None; visual_features := None |}.




End Examples.


(* ===================================================================== *)
(** ** The plan invariant of the specification *)
(* ===================================================================== *)

Module Spec.

(** The role and the [needs_image] value bound to a fixed slot. *)
Definition fixed_role (slot : Z) : option (string * bool) :=
  if (slot =? 1)%Z then Some ("Navigation", false)
  else if (slot =? 2)%Z then Some ("Hero", true)
  else if (slot =? 7)%Z then Some ("Contact", false)
  else if (slot =? 8)%Z then Some ("Footer", false)
  else None.

Definition role_respected (c : component) : Prop :=
  match order c with
  | Some slot =>
      match fixed_role slot with
      | Some (role, img) => name c = Some role /\ needs_image c = Some img
      | None => True
      end
  | None => False
  end.

(** "Exactly 8 descriptors, slots form a permutation of 1..8, slots
    1, 2, 7, 8 bound to Navigation, Hero, Contact, Footer", with the
    [needs_image] rule of the fixed roles. *)
Definition well_formed_plan (comps : list component) : Prop :=
  length comps = 8%nat
  /\ Permutation (map order comps) (map Some [1; 2; 3; 4; 5; 6; 7; 8]%Z)
  /\ Forall role_respected comps.

(** The request [generate_component] sends for [comp] when the image
    list is [image_urls]. *)
Definition component_request (ctx : generation_context) (prompts : image_plan_t)
    (comp : component) (image_urls : list string) : chat_request :=
  ComponentRequest
    (prompt_args ctx prompts (default "Unknown" (name comp))
       (default "Component" (purpose comp)) image_urls (Some (design_info_of comp)))
    [].

(** "Descriptors are processed in list order; the image list is
    append-only; the generation context of every component includes all
    images accumulated so far."  [processed_in_order ctx prompts comps
    images events images'] reads the external calls [events] of a run as
    one block per descriptor of [comps], in order: the image calls of the
    descriptor, which add at most one entry to the end of the image list,
    and then at least one chat call, each carrying the descriptor's
    request with the whole image list as it stands after that. *)
Inductive processed_in_order (ctx : generation_context) (prompts : image_plan_t)
  : list component -> list string -> list event -> list string -> Prop :=
| processed_nil (images : list string) :
    processed_in_order ctx prompts [] images [] images
| processed_cons (comp : component) (rest : list component)
    (images new images' : list string) (image_events chat_events events : list event) :
    (length new <= 1)%nat ->
    (default false (needs_image comp) = false -> new = [] /\ image_events = []) ->
    Forall (fun ev => is_post ev = false) image_events ->
    chat_events <> [] ->
    Forall (eq (EvPost (gc_openrouter_key ctx)
                  (component_request ctx prompts comp (images ++ new)))) chat_events ->
    processed_in_order ctx prompts rest (images ++ new) events images' ->
    processed_in_order ctx prompts (comp :: rest) images
      (image_events ++ chat_events ++ events) images'.

End Spec.

(* ===================================================================== *)
(** ** Conditions on providers and runs used in the statements *)
(* ===================================================================== *)

Section Conditions.

Variable P : Providers.

(** The size of the pool behind [rotate_openrouter_key]. *)
Definition pool_size (st : state P) : nat :=
  length (keys (openrouter_key_manager st)).

(** A [try] body that, in every state, makes the one call [ev] and
    raises a rate-limit-classified error. *)
Definition body_rate_limited {A} (body : M P A) (ev : event) : Prop :=
  forall st, exists e st',
    body st = (Raise e, st')
    /\ OpenRouterKeyManager.is_rate_limit_error e = true
    /\ (err_class e = HTTPError -> err_response_status e <> None)
    /\ log st' = log st ++ [ev]
    /\ pool_size st' = pool_size st.

(** A provider that answers every chat call with a rate-limit-classified
    error (an [HTTPError] carrying its response, as [raise_for_status]
    builds it). *)
Definition chat_always_rate_limited : Prop :=
  forall w key req, exists e w',
    chat_completions P w key req = (PostRaise e, w')
    /\ OpenRouterKeyManager.is_rate_limit_error e = true
    /\ (err_class e = HTTPError -> err_response_status e <> None).


(** Image generation for [prompt] never gets an image saved. *)
Definition image_always_fails (prompt : string) : Prop :=
  forall w key, fst (images_generate P w key prompt) <> ImageSaved.


End Conditions.

Arguments pool_size {P} st.
Arguments body_rate_limited {P A} body ev.

(** An external call that is not a chat call. *)
Definition not_post (ev : event) : Prop := is_post ev = false.

(** The markers a returned document keeps: it starts with the doctype
    and contains an html and a body tag, letter case aside. *)
Definition has_markers (s : string) : Prop :=
  Py.startswith "<!DOCTYPE" s = true
  /\ Py.str_in "<html" (Py.lower s) = true
  /\ Py.str_in "<body" (Py.lower s) = true.

(** The four replacements [ensure_bootstrap] can make. *)
Definition bootstrap_edits : list (string * string) :=
  [ ("</head>", bootstrap_css +:+ "</head>");
    ("<head>", "<head>" +:+ nl +:+ bootstrap_css);
    ("</body>", bootstrap_js +:+ "</body>");
    ("<body>", "<body>" +:+ nl +:+ bootstrap_js) ].

(** Ascending order of the sort key. *)
Definition ascending (a b : component) : Prop := (order_key a <= order_key b)%Z.


(* ===================================================================== *)
(** ** Loading a pool from the environment ([_load_keys]) *)
(* ===================================================================== *)

(** The three manager classes load their pool with the same code, from
    the variables [<X>_API_KEYS], [<X>_API_KEY] and [<X>_API_KEY_<n>]
    with X one of OPENAI, GEMINI, OPENROUTER.  The environment is a
    finite map; [random.shuffle] is a parameter. *)
Module KeyLoading.

(** [[k.strip() for k in keys_env.split(',') if k.strip()]] *)
Definition additional_keys (keys_env : string) : list string :=
  List.filter Py.truthy (map Py.strip (Py.split "," keys_env)).

(** [if key and key not in self.keys: self.keys.append(key)] *)
Definition add_key (keys : list string) (key : string) : list string :=
  if Py.truthy key && negb (existsb (String.eqb key) keys) then keys ++ [key] else keys.

(** [f'{primary}_{key_index}'] *)
Definition numbered_name (primary : string) (key_index : nat) : string :=
  primary +:+ "_" +:+ pretty key_index.

(** The [while True] loop over the numbered variables.  The flag tells
    whether the loop was left by [break] ([true]) or the iterations
    given in [fuel] ran out ([false]). *)
Fixpoint numbered_keys (env : gmap string string) (primary : string) (fuel key_index : nat)
    (keys : list string) : list string * bool :=
  match fuel with
  | O => (keys, false)
  | S fuel' =>
      match env !! numbered_name primary key_index with
      | Some key =>
          if Py.truthy key
          then numbered_keys env primary fuel' (S key_index) (add_key keys key)
          else (keys, true)
      | None => (keys, true)
      end
  end.

(** The keys gathered before the shuffle. *)
Definition gather_keys (env : gmap string string) (primary : string) : list string :=
  let keys_env := default "" (env !! (primary +:+ "S")) in
  let from_list := fold_left add_key (additional_keys keys_env) [] in
  let with_primary :=
    match env !! primary with
    | Some key => add_key from_list key
    | None => from_list
    end in
  fst (numbered_keys env primary (S (size env)) 1 with_primary).

(** [_load_keys]: the pool after the shuffle, which is applied to pools
    of more than one key. *)
Definition _load_keys (shuffle : list string -> list string) (env : gmap string string)
    (primary : string) : list string :=
  let keys := gather_keys env primary in
  if (1 <? length keys)%nat then shuffle keys else keys.

(** [__init__] *)
Definition new_manager (shuffle : list string -> list string) (env : gmap string string)
    (primary : string) : KeyManager :=
  {| keys := _load_keys shuffle env primary; current_key_index := 0 |}.

(** A variable that is set to a non-empty value: [os.getenv] gives a
    truthy string. *)
Definition is_set (env : gmap string string) (name : string) : Prop :=
  exists v, env !! name = Some v /\ Py.truthy v = true.

(** A pool without duplicates and without an empty key. *)
Definition clean (keys : list string) : Prop :=
  NoDup keys /\ Forall (fun k => Py.truthy k = true) keys.

End KeyLoading.

(** [rotate_key] applied [n] times. *)
Fixpoint rotate_times (n : nat) (m : KeyManager) : KeyManager :=
  match n with
  | O => m
  | S n' => rotate_times n' (snd (rotate_key m))
  end.

(** The cursor points into the pool. *)
Definition cursor_in_range (m : KeyManager) : Prop :=
  (current_key_index m < length (keys m))%nat.

(** A [try] body that makes the one call [ev], however it ends. *)
Definition makes_one_call {P : Providers} {A : Type} (body : M P A) (ev : event) : Prop :=
  forall (st st' : state P) (r : result A), body st = (r, st') -> log st' = log st ++ [ev].

(** Image generation for [prompt] raises on every call. *)
Definition image_always_raises (P : Providers) (prompt : string) : Prop :=
  forall w key, exists e w', images_generate P w key prompt = (ImageRaise e, w').

(** The image calls made with the keys [ks], in order. *)
Definition image_calls (prompt : string) (ks : list string) : list event :=
  map (fun k => EvImage k prompt) ks.

(** [list(d.keys())] *)
Definition dict_keys (d : markup_map) : list string := map fst d.

(** [comp.get('name', 'Unknown')], the key a component is stored under. *)
Definition comp_name_of (comp : component) : string := default "Unknown" (name comp).

(** A provider that answers every chat call with an HTTP error status
    that is not rate-limit-classified (a 500, say). *)
Definition chat_always_http_error (P : Providers) : Prop :=
  forall w key req, exists e w',
    chat_completions P w key req = (PostRaise e, w')
    /\ err_class e = HTTPError
    /\ err_response_status e <> None
    /\ OpenRouterKeyManager.is_rate_limit_error e = false.

(** The components the loop of [build_image_plan] acts on. *)
Definition is_hero_with_image (comp : component) : bool :=
  default false (needs_image comp) && String.eqb (default "" (name comp)) "Hero".

(** The entry the loop writes for such a component. *)
Definition hero_entry (comp : component) : hero_image :=
  {| hi_purpose := "Hero section banner";
     hi_prompt := default "" (image_prompt comp);
     hi_dimensions := default "1920x600" (image_dimensions comp);
     hi_aspect_ratio := default "16:5" (image_aspect_ratio comp) |}.

(** A dynamic component that gets its order from its position. *)
Definition lacks_order (comp : component) : Prop :=
  match order comp with
  | Some o => (o < 3)%Z
  | None => True
  end.

(** A text without a backtick. *)
Definition no_backtick (s : string) : Prop := Py.str_in "`" s = false.

(* ===================================================================== *)
(** ** The endpoint [create_website] ([routes/generate_code.py]) *)
(* ===================================================================== *)

(** The form fields of the request; an upload is the name of its file. *)
Record website_form : Type := {
  siteName            : string;
  businessSize        : string;
  themeColor          : string;
  fontName            : string;
  businessCategory    : string;
  businessSubCategory : string;
  businessAddress     : string;
  email               : string;
  phone               : string;
  facebook            : string;
  instagram           : string;
  linkedin            : string;
  twitter             : string;
  services            : string;
  extraPrompt         : string;
  aboutBusiness       : string;
  logoImage           : option string;
  faviconImage        : option string
}.

(** What [image_urls] holds in [create_website] once the entry
    ['__generated_images__'] has been popped: a list of image references
    or, when the entry under that name is the markup of a component so
    named, that text. *)
Inductive image_value : Type :=
| ImageList (urls : list string)
| ImageText (markup : string).

(** What [', '.join(image_urls)] runs over, the one use the combination
    prompt makes of [image_urls]: the elements of a list, the characters
    of a text. *)
Definition items_of (v : image_value) : list string :=
  match v with
  | ImageList urls => urls
  | ImageText markup =>
      map (fun c => String c EmptyString) (list_ascii_of_string markup)
  end.

(** [d.get(k)] *)
Definition dict_get (k : string) (d : markup_map) : option string :=
  option_map snd (List.find (fun kv => String.eqb (fst kv) k) d).

(** The dict [d.pop(k)] leaves. *)
Definition dict_remove (k : string) (d : markup_map) : markup_map :=
  List.filter (fun kv => negb (String.eqb (fst kv) k)) d.

(** The statements
<<
    if '__generated_images__' in all_components:
        image_urls = all_components.pop('__generated_images__')
>>
    with [image_urls = []] before them: the dict that is left and the
    value of [image_urls].  After a run that ended by an exception the
    dict holds markup only, and an entry of that name is a markup
    entry. *)
Definition pop_generated_images (g : generated) : markup_map * image_value :=
  match generated_images g with
  | Some images => (components g, ImageList images)
  | None =>
      match dict_get "__generated_images__" (components g) with
      | Some markup =>
          (dict_remove "__generated_images__" (components g), ImageText markup)
      | None => (components g, ImageList [])
      end
  end.

(** What the endpoint answers: the JSON body of a success, or the
    [HTTPException] it raises. *)
Inductive response : Type :=
| JSONResponse (code : string) (images : image_value)
| HTTPException (status_code : Z) (detail : string).

Definition form_data_of (f : website_form) : form_data_t :=
  list_to_map
    [ ("siteName", siteName f); ("businessSize", businessSize f);
      ("themeColor", themeColor f); ("fontName", fontName f);
      ("businessCategory", businessCategory f);
      ("businessSubCategory", businessSubCategory f);
      ("businessAddress", businessAddress f); ("email", email f);
      ("phone", phone f); ("facebook", facebook f); ("instagram", instagram f);
      ("linkedin", linkedin f); ("twitter", twitter f); ("services", services f);
      ("extraPrompt", extraPrompt f); ("aboutBusiness", aboutBusiness f) ].

(** The URL an upload is saved under, [''] when there is none.  Writing
    the file is taken to succeed. *)
Definition upload_url (kind timestamp : string) (upload : option string) : string :=
  match upload with
  | Some filename =>
      if Py.truthy filename
      then "/static/generated/"
           +:+ Py.replace " " "_" (kind +:+ "_" +:+ timestamp +:+ "_" +:+ filename)
      else ""
  | None => ""
  end.

(** [len(all_components)]: the markup entries and, when it is there, the
    entry ['__generated_images__']. *)
Definition dict_len (g : generated) : nat :=
  (length (components g) + match generated_images g with Some _ => 1 | None => 0 end)%nat.

Section Endpoint.

Variable P : Providers.

(** [str(e)] for an [HTTPException], which the web framework defines. *)
Variable str_of_http_exception : Z -> string -> string.

(** The steps after the keys are known. *)
Definition generate_and_combine (f : website_form) (logo_url favicon_url : string)
    (gen_timestamp : string) (plan : plan_data) (openai_key openrouter_key : string)
    : state P -> response * state P :=
  fun st1 =>
    let form_data := form_data_of f in
    let theme_color := default "#4f46e5" (form_data !! "themeColor") in
    let font_name := default "Inter" (form_data !! "fontName") in
    let ctx := {| gc_form_data := form_data;
                  gc_logo_url := logo_url;
                  gc_favicon_url := favicon_url;
                  gc_theme_color := theme_color;
                  gc_font_name := font_name;
                  gc_business_category := default "" (form_data !! "businessCategory");
                  gc_business_sub_category :=
                    default "" (form_data !! "businessSubCategory");
                  gc_openai_client := openai_key;
                  gc_openrouter_key := openrouter_key;
                  gc_image_prompts_info := default None (image_plan plan);
                  gc_timestamp := gen_timestamp |} in
    let '(g, st2) := generate_all_components P plan ctx [] st1 in
    if (dict_len g <? 4)%nat
    then (HTTPException 500
            ("Failed to generate components. Only " +:+ pretty (dict_len g)
             +:+ " components generated."), st2)
    else
      let '(all_components, image_urls) := pop_generated_images g in
      match combine_components P all_components form_data (items_of image_urls)
              logo_url favicon_url theme_color font_name st2 with
      | (Raise e, st3) =>
          (HTTPException 500 ("Failed to generate website: " +:+ err_str e), st3)
      | (Ok generated_code, st3) =>
          if negb (Py.truthy (default "" generated_code))
          then (HTTPException 500
                  ("Failed to generate website: "
                   +:+ str_of_http_exception 500
                         "Failed to combine components into final HTML"), st3)
          else match finalize_document generated_code with
               | Raise e =>
                   (HTTPException 500 ("Failed to generate website: " +:+ err_str e), st3)
               | Ok code => (JSONResponse code image_urls, st3)
               end
      end.

(** [timestamp] is the clock read of the endpoint, [gen_timestamp] the
    one of [generate_all_components]. *)
Definition create_website (f : website_form) (timestamp gen_timestamp : string)
    : state P -> response * state P :=
  fun st =>
    if negb (Py.truthy (siteName f))
    then (HTTPException 400 "Site name is required", st)
    else if negb (Py.truthy (businessCategory f))
    then (HTTPException 400 "Business Category is required", st)
    else if negb (Py.truthy (businessSubCategory f))
    then (HTTPException 400 "Business Sub Category is required", st)
    else
      let logo_url := upload_url "logo" timestamp (logoImage f) in
      let favicon_url := upload_url "favicon" timestamp (faviconImage f) in
      match plan_website_components P (form_data_of f) st with
      | (Raise e, st1) => (HTTPException 500 (err_str e), st1)
      | (Ok plan, st1) =>
          match usable_key (get_key (openai_key_manager st1)) with
          | None =>
              (HTTPException 500 "OPENAI_API_KEY not configured for image generation", st1)
          | Some openai_key =>
              match usable_key (get_key (openrouter_key_manager st1)) with
              | None =>
                  (HTTPException 500
                     "OPENROUTER_API_KEY not configured for component generation", st1)
              | Some openrouter_key =>
                  generate_and_combine f logo_url favicon_url gen_timestamp plan
                    openai_key openrouter_key st1
              end
          end
      end.

End Endpoint.

Module EndpointExamples.

Import Examples.

(** A valid request of a bakery. *)
Definition bakery_form : website_form :=
  {| siteName := "Acme Bakery"; businessSize := "Small"; themeColor := "#4f46e5";
     fontName := "Inter"; businessCategory := "Food"; businessSubCategory := "Bakery";
     businessAddress := ""; email := ""; phone := ""; facebook := ""; instagram := "";
     linkedin := ""; twitter := ""; services := ""; extraPrompt := "";
     aboutBusiness := ""; logoImage := None; faviconImage := None |}.

(** A text provider whose planning answer is no JSON, whose component
    answers are a small section and whose tenth answer, the merge for a
    plan of eight components and a single key, is a whole document; no
    image can be generated. *)
Definition bakery_site : Providers :=
  scripted (fun n => if (n =? 9)%nat then PostContent (Some plain_document_text)
                     else PostContent (Some "<section>ok</section>"))
    (fun _ => ImageRaise openai_429) no_json.

(** A planning answer whose third descriptor is named
    ['__generated_images__']. *)
Definition mislabelled_components : list component :=
  [ slot_component "Navigation" 1 false; slot_component "Hero" 2 false;
    slot_component "__generated_images__" 3 false; slot_component "About" 4 false;
    slot_component "Features" 5 false; slot_component "Testimonials" 6 false;
    slot_component "Contact" 7 false; slot_component "Footer" 8 false ].

Definition mislabelled_plan : plan_data :=
  {| all_components := Some mislabelled_components;
     dynamic_components := None; image_plan := None;
     component_order := None; notes := None |}.

Definition mislabelled_text : string :=
  "{" +:+ quoted "all_components" +:+ ": ["
  +:+ String.concat ", "
        [ component_json "Navigation" "1" "false"; component_json "Hero" "2" "false";
          component_json "__generated_images__" "3" "false";
          component_json "About" "4" "false"; component_json "Features" "5" "false";
          component_json "Testimonials" "6" "false"; component_json "Contact" "7" "false";
          component_json "Footer" "8" "false" ]
  +:+ "]}".

Definition mislabelled_loads (text : string) : result plan_data :=
  if String.eqb text mislabelled_text then Ok mislabelled_plan else no_json text.

(** A text provider that sends that plan, answers five component
    requests with a small section, the sixth with 500, and the merge
    request that follows with a whole document. *)
Definition mislabelled_site : Providers :=
  scripted (fun n => if (n =? 0)%nat then PostContent (Some mislabelled_text)
                     else if (n =? 6)%nat then PostRaise http_500
                     else if (n =? 7)%nat then PostContent (Some plain_document_text)
                     else PostContent (Some "<section>ok</section>"))
    (fun _ => ImageRaise openai_429) mislabelled_loads.

End EndpointExamples.

(** The pools and the OpenAI cursor are as they were. *)
Definition same_pools {P : Providers} (st st' : state P) : Prop :=
  openai_key_manager st' = openai_key_manager st
  /\ consolidated_openai st' = consolidated_openai st
  /\ consolidated_openrouter st' = consolidated_openrouter st
  /\ keys (openrouter_key_manager st') = keys (openrouter_key_manager st).

(** The calls of the generation step: image calls and component
    requests. *)
Definition is_generation_event (ev : event) : bool :=
  match ev with
  | EvImage _ _ => true
  | EvPost _ (ComponentRequest _ _) => true
  | EvPost _ _ => false
  end.

(** A reference to a file under [static/generated]. *)
Definition is_local_image (url : string) : Prop :=
  Py.startswith "/static/generated/" url = true.

(* ===================================================================== *)
(** ** The endpoint [edit_component] ([routes/generate_code.py]) *)
(* ===================================================================== *)

(** The block under ["# Clean up markdown code blocks if present"] of
    [edit_component], which works on lines:
<<
    if generated_code.startswith('```'):
        lines = generated_code.split('\n')
        lines = lines[1:]
        if lines and lines[-1].strip() == '```':
            lines = lines[:-1]
        generated_code = '\n'.join(lines)
>> *)
Definition unfence_lines (generated_code : string) : string :=
  if Py.startswith "```" generated_code
  then
    let lines := tl (Py.split nl generated_code) in
    let lines :=
      match last lines with
      | Some l => if String.eqb (Py.strip l) "```" then removelast lines else lines
      | None => lines
      end in
    String.concat nl lines
  else generated_code.

(** From the message content to the ["code"] of the answer. *)
Definition clean_edited_code (content : string) : string :=
  Py.strip (unfence_lines (Py.strip content)).

(* ===================================================================== *)
(** ** The consolidated manager and the endpoint [generate_image] *)
(* ===================================================================== *)

(** [GeminiKeyManager.is_rate_limit_error].  The entry ['status'] of a
    nested payload, which the other classifiers do not read, is a
    parameter. *)
Module GeminiKeyManager.

Section WithStatus.

(** [nested.get('status', '')], when it is a string *)
Variable payload_status : nested_payload -> option string.

Definition arg_is_rate_limit (a : py_arg) : bool :=
  Py.str_in "429" (arg_str a)
  || Py.str_in "resource_exhausted" (Py.lower (arg_str a))
  || Py.str_in "quota" (Py.lower (arg_str a))
  || match arg_payload a with
     | Some nested =>
         is_429 (np_code nested)
         || String.eqb (default "" (payload_status nested)) "RESOURCE_EXHAUSTED"
     | None => false
     end.

Definition checks : list check :=
  [ (TextualMarker, fun e => Py.str_in "429" (err_str e));
    (TextualMarker, fun e => Py.str_in "resource_exhausted" (Py.lower (err_str e)));
    (TextualMarker, fun e =>
       Py.str_in "rate limit" (Py.lower (err_str e))
       || Py.str_in "quota" (Py.lower (err_str e))
       || Py.str_in "exceeded" (Py.lower (err_str e)));
    (TextualMarker, fun e =>
       Py.str_in "429" (Py.lower (err_type_name e))
       || Py.str_in "ratelimit" (Py.lower (err_type_name e))
       || Py.str_in "resourceexhausted" (Py.lower (err_type_name e)));
    (NumericStatus, fun e => is_429 (err_status_code e));
    (NumericStatus, fun e => is_429 (err_status e));
    (ArgsPayload, fun e => existsb arg_is_rate_limit (err_args e));
    (MessageAttr, fun e =>
       match err_message e with
       | Some m => Py.str_in "429" m || Py.str_in "resource_exhausted" (Py.lower m)
       | None => false
       end) ].

Definition is_rate_limit_error (e : py_error) : bool := run_checks checks e.

End WithStatus.

End GeminiKeyManager.

(** [ConsolidatedKeyManager]: keys and rotation are those of its OpenAI
    manager, the classifier is the disjunction of the three. *)
Module ConsolidatedKeyManager.

Definition is_rate_limit_error (payload_status : nested_payload -> option string)
    (e : py_error) : bool :=
  OpenAIKeyManager.is_rate_limit_error e
  || GeminiKeyManager.is_rate_limit_error payload_status e
  || OpenRouterKeyManager.is_rate_limit_error e.

End ConsolidatedKeyManager.

(** What an endpoint answers: a JSON body, the [HTTPException] it
    raises, or nothing when the function ends without [return]. *)
Inductive answer (A : Type) : Type :=
| Answered (body : A)
| Refused (status_code : Z) (detail : string)
| Unanswered.
Arguments Answered {A} body.
Arguments Refused {A} status_code detail.
Arguments Unanswered {A}.

Section ImageEndpoint.

Variable P : Providers.
Variable payload_status : nested_payload -> option string.

(** [client.models.generate_content] followed by the loop that saves the
    images: an exception, or the number of images saved. *)
Variable generate_content : World P -> string -> string -> result nat * World P.

Definition image_call (key prompt : string) : M P nat :=
  fun st =>
    let '(r, w) := generate_content (world st) key prompt in
    (r, {| world := w;
           openai_key_manager := openai_key_manager st;
           openrouter_key_manager := openrouter_key_manager st;
           consolidated_openai := consolidated_openai st;
           consolidated_openrouter := consolidated_openrouter st;
           log := log st ++ [EvImage key prompt] |}).

(** [_key_manager.rotate_key()] *)
Definition rotate_consolidated : M P bool :=
  fun st =>
    let '(b, m) := rotate_key (consolidated_openai st) in
    (Ok b, {| world := world st;
              openai_key_manager := openai_key_manager st;
              openrouter_key_manager := openrouter_key_manager st;
              consolidated_openai := m;
              consolidated_openrouter := consolidated_openrouter st;
              log := log st |}).

(** [f"/static/generated/image_{timestamp}_{img_idx}.png"] for the
    images saved. *)
Definition saved_image_urls (timestamp : string) (saved : nat) : list string :=
  map (fun img_idx => "/static/generated/image_" +:+ timestamp +:+ "_"
                      +:+ pretty img_idx +:+ ".png")
      (seq 0 saved).

(** The loop [for attempt in range(max_retries)]; running out of
    iterations ends the function without an answer. *)
Fixpoint generate_image_loop (prompt timestamp : string) (max_retries remaining : nat)
    : state P -> answer (list string) * state P :=
  match remaining with
  | O => fun st => (Unanswered, st)
  | S remaining' =>
      let attempt := (max_retries - remaining)%nat in
      fun st =>
        match usable_key (get_key (consolidated_openai st)) with
        | None =>
            (Refused 500 "GEMINI_API_KEY not configured or no keys available.", st)
        | Some gemini_key =>
            match image_call gemini_key prompt st with
            | (Ok saved, st1) => (Answered (saved_image_urls timestamp saved), st1)
            | (Raise e, st1) =>
                let '(rotated, st2) :=
                  if ConsolidatedKeyManager.is_rate_limit_error payload_status e
                  then rotate_consolidated st1
                  else (Ok false, st1) in
                match rotated with
                | Ok true => generate_image_loop prompt timestamp max_retries remaining' st2
                | _ =>
                    if (attempt =? max_retries - 1)%nat
                    then (Refused 500
                            ("Failed to generate image after " +:+ pretty max_retries
                             +:+ " attempts: " +:+ err_str e), st2)
                    else (Refused 500 ("Failed to generate image: " +:+ err_str e), st2)
                end
            end
        end
  end.

Definition generate_image (prompt timestamp : string)
    : state P -> answer (list string) * state P :=
  fun st =>
    if negb (Py.truthy prompt) then (Refused 400 "Prompt is required", st)
    else generate_image_loop prompt timestamp 2 2 st.

End ImageEndpoint.

(** An image API that answers every call for [prompt] with an error the
    consolidated classifier takes for a rate limit. *)
Definition content_always_rate_limited (P : Providers)
    (payload_status : nested_payload -> option string)
    (generate_content : World P -> string -> string -> result nat * World P)
    (prompt : string) : Prop :=
  forall w key, exists e w',
    generate_content w key prompt = (Raise e, w')
    /\ ConsolidatedKeyManager.is_rate_limit_error payload_status e = true.




(* ===================================================================== *)
(** ** Properties of the classifiers *)
(* ===================================================================== *)

Section Classifiers.













End Classifiers.



(* ===================================================================== *)
(** ** Properties of the retry loop *)
(* ===================================================================== *)

Section RetryLoop.

Variable P : Providers.

Lemma rotate_key_keys (m : KeyManager) : keys (snd (rotate_key m)) = keys m.
Proof. unfold rotate_key. destruct (_ <=? _)%nat; reflexivity. Qed.

Lemma rotate_key_flag (m : KeyManager) :
  fst (rotate_key m) = has_multiple_keys m.
Proof.
  unfold rotate_key, has_multiple_keys.
  destruct (Nat.leb_spec (length (keys m)) 1); simpl; symmetry.
  - apply Nat.ltb_ge. lia.
  - apply Nat.ltb_lt. lia.
Qed.

Lemma rotate_openrouter_key_spec (st : state P) :
  exists st',
    rotate_openrouter_key P st = (Ok (has_multiple_keys (openrouter_key_manager st)), st')
    /\ log st' = log st /\ world st' = world st
    /\ pool_size st' = pool_size st
    /\ consolidated_openrouter st' = consolidated_openrouter st
    /\ consolidated_openai st' = consolidated_openai st
    /\ openai_key_manager st' = openai_key_manager st.
Proof.
  unfold rotate_openrouter_key, pool_size.
  pose proof (rotate_key_flag (openrouter_key_manager st)) as Hf.
  pose proof (rotate_key_keys (openrouter_key_manager st)) as Hk.
  destruct (rotate_key (openrouter_key_manager st)) as [b m]. simpl in *. subst b.
  eexists. split; [reflexivity|]. simpl. rewrite Hk. tauto.
Qed.

Lemma repeat_snoc {A} (x : A) (n : nat) : x :: repeat x n = repeat x n ++ [x].
Proof. induction n; simpl; [reflexivity|]. rewrite <- IHn. reflexivity. Qed.

(** With a pool of [N >= 1] keys and a body that is rate-limited on
    every attempt, the loop entered with [r] iterations to go makes
    exactly [r] calls and ends by raising. *)
Lemma retry_loop_rate_limited {A} (what which : string) (body : M P A) (ev : event)
    (N : nat) :
  body_rate_limited body ev ->
  (1 <= N)%nat ->
  forall (r : nat) (st : state P),
    (r <= N)%nat ->
    pool_size st = N ->
    exists e st',
      retry_loop P what which body N r st = (Raise e, st')
      /\ log st' = log st ++ repeat ev r
      /\ pool_size st' = N.
Proof.
  intros Hbody HN r. induction r as [|r IH]; intros st Hr Hpool.
  - simpl. eexists _, st. split; [reflexivity|]. rewrite app_nil_r. auto.
  - destruct (Hbody st) as (e & st1 & Hb & Hrl & Hwf & Hlog & Hp1).
    assert (Hpool1 : pool_size st1 = N) by congruence.
    cbn [retry_loop]. rewrite Hb.
    destruct (rotate_openrouter_key_spec st1)
      as (st2 & Hrot & Hlog2 & _ & Hp2 & _).
    assert (Hmulti : has_multiple_keys (openrouter_key_manager st1) = (1 <? N)%nat).
    { unfold has_multiple_keys. unfold pool_size in Hpool1. rewrite Hpool1. reflexivity. }
    assert (Hcont : forall st3 : state P, log st3 = log st1 -> pool_size st3 = N ->
              exists e' st',
                retry_loop P what which body N r st3 = (Raise e', st')
                /\ log st' = log st ++ repeat ev (S r) /\ pool_size st' = N).
    { intros st3 Hl3 Hp3. destruct (IH st3) as (e' & st' & Hloop & Hl & Hp); [lia|exact Hp3|].
      exists e', st'. split; [exact Hloop|]. split; [|exact Hp].
      rewrite Hl, Hl3, Hlog, <- app_assoc. reflexivity. }
    assert (Hstop : forall e' (st3 : state P), log st3 = log st1 -> pool_size st3 = N -> r = 0%nat ->
              exists e'' st',
                (Raise e', st3) = (@Raise A e'', st')
                /\ log st' = log st ++ repeat ev (S r) /\ pool_size st' = N).
    { intros e' st3 Hl3 Hp3 ->. exists e', st3. split; [reflexivity|].
      split; [|exact Hp3]. rewrite Hl3, Hlog. reflexivity. }
    destruct (err_class e) eqn:Hcls.
    + (* HTTPError *)
      destruct (err_response_status e) as [status|] eqn:Hresp;
        [|exfalso; apply (Hwf eq_refl); reflexivity].
      unfold on_http_error. rewrite Hresp, Hrl.
      unfold bind at 1. unfold bind at 1. unfold has_multiple_keys_openrouter at 1.
      rewrite Hmulti.
      destruct (Nat.ltb_spec 1 N) as [Hlt|Hge].
      * rewrite Hrot. rewrite Hmulti.
        destruct (Nat.ltb_spec 1 N); [|lia]. cbn [ret].
        apply Hcont; congruence.
      * cbn [ret]. assert (HN1 : N = 1%nat) by lia. assert (Hr0 : r = 0%nat) by lia.
        rewrite HN1, Hr0. cbn [Nat.sub Nat.eqb raise].
        eexists _, st1. split; [reflexivity|]. rewrite Hlog.
        split; [reflexivity | congruence].
    + (* JSONDecodeError *)
      unfold on_exception, bind at 1, has_multiple_keys_openrouter at 1.
      rewrite Hrl, Hmulti.
      destruct (Nat.ltb_spec (N - S r) (N - 1)) as [Hlt|Hge].
      * assert ((1 <? N)%nat = true) as -> by (apply Nat.ltb_lt; lia). cbn [andb].
        unfold bind at 1. rewrite Hrot. cbn [ret]. apply Hcont; congruence.
      * rewrite andb_false_r. cbn [raise]. apply Hstop; [reflexivity|exact Hpool1|lia].
    + (* OtherException *)
      unfold on_exception, bind at 1, has_multiple_keys_openrouter at 1.
      rewrite Hrl, Hmulti.
      destruct (Nat.ltb_spec (N - S r) (N - 1)) as [Hlt|Hge].
      * assert ((1 <? N)%nat = true) as -> by (apply Nat.ltb_lt; lia). cbn [andb].
        unfold bind at 1. rewrite Hrot. cbn [ret]. apply Hcont; congruence.
      * rewrite andb_false_r. cbn [raise]. apply Hstop; [reflexivity|exact Hpool1|lia].
Qed.

Lemma post_raises (key : string) (req : chat_request) (st : state P)
    (e : py_error) (w' : World P) :
  chat_completions P (world st) key req = (PostRaise e, w') ->
  exists st', post P key req st = (Raise e, st')
    /\ log st' = log st ++ [EvPost key req]
    /\ pool_size st' = pool_size st.
Proof.
  intros H. unfold post. rewrite H. eexists. split; [reflexivity|]. split; reflexivity.
Qed.

Lemma plan_attempt_rate_limited (form_data : form_data_t) (key : string) :
  chat_always_rate_limited P ->
  body_rate_limited (plan_attempt P form_data key)
    (EvPost key (PlanningRequest form_data)).
Proof.
  intros Hw st.
  destruct (Hw (world st) key (PlanningRequest form_data)) as (e & w' & Hc & Hrl & Hwf).
  destruct (post_raises key _ st e w' Hc) as (st' & Hp & Hl & Hs).
  exists e, st'. unfold plan_attempt, bind. rewrite Hp. auto.
Qed.

(** The planner under a provider that rate-limits every call: exactly
    [N] calls, all of them with the key read before the loop, and then
    the fallback plan. *)
Lemma planner_rate_limited_attempts (form_data : form_data_t) (st : state P)
    (N : nat) (key : string) :
  chat_always_rate_limited P ->
  (1 <= N)%nat ->
  pool_size st = N ->
  length (keys (consolidated_openrouter st)) = N ->
  usable_key (get_key (openrouter_key_manager st)) = Some key ->
  exists st',
    plan_website_components P form_data st = (Ok (get_fallback_plan form_data), st')
    /\ log st' = log st ++ repeat (EvPost key (PlanningRequest form_data)) N.
Proof.
  intros Hw HN Hpool Hcons Hkey.
  unfold plan_website_components, try_except, bind, get_openrouter_key, get_state.
  rewrite Hkey.
  assert (Hmax : max_retries_of (consolidated_openrouter st) = N).
  { unfold max_retries_of, get_all_keys.
    destruct (keys (consolidated_openrouter st)); simpl in *; [lia|exact Hcons]. }
  rewrite Hmax.
  destruct (retry_loop_rate_limited "plan website components" "planning"
              (plan_attempt P form_data key) (EvPost key (PlanningRequest form_data)) N
              (plan_attempt_rate_limited form_data key Hw) HN N st (le_n N) Hpool)
    as (e & st' & Hloop & Hlog & _).
  rewrite Hloop. exists st'. split; [reflexivity|exact Hlog].
Qed.

(** An [HTTPError] that is not rate-limit-classified ends the loop at
    once when it is raised on the first of several attempts: the state
    is the one the failed call left. *)
Lemma retry_loop_http_error {A} (what which : string) (body : M P A)
    (N : nat) (st st1 : state P) (e : py_error) (status : Z) :
  (1 < N)%nat ->
  err_class e = HTTPError ->
  err_response_status e = Some status ->
  OpenRouterKeyManager.is_rate_limit_error e = false ->
  body st = (Raise e, st1) ->
  retry_loop P what which body N N st
  = (Raise (Exception ("Failed to " +:+ what +:+ ": " +:+ err_str e)), st1).
Proof.
  intros HN Hcls Hresp Hrl Hb.
  destruct N as [|N]; [lia|]. cbn [retry_loop]. rewrite Hb, Hcls.
  unfold on_http_error. rewrite Hresp, Hrl. unfold bind, ret.
  replace (S N - S N)%nat with 0%nat by lia.
  destruct (Nat.eqb_spec 0 (S N - 1)); [lia|]. reflexivity.
Qed.

Lemma generate_component_http_error (args : component_prompt_args)
    (key : string) (files : option (list (string * string)))
    (N : nat) (st st1 : state P) (e : py_error) (status : Z) :
  (1 < N)%nat ->
  err_class e = HTTPError ->
  err_response_status e = Some status ->
  OpenRouterKeyManager.is_rate_limit_error e = false ->
  max_retries_of (consolidated_openrouter st) = N ->
  post P key (ComponentRequest args (build_contents files (has_bootstrap files))) st
  = (Raise e, st1) ->
  generate_component P args key files st
  = (Raise (Exception ("Failed to generate component: " +:+ err_str e)), st1).
Proof.
  intros HN Hcls Hresp Hrl Hmax Hb.
  unfold generate_component, bind at 1, get_state. rewrite Hmax.
  unfold bind. destruct N as [|N]; [lia|]. cbn [component_loop]. rewrite Hb, Hcls.
  unfold on_http_error. rewrite Hresp, Hrl. unfold bind, ret.
  replace (S N - S N)%nat with 0%nat by lia.
  destruct (Nat.eqb_spec 0 (S N - 1)); [lia|]. reflexivity.
Qed.

End RetryLoop.

(** C1 (code evaluated at the failing input).  Two keys, a provider that
    answers 429 to every call: the planner makes two attempts and rotates
    the cursor, but both attempts carry the key read before the loop; the
    second key is never sent. *)
Theorem planner_retries_reuse_first_key :
  let st0 := Examples.initial_state Examples.always_429 (0, 0)%nat ["img-key"] ["k1"; "k2"] in
  let run := plan_website_components Examples.always_429 ∅ st0 in
  map event_key (log (snd run)) = ["k1"; "k1"]
  /\ ~ In "k2" (map event_key (log (snd run)))
  /\ fst run = Ok (get_fallback_plan ∅).
Proof.
  cbv zeta. split; [vm_compute; reflexivity|]. split; [|vm_compute; reflexivity].
  vm_compute. intros [H|[H|[]]]; discriminate.
Qed.

(** C2 (as stated, refuted).  Two keys, a provider whose connection drops
    on every call: the error is not rate-limit-classified, yet the loop
    rotates and calls the provider a second time. *)
Lemma generic_error_is_retried :
  let st0 := Examples.initial_state Examples.always_disconnected (0, 0)%nat
               ["img-key"] ["k1"; "k2"] in
  OpenRouterKeyManager.is_rate_limit_error Examples.connection_error = false
  /\ length (log (snd (plan_website_components Examples.always_disconnected ∅ st0))) = 2%nat.
Proof. split; vm_compute; reflexivity. Qed.

(** C2 (amended).  With [N > 1] attempts, what the first failed attempt
    leads to depends on the class of the failure.  An [HTTPError] that is
    not rate-limit-classified is propagated at once, wrapped in
    ["Failed to ...: <error>"], by the loop of the planner and of the
    combiner and by [generate_component]: the run ends in the state the
    failed call left.  An exception of any other class, rate-limit-
    classified or not, is not propagated: the loop of the planner and of
    the combiner rotates the key (a pool of one key stays as it is) and
    goes on with the next attempt; so does [generate_component], unless
    the exception is a permission error, after which it goes on without
    rotating and without reference documents.  A response without
    content is such an exception in the planner and in the combiner; in
    [generate_component] it leads to the next attempt without a
    rotation. *)
Theorem http_error_propagates_immediately (P : Providers) (N : nat)
    (st st1 : state P) :
  (1 < N)%nat ->
  (forall (e : py_error) (status : Z),
      err_class e = HTTPError ->
      err_response_status e = Some status ->
      OpenRouterKeyManager.is_rate_limit_error e = false ->
      (forall (A : Type) (what which : string) (body : M P A),
          body st = (Raise e, st1) ->
          retry_loop P what which body N N st
          = (Raise (Exception ("Failed to " +:+ what +:+ ": " +:+ err_str e)), st1))
      /\ (forall args key files,
             max_retries_of (consolidated_openrouter st) = N ->
             post P key (ComponentRequest args (build_contents files (has_bootstrap files)))
               st = (Raise e, st1) ->
             generate_component P args key files st
             = (Raise (Exception ("Failed to generate component: " +:+ err_str e)), st1)))
  /\ (forall (e : py_error),
        err_class e <> HTTPError ->
        (forall (A : Type) (what which : string) (body : M P A),
            body st = (Raise e, st1) ->
            retry_loop P what which body N N st
            = retry_loop P what which body N (N - 1) (snd (rotate_openrouter_key P st1)))
        /\ (forall args key files use,
               post P key (ComponentRequest args (build_contents files use)) st
               = (Raise e, st1) ->
               component_loop P args key N N files use st
               = if _is_permission_error e
                 then match files with
                      | None => (Raise AttributeError_clear, st1)
                      | Some _ => component_loop P args key N (N - 1) (Some []) false st1
                      end
                 else component_loop P args key N (N - 1) files use
                        (snd (rotate_openrouter_key P st1))))
  /\ (forall (content : option string),
        Py.truthy (default "" content) = false ->
        (forall form_data key,
            post P key (PlanningRequest form_data) st = (Ok content, st1) ->
            plan_attempt P form_data key st
            = (Raise (Exception "No response from OpenRouter/Gemini"), st1))
        /\ (forall req key,
               post P key req st = (Ok content, st1) ->
               combine_attempt P req key st
               = (Raise (Exception "No response from OpenRouter/Gemini"), st1))
        /\ (forall args key files use,
               post P key (ComponentRequest args (build_contents files use)) st
               = (Ok content, st1) ->
               component_loop P args key N N files use st
               = component_loop P args key N (N - 1) files use st1)).
Proof.
  intros HN.
  assert (Heta : forall s : state P,
            has_multiple_keys (openrouter_key_manager s) = false ->
            snd (rotate_openrouter_key P s) = s).
  { intros s Hm. unfold rotate_openrouter_key. unfold has_multiple_keys in Hm.
    apply Nat.ltb_ge in Hm. unfold rotate_key.
    destruct (Nat.leb_spec (length (keys (openrouter_key_manager s))) 1) as [_|Hgt]; [|lia].
    destruct s. reflexivity. }
  assert (Hrot : forall s : state P,
            rotate_openrouter_key P s
            = (Ok (has_multiple_keys (openrouter_key_manager s)),
               snd (rotate_openrouter_key P s))).
  { intros s. destruct (rotate_openrouter_key_spec P s) as (s' & E & _). rewrite E.
    reflexivity. }
  assert (Hatt : ((N - N <? N - 1) = true)%nat) by (apply Nat.ltb_lt; lia).
  destruct N as [|N']; [lia|]. set (N := S N') in *.
  replace (N - 1)%nat with N' in * by (unfold N; lia).
  split; [|split].
  - intros e status Hcls Hresp Hrl. split.
    + intros A what which body Hb. eapply retry_loop_http_error; eauto;
        try (unfold N; lia).
    + intros args key files Hmax Hb. eapply generate_component_http_error; eauto;
        try (unfold N; lia).
  - intros e Hcls. split.
    + intros A what which body Hb. unfold N at 2. cbn [retry_loop]. fold N. rewrite Hb.
      assert (Hh : on_exception P N (N - N) e st1
                   = (Ok None, snd (rotate_openrouter_key P st1))).
      { unfold on_exception, bind, has_multiple_keys_openrouter, ret.
        replace (N - 1)%nat with N' by (unfold N; lia). rewrite Hatt.
        rewrite andb_true_r.
        destruct (has_multiple_keys (openrouter_key_manager st1)) eqn:Hm.
        - rewrite andb_true_r.
          destruct (OpenRouterKeyManager.is_rate_limit_error e);
            rewrite Hrot, Hm; reflexivity.
        - rewrite andb_false_r. rewrite (Heta st1 Hm). reflexivity. }
      destruct (err_class e); [congruence| |]; rewrite Hh; reflexivity.
    + intros args key files use Hb. unfold N at 2. cbn [component_loop]. fold N.
      rewrite Hb.
      assert (Hh : on_component_exception P N (N - N) files use e st1
                   = if _is_permission_error e
                     then match files with
                          | None => (Raise AttributeError_clear, st1)
                          | Some _ => (Ok (Some [], false), st1)
                          end
                     else (Ok (files, use), snd (rotate_openrouter_key P st1))).
      { unfold on_component_exception.
        destruct (_is_permission_error e); [destruct files; reflexivity|].
        unfold bind, has_multiple_keys_openrouter, ret.
        replace (N - 1)%nat with N' by (unfold N; lia). rewrite Hatt.
        rewrite !andb_true_r.
        destruct (has_multiple_keys (openrouter_key_manager st1)) eqn:Hm.
        - rewrite andb_true_r.
          destruct (OpenRouterKeyManager.is_rate_limit_error e);
            rewrite Hrot, Hm; reflexivity.
        - rewrite andb_false_r. rewrite (Heta st1 Hm). reflexivity. }
      destruct (err_class e); [congruence| |]; rewrite Hh;
        destruct (_is_permission_error e); try reflexivity; destruct files; reflexivity.
  - intros content Hempty. split; [|split].
    + intros form_data key Hp. unfold plan_attempt, bind. rewrite Hp.
      destruct content as [c|]; [|reflexivity].
      change (default "" (Some c)) with c in Hempty. rewrite Hempty. reflexivity.
    + intros req key Hp. unfold combine_attempt, bind. rewrite Hp.
      destruct content as [c|]; [|reflexivity].
      change (default "" (Some c)) with c in Hempty. rewrite Hempty. reflexivity.
    + intros args key files use Hp. unfold N at 2. cbn [component_loop]. fold N.
      rewrite Hp. destruct content as [c|]; [|reflexivity].
      change (default "" (Some c)) with c in Hempty. rewrite Hempty. reflexivity.
Qed.

Lemma http_error_propagates_immediately_witness :
  let P := Examples.always_500 in
  let st0 := Examples.initial_state P (0, 0)%nat ["img-key"] ["k1"; "k2"] in
  retry_loop P "plan website components" "planning" (plan_attempt P ∅ "k1") 2 2 st0
  = (Raise (Exception ("Failed to plan website components: "
                       +:+ err_str Examples.http_500)),
     snd (plan_attempt P ∅ "k1" st0)).
Proof.
  cbv zeta.
  destruct (http_error_propagates_immediately Examples.always_500 2
              (Examples.initial_state Examples.always_500 (0, 0)%nat ["img-key"] ["k1"; "k2"])
              (snd (plan_attempt Examples.always_500 ∅ "k1"
                      (Examples.initial_state Examples.always_500 (0, 0)%nat
                         ["img-key"] ["k1"; "k2"]))))
    as (Hhttp & _); [lia|].
  destruct (Hhttp Examples.http_500 500%Z eq_refl eq_refl eq_refl) as (Hloop & _).
  apply Hloop. vm_compute. reflexivity.
Defined.

(* ===================================================================== *)
(** ** Properties of the planner *)
(* ===================================================================== *)

Section Planner.

Variable P : Providers.

(** A value the loop returns is a value its body returned. *)
Lemma retry_loop_ok_inv {A} (what which : string) (body : M P A) (N : nat) :
  forall (r : nat) (st st' : state P) (a : A),
    retry_loop P what which body N r st = (Ok a, st') ->
    exists sti, body sti = (Ok a, st').
Proof.
  induction r as [|r IH]; intros st st' a H.
  - discriminate H.
  - cbn [retry_loop] in H. destruct (body st) as [[a1|e] st1] eqn:Hb.
    + inversion H; subst. exists st. exact Hb.
    + destruct (match err_class e with
                | HTTPError => on_http_error P what N (N - S r) e
                | _ => on_exception P N (N - S r) e
                end st1) as [[u|e'] st2]; [|discriminate H].
      eapply IH. exact H.
Qed.


Lemma validate_plan_ok (raw pd : plan_data) :
  validate_plan raw = Ok pd ->
  exists comps,
    all_components raw = Some comps
    /\ length comps = 8%nat
    /\ all_named comps = true
    /\ all_components pd = Some comps
    /\ dynamic_components pd = Some (List.filter is_dynamic comps)
    /\ image_plan pd = Some (build_image_plan comps).
Proof.
  unfold validate_plan. destruct (all_components raw) as [comps|] eqn:Hc; [|discriminate].
  destruct (Nat.eqb_spec (length comps) 8); simpl; [|discriminate].
  destruct (all_named comps) eqn:Hn; simpl; [|discriminate].
  intros H. inversion H; subst; simpl. exists comps. auto 10.
Qed.

Lemma plan_attempt_ok (form_data : form_data_t) (key : string)
    (st st' : state P) (pd : plan_data) :
  plan_attempt P form_data key st = (Ok pd, st') ->
  exists raw, validate_plan raw = Ok pd.
Proof.
  unfold plan_attempt, bind. destruct (post P key _ st) as [[[c|]|e] st1]; try discriminate.
  destruct (Py.truthy c); [|discriminate].
  unfold parse_plan. destruct (json_loads P _) as [raw|e]; [|discriminate].
  intros H. inversion H. eauto.
Qed.

(** The planner never raises; its plan is the fallback plan or a
    validated provider plan. *)
Lemma plan_website_components_cases (form_data : form_data_t) (st : state P) :
  exists pd,
    fst (plan_website_components P form_data st) = Ok pd
    /\ (pd = get_fallback_plan form_data \/ exists raw, validate_plan raw = Ok pd).
Proof.
  unfold plan_website_components, try_except, bind, get_openrouter_key, get_state.
  destruct (usable_key _) as [key|].
  - destruct (retry_loop P _ _ _ _ _ st) as [[pd|e] st'] eqn:Hloop; simpl.
    + exists pd. split; [reflexivity|]. right.
      apply retry_loop_ok_inv in Hloop as [sti Hb].
      eapply plan_attempt_ok. exact Hb.
    + eexists. split; [reflexivity|]. left. reflexivity.
  - simpl. eexists. split; [reflexivity|]. left. reflexivity.
Qed.

Lemma fallback_plan_well_formed (form_data : form_data_t) :
  exists comps,
    all_components (get_fallback_plan form_data) = Some comps
    /\ Spec.well_formed_plan comps
    /\ all_named comps = true.
Proof.
  eexists. split; [reflexivity|]. split; [|reflexivity].
  split; [reflexivity|]. split; [reflexivity|].
  repeat constructor.
Qed.



End Planner.

(** C3 (as stated, refuted).  Two provider responses pass the planner's
    validation and are returned as the plan.  The first has eight
    components that all sit in slot 1: its slots are not a permutation of
    1..8 and no fixed role is bound.  The second has the eight roles in
    their slots, but asks for an image for the Navigation and for none
    for the Hero. *)
Lemma crowded_plan_is_accepted :
  let st0 := Examples.initial_state Examples.crowded_provider (0, 0)%nat ["img-key"] ["k1"] in
  let st1 := Examples.initial_state Examples.misflagged_provider (0, 0)%nat
               ["img-key"] ["k1"] in
  (exists pd,
      fst (plan_website_components Examples.crowded_provider ∅ st0) = Ok pd
      /\ all_components pd = Some (repeat Examples.crowded_component 8)
      /\ ~ Spec.well_formed_plan (repeat Examples.crowded_component 8))
  /\ (exists pd,
         fst (plan_website_components Examples.misflagged_provider ∅ st1) = Ok pd
         /\ all_components pd = Some Examples.misflagged_components
         /\ map order Examples.misflagged_components = map Some [1; 2; 3; 4; 5; 6; 7; 8]%Z
         /\ In (Examples.slot_component "Hero" 2 false) Examples.misflagged_components
         /\ In (Examples.slot_component "Navigation" 1 true) Examples.misflagged_components
         /\ ~ Spec.well_formed_plan Examples.misflagged_components).
Proof.
  cbv zeta. split.
  - eexists. split; [vm_compute; reflexivity|]. split; [reflexivity|].
    intros (_ & Hperm & _).
    apply Permutation_sym, Permutation_in with (x := Some 2%Z) in Hperm.
    + simpl in Hperm. intuition discriminate.
    + simpl. right. left. reflexivity.
  - eexists. split; [vm_compute; reflexivity|]. split; [reflexivity|].
    split; [reflexivity|]. split; [simpl; auto|]. split; [simpl; auto|].
    intros (_ & _ & Hroles). inversion Hroles as [|c l Hnav _]; subst.
    destruct Hnav as [_ Hflag]. discriminate Hflag.
Qed.

(** C3 (amended).  For every business profile the planner returns a plan
    with exactly eight component descriptors, each of them named.  The
    plan is either the fallback plan, which satisfies the plan invariant
    (slots 1..8, slots 1, 2, 7, 8 bound to Navigation, Hero, Contact,
    Footer, Hero with an image and the other three without), or a
    provider response.  A parsed provider response passes the validation
    exactly when it has an [all_components] list, the list has exactly 8
    entries and every entry has a [name]; a response that fails one of
    the three is rejected.  Slots, roles and [needs_image] values play no
    part: when the first chat call of the planner answers with a content
    that parses into a response meeting the three conditions, the planner
    returns that response's list of descriptors as it is. *)
Theorem planner_returns_eight_descriptors (P : Providers) (form_data : form_data_t)
    (st : state P) :
  (exists pd comps,
      fst (plan_website_components P form_data st) = Ok pd
      /\ all_components pd = Some comps
      /\ length comps = 8%nat
      /\ all_named comps = true
      /\ ((pd = get_fallback_plan form_data /\ Spec.well_formed_plan comps)
          \/ exists raw, validate_plan raw = Ok pd /\ all_components raw = Some comps))
  /\ (forall raw,
         (forall comps,
             all_components raw = Some comps ->
             length comps = 8%nat ->
             all_named comps = true ->
             validate_plan raw
             = Ok {| all_components := Some comps;
                     dynamic_components := Some (List.filter is_dynamic comps);
                     image_plan := Some (build_image_plan comps);
                     component_order := component_order raw;
                     notes := notes raw |})
         /\ (all_components raw = None
             \/ (exists comps,
                    all_components raw = Some comps
                    /\ (length comps <> 8%nat \/ all_named comps = false)) ->
             exists e, validate_plan raw = Raise e))
  /\ (forall key content raw comps st1,
         usable_key (get_key (openrouter_key_manager st)) = Some key ->
         post P key (PlanningRequest form_data) st = (Ok (Some content), st1) ->
         Py.truthy content = true ->
         json_loads P (Py.strip_code_fence "```json" (Py.strip content)) = Ok raw ->
         all_components raw = Some comps ->
         length comps = 8%nat ->
         all_named comps = true ->
         exists pd,
           plan_website_components P form_data st = (Ok pd, st1)
           /\ validate_plan raw = Ok pd
           /\ all_components pd = Some comps).
Proof.
  assert (Hacc : forall raw comps,
             all_components raw = Some comps ->
             length comps = 8%nat ->
             all_named comps = true ->
             validate_plan raw
             = Ok {| all_components := Some comps;
                     dynamic_components := Some (List.filter is_dynamic comps);
                     image_plan := Some (build_image_plan comps);
                     component_order := component_order raw;
                     notes := notes raw |}).
  { intros raw comps Hc Hlen Hn. unfold validate_plan. rewrite Hc, Hlen, Hn. reflexivity. }
  split; [|split].
  - destruct (plan_website_components_cases P form_data st) as (pd & Hrun & [Hfb|[raw Hv]]).
    + destruct (fallback_plan_well_formed form_data) as (comps & Hc & Hwf & Hn).
      exists pd, comps. subst pd. repeat split; try assumption.
      * apply Hwf.
      * left. split; [reflexivity|exact Hwf].
    + destruct (validate_plan_ok raw pd Hv) as (comps & Hraw & Hlen & Hn & Hpd & _).
      exists pd, comps. repeat split; try assumption. right. exists raw. auto.
  - intros raw. split; [apply Hacc|].
    intros [Hnone|(comps & Hc & [Hlen|Hn])]; unfold validate_plan.
    + rewrite Hnone. eexists. reflexivity.
    + rewrite Hc. destruct (Nat.eqb_spec (length comps) 8); [contradiction|].
      eexists. reflexivity.
    + rewrite Hc, Hn. destruct (negb (length comps =? 8)%nat); eexists; reflexivity.
  - intros key content raw comps st1 Hkey Hpost Htruthy Hloads Hc Hlen Hn.
    eexists. split; [|split; [apply (Hacc raw comps Hc Hlen Hn)|reflexivity]].
    unfold plan_website_components, try_except, bind, get_openrouter_key, get_state.
    rewrite Hkey.
    assert (Hpos : exists n, max_retries_of (consolidated_openrouter st) = S n).
    { unfold max_retries_of, get_all_keys. destruct (keys (consolidated_openrouter st));
        simpl; eauto. }
    destruct Hpos as [n Hmax]. rewrite Hmax. cbn [retry_loop].
    unfold plan_attempt at 1, bind. rewrite Hpost, Htruthy.
    unfold parse_plan. rewrite Hloads, (Hacc raw comps Hc Hlen Hn). reflexivity.
Qed.



(* ===================================================================== *)
(** ** Properties of the string operations *)
(* ===================================================================== *)

Section Strings.

Import Py.

Lemma startswith_app (p s : string) : startswith p (p +:+ s) = true.
Proof. induction p as [|c p IH]; simpl; [reflexivity|]. rewrite Ascii.eqb_refl. exact IH. Qed.

Lemma startswith_split (p s : string) :
  startswith p s = true -> exists t, s = p +:+ t.
Proof.
  revert s. induction p as [|c p IH]; intros s H.
  - exists s. reflexivity.
  - destruct s as [|d s]; [discriminate|]. simpl in H.
    destruct (Ascii.eqb_spec c d); [|discriminate]. subst d.
    destruct (IH s H) as [t ->]. exists t. reflexivity.
Qed.

Lemma find_drop (needle s : string) (i : nat) :
  find needle s = Some i -> startswith needle (drop i s) = true.
Proof.
  revert i. induction s as [|c s IH]; intros i H.
  - simpl in H. destruct (startswith needle "") eqn:E; [|discriminate].
    inversion H; subst. exact E.
  - cbn [find] in H. destruct (startswith needle (String c s)) eqn:E.
    + inversion H; subst. exact E.
    + destruct (find needle s) as [j|]; [|discriminate]. inversion H; subst.
      simpl. apply IH. reflexivity.
Qed.

Lemma lower_app (a b : string) : lower (a +:+ b) = lower a +:+ lower b.
Proof. induction a as [|c a IH]; simpl; [reflexivity|]. rewrite IH. reflexivity. Qed.

Lemma str_in_app_r (pat a b : string) :
  str_in pat b = true -> str_in pat (a +:+ b) = true.
Proof.
  intros H. induction a as [|c a IH]; simpl; [exact H|].
  rewrite IH. apply orb_true_r.
Qed.

Lemma startswith_app_l (p a b : string) :
  startswith p a = true -> startswith p (a +:+ b) = true.
Proof.
  revert a. induction p as [|c p IH]; intros a H; [reflexivity|].
  destruct a as [|d a]; [discriminate|]. simpl in *.
  destruct (Ascii.eqb c d); [|discriminate]. apply IH. exact H.
Qed.

Lemma str_in_app_l (pat a b : string) :
  str_in pat a = true -> str_in pat (a +:+ b) = true.
Proof.
  induction a as [|c a IH]; intros H.
  - simpl in H. destruct pat; [|discriminate]. destruct b; reflexivity.
  - simpl in H. apply orb_true_iff in H as [H|H].
    + pose proof (startswith_app_l pat (String c a) b H) as H'.
      change (str_in pat (String c (a +:+ b)) = true). cbn [str_in].
      change (String c (a +:+ b)) with (String c a +:+ b). rewrite H'. reflexivity.
    + change (str_in pat (String c (a +:+ b)) = true). cbn [str_in].
      rewrite (IH H). apply orb_true_r.
Qed.

Lemma length_append (a b : string) :
  String.length (a +:+ b) = (String.length a + String.length b)%nat.
Proof. induction a as [|c a IH]; simpl; [reflexivity|]. rewrite IH. reflexivity. Qed.

Lemma drop_app_length (a b : string) : drop (String.length a) (a +:+ b) = b.
Proof. induction a as [|c a IH]; simpl; [reflexivity|exact IH]. Qed.

(** Passing over [k] characters and going on is replacing in what is
    left after them. *)
Lemma replace_from_skip (old new : string) (k : nat) (s : string) :
  replace_from old new k s = replace_from old new 0 (drop k s).
Proof.
  revert k. induction s as [|c s IH]; intros k.
  - destruct k; reflexivity.
  - destruct k as [|k]; [reflexivity|]. cbn [replace_from drop]. apply IH.
Qed.

Lemma replace_occurrence (old new t : string) (c : ascii) (old' : string) :
  old = String c old' ->
  replace_from old new 0 (old +:+ t) = new +:+ replace_from old new 0 t.
Proof.
  intros ->. change (String c old' +:+ t) with (String c (old' +:+ t)).
  cbn [replace_from].
  change (String c (old' +:+ t)) with (String c old' +:+ t).
  rewrite startswith_app. rewrite replace_from_skip.
  replace (String.length (String c old') - 1)%nat with (String.length old')
    by (simpl; lia).
  rewrite drop_app_length. reflexivity.
Qed.

(** The induction behind "a replacement keeps a marker": it is enough
    that an occurrence of [old] hides no occurrence of the marker that
    the replacement text does not bring back, and that a replacement
    further right does not reach into a marker that starts here. *)
Lemma str_in_lower_replace (pat old new : string) (c0 : ascii) (old' : string) :
  old = String c0 old' ->
  (forall t, str_in pat (lower (old +:+ t)) = true ->
             str_in pat (lower new) = true \/ str_in pat (lower t) = true) ->
  (forall c s, startswith pat (lower (String c s)) = true ->
               startswith pat (lower (String c (replace_from old new 0 s))) = true) ->
  forall s, str_in pat (lower s) = true ->
            str_in pat (lower (replace_from old new 0 s)) = true.
Proof.
  intros Hold HA HB s.
  remember (String.length s) as n eqn:Hn.
  revert s Hn. induction n as [n IH] using lt_wf_ind. intros s Hn Hin.
  destruct s as [|c s].
  - exact Hin.
  - destruct (startswith old (String c s)) eqn:Hsw.
    + destruct (startswith_split _ _ Hsw) as [t Ht]. rewrite Ht in *.
      rewrite (replace_occurrence old new t c0 old' Hold), lower_app.
      destruct (HA t Hin) as [Hnew|Ht'].
      * apply str_in_app_l. exact Hnew.
      * apply str_in_app_r. eapply IH; [|reflexivity|exact Ht'].
        rewrite Hn, Hold. simpl. rewrite length_append. lia.
    + cbn [replace_from]. rewrite Hsw.
      cbn [lower str_in] in Hin. apply orb_true_iff in Hin as [Hin|Hin].
      * pose proof (HB c s Hin) as H. cbn [lower str_in]. cbn [lower] in H.
        rewrite H. reflexivity.
      * cbn [lower str_in]. rewrite (IH (String.length s)); [apply orb_true_r|..];
          try reflexivity; try assumption. rewrite Hn. simpl. lia.
Qed.

Lemma startswith_str_in (pat s : string) :
  startswith pat s = true -> str_in pat s = true.
Proof. intros H. destruct s; simpl; [exact H|]. rewrite H. reflexivity. Qed.

Lemma startswith_cons (a b : ascii) (p s : string) :
  startswith (String a p) (String b s) = if Ascii.eqb a b then startswith p s else false.
Proof. reflexivity. Qed.

Lemma str_in_cons (pat s : string) (c : ascii) :
  str_in pat s = true -> str_in pat (String c s) = true.
Proof. intros H. cbn [str_in]. rewrite H. apply orb_true_r. Qed.

Lemma rstrip_cons (c : ascii) (s : string) :
  is_space c = false -> rstrip (String c s) = String c (rstrip s).
Proof. intros H. cbn [rstrip]. rewrite H. destruct (rstrip s); reflexivity. Qed.

Lemma str_in_lower_lstrip (pat : string) :
  (forall c s, is_space c = true -> startswith pat (lower (String c s)) = false) ->
  forall s, str_in pat (lower s) = true -> str_in pat (lower (lstrip s)) = true.
Proof.
  intros HL. induction s as [|c s IH]; intros H; [exact H|].
  cbn [lstrip]. destruct (is_space c) eqn:Hsp; [|exact H].
  cbn [lower str_in] in H. apply orb_true_iff in H as [H|H]; [|exact (IH H)].
  pose proof (HL c s Hsp) as Hf. cbn [lower] in Hf. congruence.
Qed.

Lemma str_in_lower_rstrip (pat : string) :
  pat <> "" ->
  (forall c s, startswith pat (lower (String c s)) = true ->
               startswith pat (lower (rstrip (String c s))) = true) ->
  forall s, str_in pat (lower s) = true -> str_in pat (lower (rstrip s)) = true.
Proof.
  intros Hne HR. induction s as [|c s IH]; intros H; [exact H|].
  cbn [lower str_in] in H. apply orb_true_iff in H as [H|H].
  - apply startswith_str_in. apply HR. exact H.
  - specialize (IH H). cbn [rstrip]. destruct (rstrip s) as [|d r] eqn:Hr.
    + destruct pat; [congruence|discriminate IH].
    + change (str_in pat (String (lower_ascii c) (lower (String d r))) = true).
      apply str_in_cons. exact IH.
Qed.

(** The characters [lower_ascii] sends to a given one. *)
Lemma lower_ascii_inv (c x : ascii) :
  lower_ascii c = x ->
  c = x \/ (c = ascii_of_nat (nat_of_ascii x - 32)
            /\ (97 <=? nat_of_ascii x)%nat && (nat_of_ascii x <=? 122)%nat = true).
Proof.
  intros <-. destruct c as [[] [] [] [] [] [] [] []]; vm_compute; auto.
Qed.

End Strings.

(** Takes a hypothesis [startswith pat (lower s) = true] with a literal
    [pat] apart into the characters [s] starts with. *)
Ltac marker_chars H :=
  repeat match type of H with
    | Py.startswith (String _ _) (Py.lower (String ?c _)) = true =>
        cbn [Py.lower] in H; rewrite startswith_cons in H;
        let E := fresh "E" in
        let Hup := fresh "Hup" in
        match type of H with
        | (if Ascii.eqb ?x (Py.lower_ascii c) then _ else _) = true =>
            destruct (Ascii.eqb_spec x (Py.lower_ascii c)) as [E|E]; [|discriminate H];
            symmetry in E; apply lower_ascii_inv in E as [E|[E Hup]];
            [subst c | first [discriminate Hup | vm_compute in E; subst c]]
        end
    | Py.startswith (String _ _) (Py.lower ?s) = true =>
        let c := fresh "c" in
        let r := fresh "r" in
        destruct s as [|c r]; [simpl in H; discriminate H|]
    end.

Section Markers.

Import Py.

Lemma space_is_not_lt (pat' : string) (c : ascii) (s : string) :
  is_space c = true -> startswith (String "<" pat') (lower (String c s)) = false.
Proof.
  intros H. cbn [lower startswith].
  destruct (Ascii.eqb_spec "<" (lower_ascii c)) as [E|E]; [|reflexivity].
  symmetry in E. apply lower_ascii_inv in E as [->|[-> Hup]]; discriminate.
Qed.

Lemma html_replace (old new : string) :
  In old ["</head>"; "<head>"; "</body>"; "<body>"] ->
  (forall t, str_in "<html" (lower (old +:+ t)) = true ->
             str_in "<html" (lower new) = true \/ str_in "<html" (lower t) = true) ->
  forall s, str_in "<html" (lower s) = true ->
            str_in "<html" (lower (replace old new s)) = true.
Proof.
  intros Hold HA. unfold replace.
  simpl in Hold. destruct Hold as [<-|[<-|[<-|[<-|[]]]]];
    (eapply str_in_lower_replace; [reflexivity | exact HA |]);
    intros c s H; marker_chars H; reflexivity.
Qed.

Lemma body_replace (old new : string) :
  In old ["</head>"; "<head>"; "</body>"; "<body>"] ->
  (forall t, str_in "<body" (lower (old +:+ t)) = true ->
             str_in "<body" (lower new) = true \/ str_in "<body" (lower t) = true) ->
  forall s, str_in "<body" (lower s) = true ->
            str_in "<body" (lower (replace old new s)) = true.
Proof.
  intros Hold HA. unfold replace.
  simpl in Hold. destruct Hold as [<-|[<-|[<-|[<-|[]]]]];
    (eapply str_in_lower_replace; [reflexivity | exact HA |]);
    intros c s H; marker_chars H; reflexivity.
Qed.

Lemma doctype_replace (old new : string) :
  In old ["</head>"; "<head>"; "</body>"; "<body>"; "<style>"] ->
  forall s, startswith "<!DOCTYPE" s = true ->
            startswith "<!DOCTYPE" (replace old new s) = true.
Proof.
  intros Hold s H. destruct (startswith_split _ _ H) as [t ->]. unfold replace.
  simpl in Hold. destruct Hold as [<-|[<-|[<-|[<-|[<-|[]]]]]]; reflexivity.
Qed.

Lemma doctype_strip (s : string) :
  startswith "<!DOCTYPE" s = true -> startswith "<!DOCTYPE" (strip s) = true.
Proof.
  intros H. destruct (startswith_split _ _ H) as [t ->]. unfold strip.
  change (lstrip ("<!DOCTYPE" +:+ t)) with ("<!DOCTYPE" +:+ t).
  change ("<!DOCTYPE" +:+ t)
    with (String "<" (String "!" (String "D" (String "O" (String "C"
           (String "T" (String "Y" (String "P" (String "E" t))))))))).
  repeat (rewrite rstrip_cons; [|reflexivity]). reflexivity.
Qed.

Lemma marker_strip (pat' : string) :
  (forall c s, startswith (String "<" pat') (lower (String c s)) = true ->
               startswith (String "<" pat') (lower (rstrip (String c s))) = true) ->
  forall s, str_in (String "<" pat') (lower s) = true ->
            str_in (String "<" pat') (lower (strip s)) = true.
Proof.
  intros HR s H. unfold strip. apply str_in_lower_rstrip; [discriminate|exact HR|].
  apply str_in_lower_lstrip; [|exact H]. intros c r. apply space_is_not_lt.
Qed.

Lemma has_markers_strip (s : string) : has_markers s -> has_markers (strip s).
Proof.
  intros (Hd & Hh & Hb). split; [exact (doctype_strip s Hd)|]. split.
  - apply marker_strip; [|exact Hh]. intros c r H. marker_chars H;
      repeat (rewrite rstrip_cons; [|reflexivity]); reflexivity.
  - apply marker_strip; [|exact Hb]. intros c r H. marker_chars H;
      repeat (rewrite rstrip_cons; [|reflexivity]); reflexivity.
Qed.

Lemma has_markers_edit (old new s : string) :
  In (old, new) bootstrap_edits -> has_markers s -> has_markers (replace old new s).
Proof.
  intros Hin (Hd & Hh & Hb).
  assert (Hold : In old ["</head>"; "<head>"; "</body>"; "<body>"]).
  { simpl in Hin. simpl. intuition congruence. }
  split; [|split].
  - apply doctype_replace; [simpl in *; tauto|exact Hd].
  - apply html_replace; [exact Hold| |exact Hh].
    simpl in Hin. destruct Hin as [E|[E|[E|[E|[]]]]]; inversion E; subst;
      intros t H; right; exact H.
  - apply body_replace; [exact Hold| |exact Hb].
    simpl in Hin. destruct Hin as [E|[E|[E|[E|[]]]]]; inversion E; subst;
      intros t H; first [right; exact H | left; vm_compute; reflexivity].
Qed.

Lemma has_markers_ensure_bootstrap (s : string) :
  has_markers s -> has_markers (ensure_bootstrap s).
Proof.
  intros H. unfold ensure_bootstrap.
  destruct (_ || _); [|exact H].
  assert (Hcss : has_markers
            (if str_in "</head>" s
             then replace "</head>" (bootstrap_css +:+ "</head>") s
             else if str_in "<head>" s
                  then replace "<head>" ("<head>" +:+ nl +:+ bootstrap_css) s
                  else s)).
  { destruct (str_in "</head>" s); [apply has_markers_edit; [simpl; tauto|exact H]|].
    destruct (str_in "<head>" s); [apply has_markers_edit; [simpl; tauto|exact H]|].
    exact H. }
  cbv zeta. revert Hcss. generalize (if str_in "</head>" s
             then replace "</head>" (bootstrap_css +:+ "</head>") s
             else if str_in "<head>" s
                  then replace "<head>" ("<head>" +:+ nl +:+ bootstrap_css) s
                  else s). intros w Hw.
  destruct (str_in "</body>" w); [apply has_markers_edit; [simpl; tauto|exact Hw]|].
  destruct (str_in "<body>" w); [apply has_markers_edit; [simpl; tauto|exact Hw]|].
  exact Hw.
Qed.

(** What the route lets through has the three markers. *)
Lemma finalize_document_markers (html doc : string) :
  startswith "<!DOCTYPE" html = true ->
  finalize_document (Some html) = Ok doc ->
  has_markers doc.
Proof.
  intros Hd. unfold finalize_document.
  destruct (negb (truthy html)); [discriminate|].
  destruct (_ <? _)%nat; [discriminate|].
  destruct (str_in "<html" (lower html)) eqn:Hh; [|discriminate].
  destruct (str_in "<body" (lower html)) eqn:Hb; [|discriminate].
  simpl. intros H. inversion H; subst.
  apply has_markers_strip, has_markers_ensure_bootstrap. repeat split; assumption.
Qed.

Lemma ensure_doctype_starts (s : string) :
  startswith "<!DOCTYPE" (ensure_doctype s) = true.
Proof.
  unfold ensure_doctype. destruct (startswith "<!DOCTYPE" s) eqn:H; [exact H|].
  destruct (find "<!DOCTYPE" s) as [i|] eqn:Hf.
  - apply find_drop. exact Hf.
  - reflexivity.
Qed.

Lemma postprocess_html_doctype (content : string) :
  startswith "<!DOCTYPE" (postprocess_html content) = true.
Proof.
  unfold postprocess_html, ensure_spacing.
  generalize (ensure_doctype_starts (strip_code_fence "```html" (strip content))).
  generalize (ensure_doctype (strip_code_fence "```html" (strip content))).
  intros s H. destruct (_ && _); [|exact H].
  destruct (str_in "<style>" s); [|exact H].
  apply doctype_replace; [simpl; tauto|exact H].
Qed.

End Markers.

(* ===================================================================== *)
(** ** Properties of the combiner *)
(* ===================================================================== *)




(* ===================================================================== *)
(** ** Properties of markup and image generation *)
(* ===================================================================== *)

Section Generation.

Variable P : Providers.

Lemma max_retries_of_pos (m : KeyManager) : (1 <= max_retries_of m)%nat.
Proof. unfold max_retries_of, get_all_keys. destruct (keys m); simpl; lia. Qed.

Lemma build_contents_empty (use_bootstrap_docs : bool) :
  build_contents (Some []) use_bootstrap_docs = [].
Proof. destruct use_bootstrap_docs; reflexivity. Qed.

Lemma rotate_openrouter_key_log (st st' : state P) (r : result bool) :
  rotate_openrouter_key P st = (r, st') -> log st' = log st.
Proof.
  unfold rotate_openrouter_key. destruct (rotate_key _). intros H. inversion H. reflexivity.
Qed.

Lemma rotate_openai_key_log (st st' : state P) (r : result bool) :
  rotate_openai_key P st = (r, st') -> log st' = log st /\ exists b, r = Ok b.
Proof.
  unfold rotate_openai_key. destruct (rotate_key _). intros H. inversion H. eauto.
Qed.

Lemma post_log (key : string) (req : chat_request) (st st' : state P)
    (r : result (option string)) :
  post P key req st = (r, st') -> log st' = log st ++ [EvPost key req].
Proof.
  unfold post. destruct (chat_completions P _ _ _) as [[e|c] w]; intros H; inversion H;
    reflexivity.
Qed.

Lemma on_http_error_log (what : string) (N attempt : nat) (e : py_error)
    (st st' : state P) (r : result (option unit)) :
  on_http_error P what N attempt e st = (r, st') -> log st' = log st.
Proof.
  unfold on_http_error. destruct (err_response_status e); [|intros H; inversion H; reflexivity].
  unfold bind, has_multiple_keys_openrouter, ret, raise.
  destruct (OpenRouterKeyManager.is_rate_limit_error e).
  - destruct (has_multiple_keys _).
    + destruct (rotate_openrouter_key P st) as [[[]|e'] st1] eqn:Hrot;
        apply rotate_openrouter_key_log in Hrot;
        repeat (destruct (_ =? _)%nat); intros H; inversion H; subst; exact Hrot.
    + destruct (_ =? _)%nat; intros H; inversion H; reflexivity.
  - destruct (_ =? _)%nat; intros H; inversion H; reflexivity.
Qed.

Lemma on_component_exception_log (N attempt : nat) (use_bootstrap_docs : bool)
    (e : py_error) (st st' : state P)
    (r : result (option (list (string * string)) * bool)) :
  on_component_exception P N attempt (Some []) use_bootstrap_docs e st = (r, st') ->
  log st' = log st
  /\ exists use', r = Ok (Some [], use') /\ (use_bootstrap_docs = false -> use' = false).
Proof.
  unfold on_component_exception.
  destruct (_is_permission_error e); [intros H; inversion H; eauto|].
  unfold bind, has_multiple_keys_openrouter, ret.
  destruct (_ && _ && _).
  - destruct (rotate_openrouter_key P st) as [[b|e'] st1] eqn:Hrot.
    + apply rotate_openrouter_key_log in Hrot. intros H; inversion H; subst. eauto.
    + exfalso. unfold rotate_openrouter_key in Hrot. destruct (rotate_key _). discriminate.
  - destruct (_ && _).
    + destruct (rotate_openrouter_key P st) as [[b|e'] st1] eqn:Hrot.
      * apply rotate_openrouter_key_log in Hrot. intros H; inversion H; subst. eauto.
      * exfalso. unfold rotate_openrouter_key in Hrot. destruct (rotate_key _). discriminate.
    + intros H; inversion H; subst. eauto.
Qed.

(** Every call of the retry loop of [generate_component] sends the same
    request with the same key. *)
Lemma component_loop_trace (args : component_prompt_args) (key : string) (N : nat) :
  forall (r : nat) (use_bootstrap_docs : bool) (st st' : state P)
         (res : result (option string * bool)),
    component_loop P args key N r (Some []) use_bootstrap_docs st = (res, st') ->
    exists evs,
      log st' = log st ++ evs
      /\ Forall (eq (EvPost key (ComponentRequest args []))) evs
      /\ ((1 <= r)%nat -> evs <> [])
      /\ (forall code use', res = Ok (code, use') ->
                            use_bootstrap_docs = false -> use' = false).
Proof.
  induction r as [|r IH]; intros use st st' res H.
  - inversion H; subst. exists []. rewrite app_nil_r.
    split; [reflexivity|]. split; [constructor|]. split; [intros; lia|].
    intros code use' E. inversion E. auto.
  - cbn [component_loop] in H. rewrite build_contents_empty in H.
    destruct (post P key (ComponentRequest args []) st) as [o st1] eqn:Hpost.
    pose proof (post_log _ _ _ _ _ Hpost) as Hl1.
    assert (Hgo : forall use1 st2, log st2 = log st1 ->
              (use = false -> use1 = false) ->
              component_loop P args key N r (Some []) use1 st2 = (res, st') ->
              exists evs,
                log st' = log st ++ evs
                /\ Forall (eq (EvPost key (ComponentRequest args []))) evs
                /\ ((1 <= S r)%nat -> evs <> [])
                /\ (forall code use', res = Ok (code, use') -> use = false -> use' = false)).
    { intros use1 st2 Hl2 Huse Hloop.
      destruct (IH use1 st2 st' res Hloop) as (evs & Hl & Hall & _ & Hflag).
      exists (EvPost key (ComponentRequest args []) :: evs).
      rewrite Hl, Hl2, Hl1, <- app_assoc.
      split; [reflexivity|]. split; [constructor; [reflexivity|exact Hall]|].
      split; [intros _; discriminate|].
      intros code use' E Hu. eapply Hflag; eauto. }
    assert (Hstop : res = fst (res, st') -> log st' = log st1 ->
              (forall code use', res = Ok (code, use') -> use = false -> use' = false) ->
              exists evs,
                log st' = log st ++ evs
                /\ Forall (eq (EvPost key (ComponentRequest args []))) evs
                /\ ((1 <= S r)%nat -> evs <> [])
                /\ (forall code use', res = Ok (code, use') -> use = false -> use' = false)).
    { intros _ Hl2 Hflag. exists [EvPost key (ComponentRequest args [])].
      rewrite Hl2, Hl1.
      split; [reflexivity|]. split; [repeat constructor|].
      split; [intros _; discriminate|exact Hflag]. }
    destruct o as [[content|]|e].
    + destruct (Py.truthy content).
      * inversion H; subst. apply Hstop; auto.
        intros code use' E. inversion E. auto.
      * eapply Hgo; eauto.
    + eapply Hgo; eauto.
    + destruct (err_class e).
      * destruct (on_http_error P _ N _ e st1) as [[u|e'] st2] eqn:Hh;
          apply on_http_error_log in Hh.
        -- eapply Hgo; eauto.
        -- inversion H; subst. apply Hstop; auto. intros code use' E. discriminate E.
      * destruct (on_component_exception P N _ (Some []) use e st1) as [r2 st2] eqn:Hh.
        apply on_component_exception_log in Hh as (Hl2 & use1 & -> & Hu).
        eapply Hgo; eauto.
      * destruct (on_component_exception P N _ (Some []) use e st1) as [r2 st2] eqn:Hh.
        apply on_component_exception_log in Hh as (Hl2 & use1 & -> & Hu).
        eapply Hgo; eauto.
Qed.

(** [generate_component], called without reference documents, makes at
    least one call, and every call it makes sends the request built from
    its arguments. *)
Lemma generate_component_trace (args : component_prompt_args) (key : string)
    (st st' : state P) (res : result (option string)) :
  generate_component P args key (Some []) st = (res, st') ->
  exists evs,
    log st' = log st ++ evs
    /\ evs <> []
    /\ Forall (eq (EvPost key (ComponentRequest args []))) evs.
Proof.
  unfold generate_component, bind at 1, get_state. unfold bind.
  change (has_bootstrap (Some [])) with false.
  destruct (component_loop P args key _ _ (Some []) false st) as [r st1] eqn:Hloop.
  destruct (component_loop_trace _ _ _ _ _ _ _ _ Hloop) as (evs & Hl & Hall & Hne & Hflag).
  specialize (Hne (max_retries_of_pos _)).
  destruct r as [[[code|] use']|e].
  - intros H; inversion H; subst. eauto.
  - rewrite (Hflag None use' eq_refl eq_refl). intros H; inversion H; subst. eauto.
  - intros H; inversion H; subst. eauto.
Qed.

Lemma on_image_error_log (N attempt : nat) (client : string) (e : py_error)
    (st : state P) :
  exists o st', on_image_error P N attempt client e st = (Ok o, st') /\ log st' = log st.
Proof.
  unfold on_image_error, bind, has_multiple_keys_openai, get_openai_key, ret.
  destruct (_ && _ && _).
  - destruct (rotate_openai_key P st) as [r st1] eqn:Hrot.
    apply rotate_openai_key_log in Hrot as (Hl & b & ->). eauto.
  - destruct (_ && _); [|eauto].
    destruct (rotate_openai_key P st) as [r st1] eqn:Hrot.
    apply rotate_openai_key_log in Hrot as (Hl & b & ->). eauto.
Qed.

Lemma image_attempt_log (key prompt : string) (st st' : state P) (r : result bool) :
  image_attempt P key prompt st = (r, st') ->
  log st' = log st ++ [EvImage key prompt]
  /\ (image_always_fails P prompt -> r <> Ok true).
Proof.
  unfold image_attempt. intros H. split.
  - destruct (images_generate P _ _ _) as [[e| |] w]; inversion H; reflexivity.
  - intros Hf. specialize (Hf (world st) key).
    destruct (images_generate P _ _ _) as [[e| |] w]; inversion H; subst;
      simpl in Hf; congruence.
Qed.

(** The image loop never raises and logs image calls only; when no image
    can be saved it is left without a result. *)
Lemma image_loop_trace (comp_name prompt timestamp : string) (N : nat) :
  forall (r : nat) (client : string) (st : state P),
    exists o st' evs,
      image_loop P comp_name prompt timestamp N r client st = (Ok o, st')
      /\ log st' = log st ++ evs
      /\ Forall not_post evs
      /\ (o = None \/ o = Some (local_image_url comp_name timestamp))
      /\ (image_always_fails P prompt -> o = None).
Proof.
  induction r as [|r IH]; intros client st.
  - exists None, st, []. rewrite app_nil_r. simpl. repeat split; auto.
  - cbn [image_loop].
    destruct (image_attempt P client prompt st) as [res st1] eqn:Hatt.
    apply image_attempt_log in Hatt as (Hl1 & Hfail).
    assert (Hgo : forall client' st2, log st2 = log st1 ->
              exists o st' evs,
                image_loop P comp_name prompt timestamp N r client' st2 = (Ok o, st')
                /\ log st' = log st ++ evs /\ Forall not_post evs
                /\ (o = None \/ o = Some (local_image_url comp_name timestamp))
                /\ (image_always_fails P prompt -> o = None)).
    { intros client' st2 Hl2. destruct (IH client' st2) as (o & st' & evs & Hr & Hl & Hall & Ho).
      exists o, st', (EvImage client prompt :: evs).
      rewrite Hr, Hl, Hl2, Hl1, <- app_assoc.
      split; [reflexivity|]. split; [reflexivity|].
      split; [constructor; [reflexivity|exact Hall]|exact Ho]. }
    destruct res as [[|]|e].
    + eexists _, st1, [EvImage client prompt].
      split; [reflexivity|]. split; [exact Hl1|]. split; [repeat constructor|].
      split; [right; reflexivity|]. intros Hf. exfalso. exact (Hfail Hf eq_refl).
    + apply Hgo. reflexivity.
    + destruct (on_image_error_log N (N - S r) client e st1) as (o & st2 & -> & Hl2).
      destruct o as [client'|].
      * apply Hgo. exact Hl2.
      * exists None, st2, [EvImage client prompt]. rewrite Hl2, Hl1.
        split; [reflexivity|]. split; [reflexivity|]. split; [repeat constructor|].
        split; [left; reflexivity|reflexivity].
Qed.

Lemma fallback_image_truthy (comp_name : string) : Py.truthy (fallback_image comp_name) = true.
Proof. unfold fallback_image. destruct (String.eqb _ _); reflexivity. Qed.

(** [generate_image_for_component] never raises.  Without a prompt it
    returns [None] and touches nothing; with a prompt it returns a
    non-empty reference, which is the fallback when no image can be
    saved. *)
Lemma generate_image_for_component_trace (comp : component) (timestamp client : string)
    (st : state P) :
  exists o st' evs,
    generate_image_for_component P comp timestamp client st = (Ok o, st')
    /\ log st' = log st ++ evs
    /\ Forall not_post evs
    /\ (Py.truthy (default "" (image_prompt comp)) = false -> o = None /\ st' = st)
    /\ (Py.truthy (default "" (image_prompt comp)) = true ->
        exists url, o = Some url /\ Py.truthy url = true
          /\ (image_always_fails P (default "" (image_prompt comp)) ->
              url = fallback_image (default "component" (name comp)))).
Proof.
  unfold generate_image_for_component.
  destruct (Py.truthy (default "" (image_prompt comp))) eqn:Hp; cbn [negb].
  - unfold try_except, bind, get_state, ret.
    destruct (image_loop_trace (default "component" (name comp))
                (default "" (image_prompt comp)) timestamp
                (max_retries_of (consolidated_openai st))
                (max_retries_of (consolidated_openai st)) client st)
      as (o & st' & evs & -> & Hl & Hall & Ho & Hfail).
    destruct o as [url|].
    + exists (Some url), st', evs. repeat split; try assumption; try discriminate.
      intros _. exists url. split; [reflexivity|]. split.
      * destruct Ho as [Ho|Ho]; [discriminate|]. inversion Ho. reflexivity.
      * intros Hf. specialize (Hfail Hf). discriminate.
    + eexists _, st', evs. split; [reflexivity|]. repeat split; try assumption;
        try discriminate.
      intros _. eexists. split; [reflexivity|]. split; [apply fallback_image_truthy|].
      reflexivity.
  - exists None, st, []. rewrite app_nil_r. unfold ret.
    repeat split; try constructor; try discriminate.
Qed.

(** STEP 1 of an iteration: the image list grows by at most one entry. *)
Lemma image_step_trace (ctx : generation_context) (comp : component)
    (imgs : list string) (st : state P) :
  exists new st' evs,
    image_step P ctx comp imgs st = (Ok (imgs ++ new), st')
    /\ (length new <= 1)%nat
    /\ log st' = log st ++ evs
    /\ Forall not_post evs
    /\ (default false (needs_image comp) = false -> new = [] /\ st' = st)
    /\ (Py.truthy (default "" (image_prompt comp)) = false -> new = [] /\ st' = st)
    /\ (default false (needs_image comp) = true ->
        Py.truthy (default "" (image_prompt comp)) = true ->
        image_always_fails P (default "" (image_prompt comp)) ->
        new = [fallback_image (default "component" (name comp))]).
Proof.
  unfold image_step. destruct (default false (needs_image comp)) eqn:Hn.
  - unfold bind.
    destruct (generate_image_for_component_trace comp (gc_timestamp ctx)
                (gc_openai_client ctx) st)
      as (o & st' & evs & -> & Hl & Hall & Hnone & Hsome).
    destruct (Py.truthy (default "" (image_prompt comp))) eqn:Hp.
    + destruct (Hsome eq_refl) as (url & -> & Hurl & Hfb). rewrite Hurl.
      exists [url], st', evs. unfold ret. repeat split; try assumption; try discriminate.
      * simpl; lia.
      * intros _ _ Hf. rewrite (Hfb Hf). reflexivity.
    + destruct (Hnone eq_refl) as (-> & ->).
      exists [], st, evs. rewrite app_nil_r. unfold ret.
      repeat split; try assumption; try discriminate. simpl; lia.
  - exists [], st, []. rewrite !app_nil_r. unfold ret.
    repeat split; try constructor; try discriminate. simpl; lia.
Qed.

Lemma app_eq_self {A} (l evs : list A) : l = l ++ evs -> evs = [].
Proof.
  intros H. apply (f_equal (@length A)) in H. rewrite length_app in H.
  destruct evs; [reflexivity|simpl in H; lia].
Qed.

Lemma markup_step_trace (ctx : generation_context) (prompts : image_plan_t)
    (comp : component) (imgs : list string) (components : markup_map)
    (st st' : state P) (r : result markup_map) :
  markup_step P ctx prompts comp imgs components st = (r, st') ->
  exists evs,
    log st' = log st ++ evs
    /\ evs <> []
    /\ Forall (eq (EvPost (gc_openrouter_key ctx)
                     (Spec.component_request ctx prompts comp imgs))) evs
    /\ (forall components', r = Ok components' ->
          components' = components
          \/ exists code, Py.truthy code = true
               /\ components' = dict_set (default "Unknown" (name comp)) code components).
Proof.
  unfold markup_step, bind.
  destruct (generate_component P _ _ (Some []) st) as [res st1] eqn:Hgen.
  destruct (generate_component_trace _ _ _ _ _ Hgen) as (evs & Hl & Hne & Hall).
  intros H. exists evs.
  assert (st' = st1 /\ forall components', r = Ok components' ->
            components' = components
            \/ exists code, Py.truthy code = true
                 /\ components' = dict_set (default "Unknown" (name comp)) code components)
    as [-> Hres].
  { destruct res as [[code|]|e]; unfold ret in H.
    - destruct (Py.truthy code) eqn:Ht; inversion H; subst; split; auto;
        intros c' E; inversion E; subst; eauto.
    - inversion H; subst. split; auto. intros c' E; inversion E; auto.
    - inversion H; subst. split; auto. intros c' E; discriminate E. }
  repeat split; assumption.
Qed.

(** One iteration of the main loop, as a block of external calls. *)
Lemma process_component_trace (ctx : generation_context) (prompts : image_plan_t)
    (comp : component) (acc : markup_map * list string) (st st' : state P)
    (r : result (markup_map * list string)) :
  process_component P ctx prompts comp acc st = (r, st') ->
  exists new image_events chat_events,
    (length new <= 1)%nat
    /\ (default false (needs_image comp) = false -> new = [] /\ image_events = [])
    /\ Forall not_post image_events
    /\ chat_events <> []
    /\ Forall (eq (EvPost (gc_openrouter_key ctx)
                     (Spec.component_request ctx prompts comp (snd acc ++ new))))
              chat_events
    /\ log st' = log st ++ image_events ++ chat_events
    /\ (forall acc', r = Ok acc' -> snd acc' = snd acc ++ new).
Proof.
  unfold process_component, bind at 1.
  destruct (image_step_trace ctx comp (snd acc) st)
    as (new & st1 & ievs & -> & Hlen & Hl1 & Hall1 & Hno & _).
  unfold bind.
  destruct (markup_step P ctx prompts comp (snd acc ++ new) (fst acc) st1)
    as [res st2] eqn:Hm.
  destruct (markup_step_trace _ _ _ _ _ _ _ _ Hm) as (cevs & Hl2 & Hne & Hall2 & _).
  intros H. exists new, ievs, cevs.
  assert (st' = st2 /\ forall acc', r = Ok acc' -> snd acc' = snd acc ++ new) as [-> Hacc].
  { destruct res as [components|e]; unfold ret in H; inversion H; subst; split; auto.
    - intros acc' E. inversion E. reflexivity.
    - intros acc' E. discriminate E. }
  split; [exact Hlen|]. split.
  { intros Hn. destruct (Hno Hn) as (-> & ->). split; [reflexivity|].
    eapply app_eq_self. exact Hl1. }
  split; [exact Hall1|]. split; [exact Hne|]. split; [exact Hall2|].
  split; [|exact Hacc]. rewrite Hl2, Hl1, <- app_assoc. reflexivity.
Qed.

(** The main loop, as a sequence of blocks: the descriptors it got to are
    a prefix of its list, processed in list order. *)
Lemma generation_loop_trace (ctx : generation_context) (prompts : image_plan_t) :
  forall (comps : list component) (acc acc' : markup_map * list string)
         (err : option py_error) (st st' : state P),
    generation_loop P ctx prompts comps acc st = (acc', err, st') ->
    exists processed rest evs images_end,
      comps = processed ++ rest
      /\ (err = None -> rest = [] /\ images_end = snd acc')
      /\ log st' = log st ++ evs
      /\ Spec.processed_in_order ctx prompts processed (snd acc) evs images_end.
Proof.
  induction comps as [|comp comps IH]; intros acc acc' err st st' H.
  - inversion H; subst. exists [], [], [], (snd acc').
    split; [reflexivity|]. split; [auto|]. split; [rewrite app_nil_r; reflexivity|].
    constructor.
  - cbn [generation_loop] in H.
    destruct (process_component P ctx prompts comp acc st) as [r st1] eqn:Hp.
    destruct (process_component_trace _ _ _ _ _ _ _ Hp)
      as (new & ievs & cevs & Hlen & Hno & Hall1 & Hne & Hall2 & Hl1 & Hacc).
    destruct r as [acc1|e].
    + destruct (IH acc1 acc' err st1 st' H)
        as (processed & rest & evs & images_end & Hc & Herr & Hl & Htr).
      exists (comp :: processed), rest, (ievs ++ cevs ++ evs), images_end.
      split; [rewrite Hc; reflexivity|]. split; [exact Herr|]. split.
      * rewrite Hl, Hl1, <- !app_assoc. reflexivity.
      * rewrite (Hacc acc1 eq_refl) in Htr. econstructor; eassumption.
    + inversion H; subst.
      exists [comp], comps, (ievs ++ cevs ++ []), (snd acc' ++ new).
      split; [reflexivity|]. split; [discriminate|]. split.
      * rewrite Hl1, app_nil_r. reflexivity.
      * econstructor; try eassumption. constructor.
Qed.

Lemma insert_by_order_perm (c : component) (l : list component) :
  Permutation (insert_by_order c l) (c :: l).
Proof.
  induction l as [|d l IH]; simpl; [reflexivity|].
  destruct (order_key c <=? order_key d)%Z; [reflexivity|].
  rewrite IH. apply perm_swap.
Qed.

Lemma sort_by_order_perm (l : list component) : Permutation (sort_by_order l) l.
Proof.
  induction l as [|c l IH]; simpl; [reflexivity|].
  rewrite insert_by_order_perm, IH. reflexivity.
Qed.

Lemma insert_by_order_sorted (c : component) (l : list component) :
  Sorted ascending l -> Sorted ascending (insert_by_order c l).
Proof.
  induction l as [|d l IH]; intros Hs; simpl.
  - repeat constructor.
  - destruct (Z.leb_spec (order_key c) (order_key d)).
    + constructor; [exact Hs|]. constructor. exact H.
    + inversion Hs as [|? ? Hs' Hhd]; subst. constructor; [apply IH; exact Hs'|].
      destruct l as [|d' l]; simpl.
      * constructor. unfold ascending. lia.
      * destruct (Z.leb_spec (order_key c) (order_key d')).
        -- constructor. unfold ascending. lia.
        -- inversion Hhd; subst. constructor. assumption.
Qed.

Lemma sort_by_order_sorted (l : list component) : StronglySorted ascending (sort_by_order l).
Proof.
  apply Sorted_StronglySorted.
  - intros a b c. unfold ascending. lia.
  - induction l as [|c l IH]; simpl; [constructor|].
    apply insert_by_order_sorted. exact IH.
Qed.

End Generation.

(* ===================================================================== *)
(** ** Properties of a generation run *)
(* ===================================================================== *)

Section Run.

Variable P : Providers.















End Run.











(* ===================================================================== *)
(** ** Further properties of the key managers *)
(* ===================================================================== *)

Section KeyManagers.

Lemma rotate_key_index (m : KeyManager) :
  (1 < length (keys m))%nat ->
  current_key_index (snd (rotate_key m))
  = ((current_key_index m + 1) mod length (keys m))%nat.
Proof.
  intros H. unfold rotate_key.
  destruct (Nat.leb_spec (length (keys m)) 1); [lia|reflexivity].
Qed.

Lemma rotate_key_single (m : KeyManager) :
  (length (keys m) <= 1)%nat -> rotate_key m = (false, m).
Proof.
  intros H. unfold rotate_key.
  destruct (Nat.leb_spec (length (keys m)) 1); [reflexivity|lia].
Qed.

Lemma rotate_times_keys (n : nat) (m : KeyManager) :
  keys (rotate_times n m) = keys m.
Proof.
  revert m. induction n as [|n IH]; intros m; simpl; [reflexivity|].
  rewrite IH. apply rotate_key_keys.
Qed.

Lemma rotate_times_index (n : nat) (m : KeyManager) :
  (1 < length (keys m))%nat ->
  current_key_index (rotate_times n m)
  = ((current_key_index m + n) mod length (keys m))%nat \/ n = 0%nat.
Proof.
  intros HN. revert m HN. induction n as [|n IH]; intros m HN; [right; reflexivity|].
  left. simpl.
  assert (Hk : (1 < length (keys (snd (rotate_key m))))%nat) by (rewrite rotate_key_keys; exact HN).
  destruct (IH (snd (rotate_key m)) Hk) as [H | ->].
  - rewrite H, rotate_key_keys, rotate_key_index by exact HN.
    rewrite Nat.Div0.add_mod_idemp_l. f_equal; lia.
  - simpl. rewrite rotate_key_index by exact HN. f_equal; lia.
Qed.

End KeyManagers.

(** X1.  [rotate_key] never changes the pool and leaves the cursor inside
    it: a cursor that is in range stays in range, and with two or more
    keys the cursor is in range after the call whatever it was before.
    It reports success exactly when [has_multiple_keys] holds, and a
    refused rotation leaves the manager as it was. *)
Theorem rotate_key_keeps_cursor_in_range (m : KeyManager) :
  keys (snd (rotate_key m)) = keys m
  /\ (cursor_in_range m -> cursor_in_range (snd (rotate_key m)))
  /\ ((1 < length (keys m))%nat -> cursor_in_range (snd (rotate_key m)))
  /\ fst (rotate_key m) = has_multiple_keys m
  /\ (has_multiple_keys m = false -> snd (rotate_key m) = m).
Proof.
  split; [apply rotate_key_keys|].
  assert (H2 : (1 < length (keys m))%nat -> cursor_in_range (snd (rotate_key m))).
  { intros HN. unfold cursor_in_range. rewrite rotate_key_keys, rotate_key_index by exact HN.
    apply Nat.mod_upper_bound. lia. }
  split; [|split; [exact H2|split; [apply rotate_key_flag|]]].
  - intros Hin. destruct (Nat.leb_spec (length (keys m)) 1) as [Hle|Hgt].
    + rewrite rotate_key_single by exact Hle. exact Hin.
    + apply H2. exact Hgt.
  - unfold has_multiple_keys. intros H. apply Nat.ltb_ge in H.
    rewrite rotate_key_single by exact H. reflexivity.
Qed.

(** X2.  In a pool of [N >= 2] keys, [n] rotations move the cursor [n]
    places round the pool; so [N] rotations bring a manager whose cursor
    is in range back to the key it started from, and every key of the
    pool becomes the current key within fewer than [N] rotations. *)
Theorem rotation_cycles_through_pool (m : KeyManager) :
  (1 < length (keys m))%nat ->
  cursor_in_range m ->
  (forall n, current_key_index (rotate_times n m)
             = ((current_key_index m + n) mod length (keys m))%nat)
  /\ rotate_times (length (keys m)) m = m
  /\ (forall key, In key (keys m) ->
        exists n, (n < length (keys m))%nat /\ get_key (rotate_times n m) = Some key).
Proof.
  intros HN Hin. unfold cursor_in_range in Hin.
  assert (Hidx : forall n, current_key_index (rotate_times n m)
                           = ((current_key_index m + n) mod length (keys m))%nat).
  { intros n. destruct (rotate_times_index n m HN) as [H | ->]; [exact H|].
    simpl. rewrite Nat.add_0_r, Nat.mod_small by exact Hin. reflexivity. }
  split; [exact Hidx|]. split.
  - pose proof (rotate_times_keys (length (keys m)) m) as Hk.
    pose proof (Hidx (length (keys m))) as Hi.
    replace (current_key_index m + length (keys m))%nat
      with (current_key_index m + 1 * length (keys m))%nat in Hi by lia.
    rewrite Nat.Div0.mod_add, Nat.mod_small in Hi by exact Hin.
    destruct (rotate_times (length (keys m)) m) as [ks i], m as [ks0 i0]. simpl in *.
    congruence.
  - intros key Hkey. apply list_elem_of_In, list_elem_of_lookup in Hkey as [p Hp].
    pose proof (lookup_lt_Some _ _ _ Hp) as Hlt.
    exists ((p + length (keys m) - current_key_index m) mod length (keys m))%nat.
    split; [apply Nat.mod_upper_bound; lia|].
    unfold get_key. rewrite rotate_times_keys, Hidx.
    rewrite Nat.Div0.add_mod_idemp_r.
    replace (current_key_index m + (p + length (keys m) - current_key_index m))%nat
      with (p + 1 * length (keys m))%nat by lia.
    rewrite Nat.Div0.mod_add, Nat.mod_small by exact Hlt.
    destruct (keys m); [simpl in HN; lia|exact Hp].
Qed.

Lemma rotation_cycles_through_pool_witness :
  let m := {| keys := ["a"; "b"; "c"]; current_key_index := 1 |} in
  rotate_times 3 m = m /\ get_key (rotate_times 2 m) = Some "a".
Proof.
  cbv zeta.
  destruct (rotation_cycles_through_pool {| keys := ["a"; "b"; "c"]; current_key_index := 1 |})
    as (_ & Hcycle & _).
  - simpl. lia.
  - unfold cursor_in_range. simpl. lia.
  - split; [exact Hcycle|reflexivity].
Defined.

(* ===================================================================== *)
(** ** Properties of loading a pool *)
(* ===================================================================== *)

Section Loading.

Import KeyLoading.

Variable env : gmap string string.
Variable primary : string.

Lemma append_inj_r (p a b : string) : p +:+ a = p +:+ b -> a = b.
Proof. induction p as [|c p IH]; simpl; intros H; [exact H|]. inversion H. auto. Qed.

Lemma numbered_name_inj (a b : nat) :
  numbered_name primary a = numbered_name primary b -> a = b.
Proof.
  unfold numbered_name. intros H. apply append_inj_r, append_inj_r in H.
  apply (inj pretty) in H. exact H.
Qed.

(** Pigeonhole: consecutive numbered variables that are all set are no
    more than the environment has entries. *)
Lemma numbered_run_bounded (idx f : nat) :
  (forall j, (j < f)%nat -> is_Some (env !! numbered_name primary (idx + j))) ->
  (f <= size env)%nat.
Proof.
  intros H.
  pose (l := (fun j => numbered_name primary (idx + j)) <$> seq 0 f).
  assert (Hnd : NoDup l).
  { apply NoDup_fmap_2; [|apply NoDup_seq].
    intros a b Hab. apply numbered_name_inj in Hab. lia. }
  assert (Hsub : (list_to_set l : gset string) ⊆ dom env).
  { intros x Hx. apply elem_of_list_to_set, list_elem_of_fmap in Hx as (j & -> & Hj).
    apply elem_of_seq in Hj. apply elem_of_dom, H. lia. }
  apply subseteq_size in Hsub. rewrite size_list_to_set in Hsub by exact Hnd.
  rewrite size_dom in Hsub. unfold l in Hsub. rewrite length_fmap, length_seq in Hsub. exact Hsub.
Qed.

Lemma existsb_eqb_In (key : string) (keys : list string) :
  existsb (String.eqb key) keys = true <-> In key keys.
Proof.
  rewrite existsb_exists. split.
  - intros (x & Hx & E). apply String.eqb_eq in E. subst. exact Hx.
  - intros H. exists key. split; [exact H|apply String.eqb_refl].
Qed.

Lemma add_key_In (keys : list string) (key k : string) :
  In k (add_key keys key) <-> In k keys \/ (k = key /\ Py.truthy key = true).
Proof.
  unfold add_key. destruct (Py.truthy key) eqn:Ht; simpl.
  - destruct (existsb (String.eqb key) keys) eqn:E; simpl.
    + apply existsb_eqb_In in E. split; [tauto|]. intros [H|[-> _]]; assumption.
    + rewrite in_app_iff. simpl. split.
      * intros [H|[<-|[]]]; auto.
      * intros [H|[-> _]]; auto.
  - split; [tauto|]. intros [H|[_ H]]; [exact H|discriminate].
Qed.

Lemma add_key_clean (keys : list string) (key : string) :
  clean keys -> clean (add_key keys key).
Proof.
  intros [Hnd Hall]. unfold add_key. destruct (Py.truthy key) eqn:Ht; simpl; [|split; assumption].
  destruct (existsb (String.eqb key) keys) eqn:E; simpl; [split; assumption|].
  split.
  - apply NoDup_app. split; [exact Hnd|]. split; [|apply NoDup_singleton].
    intros x Hx Hx'. apply list_elem_of_singleton in Hx'. subst x.
    apply list_elem_of_In, existsb_eqb_In in Hx. congruence.
  - apply Forall_app. split; [exact Hall|]. constructor; [exact Ht|constructor].
Qed.

Lemma fold_add_key_clean (items keys : list string) :
  clean keys -> clean (fold_left add_key items keys).
Proof.
  revert keys. induction items as [|x items IH]; intros keys H; simpl; [exact H|].
  apply IH, add_key_clean, H.
Qed.

Lemma fold_add_key_In (items keys : list string) (k : string) :
  In k (fold_left add_key items keys)
  <-> In k keys \/ (In k items /\ Py.truthy k = true).
Proof.
  revert keys. induction items as [|x items IH]; intros keys; simpl; [tauto|].
  rewrite IH, add_key_In. split.
  - intros [[H|[-> H]]|[H1 H2]]; auto.
  - intros [H|[[<-|H1] H2]]; auto.
Qed.

(** What the numbered loop does: it takes the values of a run of [r]
    consecutive variables that are set; it ends by [break] at the first
    variable that is not set, or it uses up its iterations. *)
Lemma numbered_keys_spec :
  forall (fuel idx : nat) (keys ks : list string) (b : bool),
    numbered_keys env primary fuel idx keys = (ks, b) ->
    exists r,
      (r <= fuel)%nat
      /\ (forall j, (j < r)%nat -> is_set env (numbered_name primary (idx + j)))
      /\ (b = true -> ~ is_set env (numbered_name primary (idx + r)))
      /\ (b = false -> r = fuel)
      /\ (clean keys -> clean ks)
      /\ (forall k, In k ks <->
            In k keys \/ exists j, (j < r)%nat
                                   /\ env !! numbered_name primary (idx + j) = Some k).
Proof.
  induction fuel as [|fuel IH]; intros idx keys ks b H.
  - inversion H; subst. exists 0%nat. split; [lia|]. split; [intros; lia|].
    split; [discriminate|]. split; [reflexivity|]. split; [auto|].
    intros k. split; [auto|]. intros [Hk|(j & Hj & _)]; [exact Hk|lia].
  - cbn [numbered_keys] in H.
    destruct (env !! numbered_name primary idx) as [key|] eqn:Hget.
    + destruct (Py.truthy key) eqn:Ht.
      * destruct (IH (S idx) (add_key keys key) ks b H)
          as (r & Hr & Hrun & Hbreak & Hfuel & Hclean & Hin).
        exists (S r). split; [lia|]. split; [|split; [|split; [|split]]].
        -- intros j Hj. destruct j as [|j].
           ++ rewrite Nat.add_0_r. exists key. auto.
           ++ replace (idx + S j)%nat with (S idx + j)%nat by lia. apply Hrun. lia.
        -- intros Hb. replace (idx + S r)%nat with (S idx + r)%nat by lia. auto.
        -- intros Hb. rewrite (Hfuel Hb). reflexivity.
        -- intros Hc. apply Hclean, add_key_clean, Hc.
        -- intros k. rewrite Hin, add_key_In. split.
           ++ intros [[Hk|[-> _]]|(j & Hj & Hk)].
              ** auto.
              ** right. exists 0%nat. split; [lia|]. rewrite Nat.add_0_r. exact Hget.
              ** right. exists (S j). split; [lia|].
                 replace (idx + S j)%nat with (S idx + j)%nat by lia. exact Hk.
           ++ intros [Hk|(j & Hj & Hk)]; [auto|]. destruct j as [|j].
              ** rewrite Nat.add_0_r in Hk. left. right. split; congruence.
              ** right. exists j. split; [lia|].
                 replace (S idx + j)%nat with (idx + S j)%nat by lia. exact Hk.
      * inversion H; subst. exists 0%nat. split; [lia|]. split; [intros; lia|].
        split; [|split; [discriminate|split; [auto|]]].
        -- intros _ (v & Hv & Hvt). rewrite Nat.add_0_r in Hv. congruence.
        -- intros k. split; [auto|]. intros [Hk|(j & Hj & _)]; [exact Hk|lia].
    + inversion H; subst. exists 0%nat. split; [lia|]. split; [intros; lia|].
      split; [|split; [discriminate|split; [auto|]]].
      * intros _ (v & Hv & _). rewrite Nat.add_0_r in Hv. congruence.
      * intros k. split; [auto|]. intros [Hk|(j & Hj & _)]; [exact Hk|lia].
Qed.

Lemma is_set_is_Some (name : string) : is_set env name -> is_Some (env !! name).
Proof. intros (v & Hv & _). eauto. Qed.

(** The loop of [gather_keys] is always left by [break]. *)
Lemma numbered_keys_breaks (idx : nat) (keys : list string) :
  snd (numbered_keys env primary (S (size env)) idx keys) = true.
Proof.
  destruct (numbered_keys env primary (S (size env)) idx keys) as [ks b] eqn:H.
  destruct b; [reflexivity|]. exfalso.
  destruct (numbered_keys_spec _ _ _ _ _ H) as (r & _ & Hrun & _ & Hfuel & _).
  specialize (Hfuel eq_refl). subst r.
  pose proof (numbered_run_bounded idx (S (size env))
                (fun j Hj => is_set_is_Some _ (Hrun j Hj))). lia.
Qed.

Lemma numbered_keys_more_fuel :
  forall (fuel fuel' idx : nat) (keys ks : list string),
    numbered_keys env primary fuel idx keys = (ks, true) ->
    (fuel <= fuel')%nat ->
    numbered_keys env primary fuel' idx keys = (ks, true).
Proof.
  induction fuel as [|fuel IH]; intros fuel' idx keys ks H Hle; [discriminate|].
  destruct fuel' as [|fuel']; [lia|].
  cbn [numbered_keys] in *.
  destruct (env !! numbered_name primary idx) as [key|]; [|exact H].
  destruct (Py.truthy key); [|exact H].
  apply IH; [exact H|lia].
Qed.

(** The keys gathered before the shuffle. *)
Lemma gather_keys_clean : clean (gather_keys env primary).
Proof.
  unfold gather_keys. cbv zeta.
  match goal with
  | |- context [numbered_keys env primary _ 1 ?w] => set (w0 := w)
  end.
  assert (Hw : clean w0).
  { assert (H0 : clean (fold_left add_key
                          (additional_keys (default "" (env !! (primary +:+ "S")))) [])).
    { apply fold_add_key_clean. split; constructor. }
    unfold w0. destruct (env !! primary); [apply add_key_clean|]; exact H0. }
  destruct (numbered_keys env primary (S (size env)) 1 w0) as [ks b] eqn:H.
  destruct (numbered_keys_spec _ _ _ _ _ H) as (r & _ & _ & _ & _ & Hclean & _).
  simpl. apply Hclean, Hw.
Qed.

Lemma numbered_run_value (r : nat) (k : string) :
  (forall j, (j < r)%nat -> is_set env (numbered_name primary (1 + j))) ->
  ~ is_set env (numbered_name primary (1 + r)) ->
  (exists j, (j < r)%nat /\ env !! numbered_name primary (1 + j) = Some k)
  <-> (exists n, (1 <= n)%nat
                 /\ env !! numbered_name primary n = Some k
                 /\ forall i, (1 <= i <= n)%nat -> is_set env (numbered_name primary i)).
Proof.
  intros Hrun Hbreak. split.
  - intros (j & Hj & Hk). exists (1 + j)%nat. split; [lia|]. split; [exact Hk|].
    intros i Hi. replace i with (1 + (i - 1))%nat by lia. apply Hrun. lia.
  - intros (n & Hn & Hk & Hall). exists (n - 1)%nat.
    replace (1 + (n - 1))%nat with n by lia. split; [|exact Hk].
    destruct (Nat.lt_ge_cases (n - 1) r) as [Hlt|Hge]; [exact Hlt|].
    exfalso. apply Hbreak, Hall. lia.
Qed.

Lemma gather_keys_In (k : string) :
  In k (gather_keys env primary)
  <-> Py.truthy k = true
      /\ (In k (map Py.strip (Py.split "," (default "" (env !! (primary +:+ "S")))))
          \/ env !! primary = Some k
          \/ exists n, (1 <= n)%nat
                       /\ env !! numbered_name primary n = Some k
                       /\ forall i, (1 <= i <= n)%nat ->
                                    is_set env (numbered_name primary i)).
Proof.
  unfold gather_keys. cbv zeta.
  match goal with
  | |- context [numbered_keys env primary _ 1 ?w] => set (w0 := w)
  end.
  assert (Hw : In k w0
               <-> Py.truthy k = true
                   /\ (In k (map Py.strip
                               (Py.split "," (default "" (env !! (primary +:+ "S")))))
                       \/ env !! primary = Some k)).
  { unfold w0. destruct (env !! primary) as [pk|] eqn:Hp.
    - rewrite add_key_In, fold_add_key_In. unfold additional_keys. rewrite filter_In.
      simpl. split.
      + intros [[[]|[[H1 _] H2]]|[-> H]]; auto.
      + intros [Ht [H|H]]; [left; right; auto|]. inversion H; subst. right. auto.
    - rewrite fold_add_key_In. unfold additional_keys. rewrite filter_In.
      simpl. split.
      + intros [[]|[[H1 _] H2]]; auto.
      + intros [Ht [H|H]]; [right; auto|discriminate]. }
  pose proof (numbered_keys_breaks 1 w0) as Hb.
  destruct (numbered_keys env primary (S (size env)) 1 w0) as [ks b] eqn:H.
  simpl in Hb. subst b.
  destruct (numbered_keys_spec _ _ _ _ _ H) as (r & _ & Hrun & Hbreak & _ & _ & Hin).
  simpl. rewrite Hin, Hw, (numbered_run_value r k Hrun (Hbreak eq_refl)).
  split.
  - intros [[Ht Hk]|(n & Hn & Hk & Hall)].
    + split; [exact Ht|]. destruct Hk; auto.
    + split; [|right; right; exists n; auto].
      destruct (Hall n) as (v & Hv & Ht); [lia|]. congruence.
  - intros [Ht [Hk|[Hk|Hk]]]; auto.
Qed.

Lemma load_keys_perm (shuffle : list string -> list string) :
  (forall l, Permutation (shuffle l) l) ->
  Permutation (_load_keys shuffle env primary) (gather_keys env primary).
Proof.
  intros Hs. unfold _load_keys. cbv zeta.
  destruct (1 <? length (gather_keys env primary))%nat; [apply Hs|reflexivity].
Qed.

Lemma loaded_pool_membership_aux (shuffle : list string -> list string) (k : string) :
  (forall l, Permutation (shuffle l) l) ->
  In k (_load_keys shuffle env primary)
  <-> Py.truthy k = true
      /\ (In k (map Py.strip (Py.split "," (default "" (env !! (primary +:+ "S")))))
          \/ env !! primary = Some k
          \/ exists n, (1 <= n)%nat
                       /\ env !! numbered_name primary n = Some k
                       /\ forall i, (1 <= i <= n)%nat ->
                                    is_set env (numbered_name primary i)).
Proof.
  intros Hs. pose proof (load_keys_perm shuffle Hs) as Hp.
  rewrite <- gather_keys_In. split; apply Permutation_in; [exact Hp|symmetry; exact Hp].
Qed.

(** X3.  The [while True] loop over the numbered variables of
    [_load_keys] always ends by [break], after reading at most one
    variable more than the environment holds: every larger allowance
    of iterations gives the same keys. *)
Theorem numbered_loop_ends_by_break (fuel idx : nat) (keys : list string) :
  (size env < fuel)%nat ->
  numbered_keys env primary fuel idx keys
  = (fst (numbered_keys env primary (S (size env)) idx keys), true).
Proof.
  intros Hf. apply numbered_keys_more_fuel with (fuel := S (size env)); [|lia].
  pose proof (numbered_keys_breaks idx keys) as Hb.
  destruct (numbered_keys env primary (S (size env)) idx keys) as [ks b].
  simpl in *. subst b. reflexivity.
Qed.

(** X4.  Whatever the environment, the pool that [_load_keys] builds
    holds no key twice and no empty key, as long as the shuffle only
    reorders the keys. *)
Theorem loaded_pool_is_clean (shuffle : list string -> list string) :
  (forall l, Permutation (shuffle l) l) ->
  NoDup (_load_keys shuffle env primary)
  /\ (forall k, In k (_load_keys shuffle env primary) -> Py.truthy k = true).
Proof.
  intros Hs. pose proof (load_keys_perm shuffle Hs) as Hp.
  destruct gather_keys_clean as [Hnd Hall]. split.
  - rewrite Hp. exact Hnd.
  - intros k Hk. rewrite List.Forall_forall in Hall. apply Hall.
    apply (Permutation_in _ Hp), Hk.
Qed.

(** X5.  The keys of the loaded pool are exactly the non-empty values
    that come from the comma-separated list variable (each entry
    stripped), from the primary variable, or from a numbered variable
    [primary_n] such that every variable [primary_1 .. primary_n] is
    set: a numbered variable after a gap is never read. *)
Theorem loaded_pool_membership (shuffle : list string -> list string) (k : string) :
  (forall l, Permutation (shuffle l) l) ->
  In k (_load_keys shuffle env primary)
  <-> Py.truthy k = true
      /\ (In k (map Py.strip (Py.split "," (default "" (env !! (primary +:+ "S")))))
          \/ env !! primary = Some k
          \/ exists n, (1 <= n)%nat
                       /\ env !! numbered_name primary n = Some k
                       /\ forall i, (1 <= i <= n)%nat ->
                                    is_set env (numbered_name primary i)).
Proof.
  apply loaded_pool_membership_aux.
Qed.

(** X6.  A freshly built manager has no current key exactly when the
    list variable gives no key, the primary variable is not set and
    the first numbered variable is not set. *)
Theorem no_key_iff_nothing_configured (shuffle : list string -> list string) :
  (forall l, Permutation (shuffle l) l) ->
  get_key (new_manager shuffle env primary) = None
  <-> additional_keys (default "" (env !! (primary +:+ "S"))) = []
      /\ ~ is_set env primary
      /\ ~ is_set env (numbered_name primary 1).
Proof.
  intros Hs.
  assert (Hnone : get_key (new_manager shuffle env primary) = None
                  <-> _load_keys shuffle env primary = []).
  { unfold get_key, new_manager. simpl.
    destruct (_load_keys shuffle env primary); simpl; split; congruence. }
  rewrite Hnone. split.
  - intros Hnil.
    assert (Hno : forall k, ~ In k (_load_keys shuffle env primary)).
    { intros k. rewrite Hnil. auto. }
    split; [|split].
    + destruct (additional_keys _) as [|k l] eqn:Ha; [reflexivity|]. exfalso.
      assert (Hk : In k (additional_keys (default "" (env !! (primary +:+ "S"))))).
      { rewrite Ha. left. reflexivity. }
      unfold additional_keys in Hk. apply filter_In in Hk as [Hk Ht].
      apply (Hno k), loaded_pool_membership_aux; auto.
    + intros (v & Hv & Ht). apply (Hno v), loaded_pool_membership_aux; auto.
    + intros (v & Hv & Ht). apply (Hno v), loaded_pool_membership_aux; [exact Hs|].
      split; [exact Ht|]. right; right. exists 1%nat. split; [lia|]. split; [exact Hv|].
      intros i Hi. replace i with 1%nat by lia. exists v. auto.
  - intros (Ha & Hp & H1).
    destruct (_load_keys shuffle env primary) as [|k l] eqn:Hl; [reflexivity|]. exfalso.
    assert (Hk : In k (_load_keys shuffle env primary)) by (rewrite Hl; left; reflexivity).
    apply loaded_pool_membership_aux in Hk as [Ht [Hk|[Hk|(n & Hn & _ & Hall)]]]; [| | |exact Hs].
    + assert (Hk' : In k (additional_keys (default "" (env !! (primary +:+ "S"))))).
      { unfold additional_keys. apply filter_In. auto. }
      rewrite Ha in Hk'. destruct Hk'.
    + apply Hp. exists k. auto.
    + apply H1, Hall. lia.
Qed.

End Loading.

Lemma rev_is_shuffle (l : list string) : Permutation (rev l) l.
Proof. symmetry. apply Permutation_rev. Qed.

Lemma numbered_loop_ends_by_break_witness :
  KeyLoading.numbered_keys Examples.sample_env "OPENAI_API_KEY" 100 1 ["k1"]
  = (["k1"; "k2"; "k4"], true).
Proof.
  eapply eq_trans.
  - apply (numbered_loop_ends_by_break Examples.sample_env "OPENAI_API_KEY" 100 1 ["k1"]).
    vm_compute. lia.
  - vm_compute. reflexivity.
Defined.

Lemma loaded_pool_is_clean_witness :
  NoDup (KeyLoading._load_keys (@rev string) Examples.sample_env "OPENAI_API_KEY").
Proof.
  apply (loaded_pool_is_clean Examples.sample_env "OPENAI_API_KEY" (@rev string)).
  exact rev_is_shuffle.
Defined.

Lemma loaded_pool_membership_witness :
  In "k4" (KeyLoading._load_keys (@rev string) Examples.sample_env "OPENAI_API_KEY")
  /\ ~ In "k5" (KeyLoading._load_keys (@rev string) Examples.sample_env "OPENAI_API_KEY").
Proof.
  split.
  - destruct (loaded_pool_membership Examples.sample_env "OPENAI_API_KEY"
                (@rev string) "k4" rev_is_shuffle) as [_ Hback].
    apply Hback. split; [vm_compute; reflexivity|]. right; right. exists 2%nat.
    split; [lia|]. split; [vm_compute; reflexivity|].
    intros i Hi. assert (Hc : i = 1%nat \/ i = 2%nat) by lia.
    destruct Hc as [-> | ->]; eexists; split; vm_compute; reflexivity.
  - intros Hin.
    destruct (loaded_pool_membership Examples.sample_env "OPENAI_API_KEY"
                (@rev string) "k5" rev_is_shuffle) as [Hforth _].
    destruct (Hforth Hin) as [_ [Hl|[Hp|(n & Hn & Hk & Hall)]]].
    + vm_compute in Hl. destruct Hl as [Hl|[Hl|[Hl|[Hl|[]]]]]; discriminate.
    + vm_compute in Hp. discriminate.
    + assert (H3 : (n < 3)%nat).
      { destruct (Nat.lt_ge_cases n 3) as [Hlt|Hge]; [exact Hlt|]. exfalso.
        destruct (Hall 3%nat) as (v & Hv & _); [lia|]. vm_compute in Hv. discriminate. }
      assert (Hc : n = 1%nat \/ n = 2%nat) by lia.
      destruct Hc as [-> | ->]; vm_compute in Hk; discriminate.
Defined.

Lemma no_key_iff_nothing_configured_witness :
  get_key (KeyLoading.new_manager (@rev string) ∅ "OPENAI_API_KEY") = None.
Proof.
  destruct (no_key_iff_nothing_configured ∅ "OPENAI_API_KEY" (@rev string) rev_is_shuffle)
    as [_ Hback].
  apply Hback. split; [vm_compute; reflexivity|].
  split; intros (v & Hv & _); rewrite lookup_empty in Hv; discriminate.
Defined.

(* ===================================================================== *)
(** ** The number of calls a retry loop makes *)
(* ===================================================================== *)

Section Budget.

Variable P : Providers.

Lemma on_exception_log (N attempt : nat) (e : py_error) (st st' : state P)
    (r : result (option unit)) :
  on_exception P N attempt e st = (r, st') -> log st' = log st.
Proof.
  unfold on_exception, bind, has_multiple_keys_openrouter, ret, raise.
  destruct (_ && _ && _).
  - destruct (rotate_openrouter_key P st) as [[b|e'] st1] eqn:Hrot;
      apply rotate_openrouter_key_log in Hrot; intros H; inversion H; subst; exact Hrot.
  - destruct (_ <? _)%nat; [|intros H; inversion H; reflexivity].
    destruct (has_multiple_keys _); [|intros H; inversion H; reflexivity].
    destruct (rotate_openrouter_key P st) as [[b|e'] st1] eqn:Hrot;
      apply rotate_openrouter_key_log in Hrot; intros H; inversion H; subst; exact Hrot.
Qed.

(** The loop entered with [r] iterations to go makes at most [r] calls,
    at least one when [r] is positive, and a value it returns is a value
    its body returned. *)
Lemma retry_loop_trace {A} (what which : string) (body : M P A) (ev : event) (N : nat) :
  makes_one_call body ev ->
  forall (r : nat) (st st' : state P) (res : result A),
    retry_loop P what which body N r st = (res, st') ->
    exists k,
      (k <= r)%nat
      /\ ((1 <= r)%nat -> (1 <= k)%nat)
      /\ log st' = log st ++ repeat ev k
      /\ (forall a, res = Ok a -> exists st0 st1, body st0 = (Ok a, st1)).
Proof.
  intros Hbody. induction r as [|r IH]; intros st st' res H.
  - simpl in H. inversion H; subst. exists 0%nat. simpl. rewrite app_nil_r.
    split; [lia|]. split; [lia|]. split; [reflexivity|]. intros a Ha. discriminate.
  - cbn [retry_loop] in H. cbv zeta in H.
    destruct (body st) as [[a|e] st1] eqn:Hb; pose proof (Hbody _ _ _ Hb) as Hl1.
    + inversion H; subst. exists 1%nat. simpl.
      split; [lia|]. split; [lia|]. split; [exact Hl1|].
      intros a' Ha. inversion Ha; subst. eauto.
    + assert (Hstep : forall (h : M P (option unit)),
                log (snd (h st1)) = log st1 ->
                match h st1 with
                | (Ok _, st'') => retry_loop P what which body N r st''
                | (Raise e', st'') => (Raise e', st'')
                end = (res, st') ->
                exists k,
                  (k <= S r)%nat /\ ((1 <= S r)%nat -> (1 <= k)%nat)
                  /\ log st' = log st ++ repeat ev k
                  /\ (forall a, res = Ok a -> exists st0 st1, body st0 = (Ok a, st1))).
      { intros h Hl2 Hm. destruct (h st1) as [[u|e'] st2] eqn:Hhe; simpl in Hl2.
        - destruct (IH _ _ _ Hm) as (k & Hk & _ & Hl & Hok).
          exists (S k). split; [lia|]. split; [lia|]. split; [|exact Hok].
          rewrite Hl, Hl2, Hl1, <- app_assoc. reflexivity.
        - inversion Hm; subst. exists 1%nat. split; [lia|]. split; [lia|].
          split; [rewrite Hl2; exact Hl1|]. intros a Ha. discriminate. }
      destruct (err_class e).
      * apply (Hstep _ (on_http_error_log P _ _ _ _ _ _ _ (surjective_pairing _)) H).
      * apply (Hstep _ (on_exception_log _ _ _ _ _ _ (surjective_pairing _)) H).
      * apply (Hstep _ (on_exception_log _ _ _ _ _ _ (surjective_pairing _)) H).
Qed.

Lemma plan_attempt_one_call (form_data : form_data_t) (key : string) :
  makes_one_call (plan_attempt P form_data key) (EvPost key (PlanningRequest form_data)).
Proof.
  intros st st' r. unfold plan_attempt, bind, raise.
  destruct (post P key _ st) as [[c|e] st1] eqn:Hp; apply post_log in Hp.
  - destruct c as [c|]; [destruct (Py.truthy c)|]; intros H; inversion H; subst; exact Hp.
  - intros H; inversion H; subst; exact Hp.
Qed.

Lemma combine_attempt_one_call (req : chat_request) (key : string) :
  makes_one_call (combine_attempt P req key) (EvPost key req).
Proof.
  intros st st' r. unfold combine_attempt, bind, raise, ret.
  destruct (post P key _ st) as [[c|e] st1] eqn:Hp; apply post_log in Hp.
  - destruct c as [c|]; [destruct (Py.truthy c)|]; intros H; inversion H; subst; exact Hp.
  - intros H; inversion H; subst; exact Hp.
Qed.

End Budget.

(** X7.  [plan_website_components] never raises.  It makes at least one
    and at most [max_retries] chat calls, every one of them the planning
    request with the key that was current when it started; without a
    usable key it makes no call, changes nothing and returns the fallback
    plan. *)
Theorem planner_call_budget (P : Providers) (form_data : form_data_t) (st : state P) :
  exists pd st' k,
    plan_website_components P form_data st = (Ok pd, st')
    /\ (k <= max_retries_of (consolidated_openrouter st))%nat
    /\ (forall key, usable_key (get_key (openrouter_key_manager st)) = Some key ->
          (1 <= k)%nat
          /\ log st' = log st ++ repeat (EvPost key (PlanningRequest form_data)) k)
    /\ (usable_key (get_key (openrouter_key_manager st)) = None ->
          k = 0%nat /\ st' = st /\ pd = get_fallback_plan form_data).
Proof.
  unfold plan_website_components, try_except, bind, get_openrouter_key, get_state.
  destruct (usable_key (get_key (openrouter_key_manager st))) as [key|] eqn:Hkey.
  - destruct (retry_loop P _ _ _ _ _ st) as [res st1] eqn:Hloop.
    destruct (retry_loop_trace P _ _ _ _ _ (plan_attempt_one_call P form_data key)
                _ _ _ _ Hloop) as (k & Hk & Hpos & Hl & _).
    specialize (Hpos (max_retries_of_pos _)).
    assert (Hlog : forall key0, Some key = Some key0 ->
              (1 <= k)%nat
              /\ log st1 = log st ++ repeat (EvPost key0 (PlanningRequest form_data)) k).
    { intros key0 E. inversion E; subst. auto. }
    destruct res as [pd|e]; eexists _, st1, k; (split; [reflexivity|]);
      (split; [exact Hk|]); (split; [exact Hlog|discriminate]).
  - exists (get_fallback_plan form_data), st, 0%nat.
    split; [reflexivity|]. split; [lia|]. split; [discriminate|auto].
Qed.

(** X8.  [combine_components] never raises: a failure is the answer
    [None].  It makes at least one and at most [max_retries] chat calls,
    every one of them the combination request with the key that was
    current when it started; without a usable key it makes no call and
    answers [None]; a document it returns is the post-processed content
    of one of its calls. *)
Theorem combiner_call_budget (P : Providers) (all_components : markup_map)
    (form_data : form_data_t) (image_urls : list string)
    (logo_url favicon_url theme_color font_name : string) (st : state P) :
  let req := CombinationRequest all_components form_data image_urls
               logo_url favicon_url theme_color font_name in
  exists o st' k,
    combine_components P all_components form_data image_urls
      logo_url favicon_url theme_color font_name st = (Ok o, st')
    /\ (k <= max_retries_of (consolidated_openrouter st))%nat
    /\ (forall key, usable_key (get_key (openrouter_key_manager st)) = Some key ->
          (1 <= k)%nat /\ log st' = log st ++ repeat (EvPost key req) k)
    /\ (usable_key (get_key (openrouter_key_manager st)) = None ->
          k = 0%nat /\ st' = st /\ o = None)
    /\ (forall html, o = Some html ->
          exists content, Py.truthy content = true /\ html = postprocess_html content).
Proof.
  intros req.
  unfold combine_components, try_except, bind at 1, get_openrouter_key, get_state.
  destruct (usable_key (get_key (openrouter_key_manager st))) as [key|] eqn:Hkey.
  - unfold bind. fold req.
    destruct (retry_loop P _ _ _ _ _ st) as [res st1] eqn:Hloop.
    destruct (retry_loop_trace P _ _ _ _ _ (combine_attempt_one_call P req key)
                _ _ _ _ Hloop) as (k & Hk & Hpos & Hl & Hok).
    specialize (Hpos (max_retries_of_pos _)).
    assert (Hlog : forall key0, Some key = Some key0 ->
              (1 <= k)%nat /\ log st1 = log st ++ repeat (EvPost key0 req) k).
    { intros key0 E. inversion E; subst. auto. }
    destruct res as [html|e].
    + exists (Some html), st1, k. split; [reflexivity|]. split; [exact Hk|].
      split; [exact Hlog|]. split; [discriminate|].
      intros html' E. inversion E; subst html'.
      destruct (Hok html eq_refl) as (st0 & st2 & Hb).
      unfold combine_attempt, bind, raise, ret in Hb.
      destruct (post P key req st0) as [[[c|]|e] st3]; try discriminate.
      destruct (Py.truthy c) eqn:Ht; [|discriminate].
      inversion Hb; subst. eauto.
    + exists None, st1, k. split; [reflexivity|]. split; [exact Hk|].
      split; [exact Hlog|]. split; discriminate.
  - exists None, st, 0%nat. split; [reflexivity|]. split; [lia|].
    split; [discriminate|]. split; [auto|discriminate].
Qed.

(* ===================================================================== *)
(** ** The requests of [generate_component] *)
(* ===================================================================== *)

Section ComponentRequests.

Variable P : Providers.

(** The handler either raises, or goes on with what it was given, or
    drops the reference documents for good. *)
Lemma on_component_exception_cases (N attempt : nat)
    (files : option (list (string * string))) (use : bool) (e : py_error)
    (st st' : state P) (r : result (option (list (string * string)) * bool)) :
  on_component_exception P N attempt files use e st = (r, st') ->
  log st' = log st
  /\ ((exists e', r = Raise e') \/ r = Ok (files, use) \/ r = Ok (Some [], false)).
Proof.
  unfold on_component_exception.
  destruct (_is_permission_error e).
  - destruct files; intros H; inversion H; eauto.
  - unfold bind, has_multiple_keys_openrouter, ret.
    destruct (_ && _ && _).
    + destruct (rotate_openrouter_key P st) as [[b|e'] st1] eqn:Hrot;
        apply rotate_openrouter_key_log in Hrot; intros H; inversion H; subst; eauto.
    + destruct (_ && _).
      * destruct (rotate_openrouter_key P st) as [[b|e'] st1] eqn:Hrot;
          apply rotate_openrouter_key_log in Hrot; intros H; inversion H; subst; eauto.
      * intros H; inversion H; subst; eauto.
Qed.

Lemma repeat_app_one {A} (x : A) (a : nat) (l : list A) :
  [x] ++ repeat x a ++ l = repeat x (S a) ++ l.
Proof. reflexivity. Qed.

(** The calls of the loop: first with the documents it was entered
    with, then, once a permission error dropped them, without. *)
Lemma component_loop_shape (args : component_prompt_args) (key : string) (N : nat) :
  forall (r : nat) (files : option (list (string * string))) (use : bool)
         (st st' : state P) (res : result (option string * bool)),
    component_loop P args key N r files use st = (res, st') ->
    exists a b,
      (a + b <= r)%nat
      /\ ((1 <= r)%nat -> (1 <= a + b)%nat)
      /\ log st' = log st
           ++ repeat (EvPost key (ComponentRequest args (build_contents files use))) a
           ++ repeat (EvPost key (ComponentRequest args [])) b
      /\ (forall o, res = Ok (o, true) -> use = true)
      /\ (forall code use', res = Ok (Some code, use') ->
            exists content, Py.truthy content = true
                            /\ code = clean_component_code content).
Proof.
  induction r as [|r IH]; intros files use st st' res H.
  - simpl in H. inversion H; subst. exists 0%nat, 0%nat. simpl. rewrite app_nil_r.
    split; [lia|]. split; [lia|]. split; [reflexivity|].
    split; [intros o E; inversion E; reflexivity|intros code use' E; discriminate].
  - cbn [component_loop] in H. cbv zeta in H.
    set (ev := EvPost key (ComponentRequest args (build_contents files use))) in *.
    destruct (post P key _ st) as [pr st1] eqn:Hp. apply post_log in Hp. fold ev in Hp.
    assert (Hsame : forall st2 : state P, log st2 = log st1 ->
              component_loop P args key N r files use st2 = (res, st') ->
              exists a b,
                (a + b <= S r)%nat /\ ((1 <= S r)%nat -> (1 <= a + b)%nat)
                /\ log st' = log st ++ repeat ev a
                             ++ repeat (EvPost key (ComponentRequest args [])) b
                /\ (forall o, res = Ok (o, true) -> use = true)
                /\ (forall code use', res = Ok (Some code, use') ->
                      exists content, Py.truthy content = true
                                      /\ code = clean_component_code content)).
    { intros st2 Hl2 Hloop. destruct (IH _ _ _ _ _ Hloop) as (a & b & Hab & _ & Hl & Hu & Hc).
      exists (S a), b. split; [lia|]. split; [lia|]. split; [|split; assumption].
      rewrite Hl, Hl2, Hp, <- app_assoc. reflexivity. }
    assert (Hstop : forall (e : py_error) (st2 : state P), log st2 = log st1 ->
              (Raise e, st2) = (res, st') ->
              exists a b,
                (a + b <= S r)%nat /\ ((1 <= S r)%nat -> (1 <= a + b)%nat)
                /\ log st' = log st ++ repeat ev a
                             ++ repeat (EvPost key (ComponentRequest args [])) b
                /\ (forall o, res = Ok (o, true) -> use = true)
                /\ (forall code use', res = Ok (Some code, use') ->
                      exists content, Py.truthy content = true
                                      /\ code = clean_component_code content)).
    { intros e st2 Hl2 E. inversion E; subst. exists 1%nat, 0%nat.
      split; [lia|]. split; [lia|]. split; [rewrite Hl2, Hp; reflexivity|].
      split; intros; discriminate. }
    destruct pr as [[content|]|e].
    + destruct (Py.truthy content) eqn:Ht; [|apply (Hsame st1 eq_refl H)].
      inversion H; subst. exists 1%nat, 0%nat.
      split; [lia|]. split; [lia|]. split; [exact Hp|]. split.
      * intros o E. inversion E. reflexivity.
      * intros code use' E. inversion E; subst. eauto.
    + apply (Hsame st1 eq_refl H).
    + destruct (err_class e).
      * destruct (on_http_error P _ N _ e st1) as [[u|e'] st2] eqn:Hh;
          apply on_http_error_log in Hh; [apply (Hsame st2 Hh H)|apply (Hstop e' st2 Hh H)].
      * destruct (on_component_exception P N _ files use e st1) as [hr st2] eqn:Hh.
        apply on_component_exception_cases in Hh as [Hl2 [(e' & ->)|[->| ->]]].
        -- apply (Hstop e' st2 Hl2 H).
        -- apply (Hsame st2 Hl2 H).
        -- destruct (IH _ _ _ _ _ H) as (a & b & Hab & _ & Hl & Hu & Hc).
           exists 1%nat, (a + b)%nat. split; [lia|]. split; [lia|].
           split; [|split; [intros o E; specialize (Hu o E); discriminate|exact Hc]].
           rewrite Hl, Hl2, Hp, <- app_assoc. simpl. rewrite repeat_app. reflexivity.
      * destruct (on_component_exception P N _ files use e st1) as [hr st2] eqn:Hh.
        apply on_component_exception_cases in Hh as [Hl2 [(e' & ->)|[->| ->]]].
        -- apply (Hstop e' st2 Hl2 H).
        -- apply (Hsame st2 Hl2 H).
        -- destruct (IH _ _ _ _ _ H) as (a & b & Hab & _ & Hl & Hu & Hc).
           exists 1%nat, (a + b)%nat. split; [lia|]. split; [lia|].
           split; [|split; [intros o E; specialize (Hu o E); discriminate|exact Hc]].
           rewrite Hl, Hl2, Hp, <- app_assoc. simpl. rewrite repeat_app. reflexivity.
Qed.

End ComponentRequests.

(** X9.  The chat calls of one [generate_component] run, whatever the
    provider does: all with the key it was given and for the same
    component; at least one and at most [max_retries + 1] of them,
    at most [max_retries] when it was given no reference documents;
    first a run of calls with the documents and then, once a permission
    error dropped them, only calls without: the documents never come
    back.  Markup it returns is the cleaned content of one of its
    calls. *)
Theorem generate_component_requests (P : Providers) (args : component_prompt_args)
    (key : string) (files : option (list (string * string))) (st : state P) :
  exists res st' a b,
    generate_component P args key files st = (res, st')
    /\ log st' = log st
         ++ repeat (EvPost key (ComponentRequest args (default [] files))) a
         ++ repeat (EvPost key (ComponentRequest args [])) b
    /\ (1 <= a + b <= max_retries_of (consolidated_openrouter st) + 1)%nat
    /\ (has_bootstrap files = false ->
          (a + b <= max_retries_of (consolidated_openrouter st))%nat)
    /\ (forall code, res = Ok (Some code) ->
          exists content, Py.truthy content = true
                          /\ code = clean_component_code content).
Proof.
  unfold generate_component, bind at 1, get_state. unfold bind.
  set (N := max_retries_of (consolidated_openrouter st)).
  assert (HN : (1 <= N)%nat) by apply max_retries_of_pos.
  assert (Hdocs : build_contents files (has_bootstrap files) = default [] files).
  { unfold build_contents, has_bootstrap. destruct files as [[|f fs]|]; reflexivity. }
  destruct (component_loop P args key N N files (has_bootstrap files) st)
    as [res st1] eqn:Hloop.
  destruct (component_loop_shape P _ _ _ _ _ _ _ _ _ Hloop)
    as (a & b & Hab & Hpos & Hl & Hu & Hc).
  specialize (Hpos HN). rewrite Hdocs in Hl.
  destruct res as [[[code|] use']|e].
  - exists (Ok (Some code)), st1, a, b. split; [reflexivity|]. split; [exact Hl|].
    split; [lia|]. split; [lia|]. intros code' E. inversion E; subst. eapply Hc. reflexivity.
  - destruct use'.
    + pose proof (Hu None eq_refl) as Huse.
      unfold final_fallback, try_except, bind, ret.
      destruct (post P key (ComponentRequest args []) st1) as [pr st2] eqn:Hp.
      pose proof (post_log P _ _ _ _ _ Hp) as Hl2.
      assert (Hlog : log st2 = log st
                ++ repeat (EvPost key (ComponentRequest args (default [] files))) a
                ++ repeat (EvPost key (ComponentRequest args [])) (S b)).
      { rewrite Hl2, Hl, <- !app_assoc. f_equal. f_equal.
        change (S b) with (1 + b)%nat. rewrite Nat.add_comm, repeat_app. reflexivity. }
      assert (Hbound : (1 <= a + S b <= N + 1)%nat) by lia.
      assert (Hnone : has_bootstrap files = false -> (a + S b <= N)%nat).
      { intros E. rewrite E in Huse. discriminate. }
      destruct pr as [[c|]|e].
      * destruct (Py.truthy c) eqn:Ht.
        -- exists (Ok (Some (clean_component_code c))), st2, a, (S b).
           split; [reflexivity|]. split; [exact Hlog|]. split; [exact Hbound|].
           split; [exact Hnone|]. intros code E. inversion E; subst. eauto.
        -- exists (Ok None), st2, a, (S b). split; [reflexivity|]. split; [exact Hlog|].
           split; [exact Hbound|]. split; [exact Hnone|]. discriminate.
      * exists (Ok None), st2, a, (S b). split; [reflexivity|]. split; [exact Hlog|].
        split; [exact Hbound|]. split; [exact Hnone|]. discriminate.
      * exists (Ok None), st2, a, (S b). split; [reflexivity|]. split; [exact Hlog|].
        split; [exact Hbound|]. split; [exact Hnone|]. discriminate.
    + exists (Ok None), st1, a, b. split; [reflexivity|]. split; [exact Hl|].
      split; [lia|]. split; [lia|]. discriminate.
  - exists (Raise e), st1, a, b. split; [reflexivity|]. split; [exact Hl|].
    split; [lia|]. split; [lia|]. discriminate.
Qed.

(* ===================================================================== *)
(** ** The calls of [generate_image_for_component] *)
(* ===================================================================== *)

Section ImageCalls.

Variable P : Providers.

Lemma image_attempt_spec (key prompt : string) (st : state P) :
  exists r st',
    image_attempt P key prompt st = (r, st')
    /\ log st' = log st ++ [EvImage key prompt]
    /\ openai_key_manager st' = openai_key_manager st
    /\ (forall e w', images_generate P (world st) key prompt = (ImageRaise e, w') ->
          r = Raise e).
Proof.
  unfold image_attempt.
  destruct (images_generate P (world st) key prompt) as [[e| |] w];
    eexists _, _; (split; [reflexivity|]); simpl; (split; [reflexivity|]);
    (split; [reflexivity|]); intros e0 w0 E; inversion E; reflexivity.
Qed.

Lemma get_key_in_pool (m : KeyManager) (k : string) :
  get_key m = Some k -> In k (keys m).
Proof.
  unfold get_key. destruct (keys m) as [|k0 l] eqn:E; [discriminate|].
  intros H. apply list_elem_of_In. eapply list_elem_of_lookup_2. exact H.
Qed.

(** What the handler of an image attempt does to the state. *)
Lemma on_image_error_spec (N attempt : nat) (client : string) (e : py_error)
    (st : state P) :
  exists o st',
    on_image_error P N attempt client e st = (Ok o, st')
    /\ log st' = log st
    /\ keys (openai_key_manager st') = keys (openai_key_manager st)
    /\ (forall c, o = Some c -> c = client \/ In c (keys (openai_key_manager st)))
    /\ (has_multiple_keys (openai_key_manager st) = true ->
        (attempt < N - 1)%nat ->
        openai_key_manager st' = snd (rotate_key (openai_key_manager st))
        /\ o = Some (default client (get_key (snd (rotate_key (openai_key_manager st))))))
    /\ (~ (attempt < N - 1)%nat -> o = None /\ st' = st).
Proof.
  unfold on_image_error, bind, has_multiple_keys_openai, rotate_openai_key,
    get_openai_key, ret.
  cbv beta.
  pose proof (rotate_key_keys (openai_key_manager st)) as Hk.
  destruct (rotate_key (openai_key_manager st)) as [b m'] eqn:Hrot. simpl in Hk.
  assert (Hc : forall c, Some (default client (get_key m')) = Some c ->
                         c = client \/ In c (keys (openai_key_manager st))).
  { intros c E. inversion E. destruct (get_key m') as [k|] eqn:Hg; simpl; [|auto].
    right. rewrite <- Hk. apply get_key_in_pool, Hg. }
  destruct (has_multiple_keys (openai_key_manager st)) eqn:Hm;
    destruct (Nat.ltb_spec attempt (N - 1)) as [Hlt|Hge];
    rewrite ?andb_true_r, ?andb_false_r, ?andb_false_l; cbn [andb].
  - destruct (OpenAIKeyManager.is_rate_limit_error e); cbn [andb];
      cbv beta iota; rewrite ?Hrot; cbv beta iota;
      eexists _, _; (split; [reflexivity|]); simpl;
      (split; [reflexivity|]); (split; [exact Hk|]); (split; [exact Hc|]);
      (split; [auto|lia]).
  - eexists _, _. split; [reflexivity|]. split; [reflexivity|]. split; [reflexivity|].
    split; [discriminate|]. split; [lia|auto].
  - eexists _, _. split; [reflexivity|]. split; [reflexivity|]. split; [reflexivity|].
    split; [discriminate|]. split; [discriminate|lia].
  - eexists _, _. split; [reflexivity|]. split; [reflexivity|]. split; [reflexivity|].
    split; [discriminate|]. split; [discriminate|auto].
Qed.

(** The loop makes at most one call per iteration, with the client's
    key or a key of the pool. *)
Lemma image_loop_budget (comp_name prompt timestamp : string) (N : nat) :
  forall (r : nat) (client : string) (st : state P),
    exists o st' ks,
      image_loop P comp_name prompt timestamp N r client st = (Ok o, st')
      /\ log st' = log st ++ image_calls prompt ks
      /\ (length ks <= r)%nat
      /\ Forall (fun k => k = client \/ In k (keys (openai_key_manager st))) ks
      /\ keys (openai_key_manager st') = keys (openai_key_manager st).
Proof.
  induction r as [|r IH]; intros client st.
  - exists None, st, []. simpl. rewrite app_nil_r. unfold ret. repeat split; auto.
  - cbn [image_loop].
    destruct (image_attempt_spec client prompt st) as (res & st1 & Hatt & Hl1 & Hm1 & _).
    rewrite Hatt.
    assert (Hnext : forall (client' : string) (st2 : state P),
              log st2 = log st1 ->
              keys (openai_key_manager st2) = keys (openai_key_manager st) ->
              client' = client \/ In client' (keys (openai_key_manager st)) ->
              exists o st' ks,
                image_loop P comp_name prompt timestamp N r client' st2 = (Ok o, st')
                /\ log st' = log st ++ image_calls prompt ks
                /\ (length ks <= S r)%nat
                /\ Forall (fun k => k = client \/ In k (keys (openai_key_manager st))) ks
                /\ keys (openai_key_manager st') = keys (openai_key_manager st)).
    { intros client' st2 Hl2 Hk2 Hc.
      destruct (IH client' st2) as (o & st' & ks & Hloop & Hl & Hlen & Hall & Hk).
      exists o, st', (client :: ks). split; [exact Hloop|].
      split; [rewrite Hl, Hl2, Hl1, <- app_assoc; reflexivity|].
      split; [simpl; lia|]. split; [|congruence].
      constructor; [auto|]. eapply Forall_impl; [exact Hall|].
      intros k [-> | Hin]; [exact Hc|]. right. rewrite <- Hk2. exact Hin. }
    assert (Hdone : forall o,
              exists o' st' ks,
                (Ok o, st1) = (@Ok (option string) o', st')
                /\ log st' = log st ++ image_calls prompt ks
                /\ (length ks <= S r)%nat
                /\ Forall (fun k => k = client \/ In k (keys (openai_key_manager st))) ks
                /\ keys (openai_key_manager st') = keys (openai_key_manager st)).
    { intros o. exists o, st1, [client]. split; [reflexivity|]. split; [exact Hl1|].
      split; [simpl; lia|]. split; [repeat constructor; auto|congruence]. }
    destruct res as [[|]|e].
    + apply Hdone.
    + apply Hnext; [reflexivity|congruence|auto].
    + destruct (on_image_error_spec N (N - S r) client e st1)
        as (o & st2 & Hh & Hl2 & Hk2 & Hc & _).
      rewrite Hh. destruct o as [client'|].
      * apply Hnext; [exact Hl2|congruence|].
        destruct (Hc client' eq_refl) as [E|Hin]; [auto|right; rewrite <- Hm1; exact Hin].
      * destruct (Hdone None) as (o' & st' & ks & E & Hrest). inversion E; subst.
        exists None, st2, ks. split; [reflexivity|].
        destruct Hrest as (Hl & Hlen & Hall & Hk).
        split; [rewrite Hl2; exact Hl|]. split; [exact Hlen|]. split; [exact Hall|].
        congruence.
Qed.

Lemma seq_one_succ (n : nat) : seq 1 (S n) = 1%nat :: map S (seq 1 n).
Proof. simpl. rewrite seq_shift. reflexivity. Qed.

(** With several keys and an image API that raises on every call, the
    loop entered with [r >= 1] iterations to go rotates before each
    retry and gives the retry the key rotated to. *)
Lemma image_loop_walk (comp_name prompt timestamp : string) (N : nat) :
  image_always_raises P prompt ->
  forall (r : nat) (client : string) (st : state P),
    (r < N)%nat ->
    (1 < length (keys (openai_key_manager st)))%nat ->
    exists st' ks,
      image_loop P comp_name prompt timestamp N (S r) client st = (Ok None, st')
      /\ log st' = log st ++ image_calls prompt (client :: ks)
      /\ Forall2 (fun j k => get_key (rotate_times j (openai_key_manager st)) = Some k)
           (seq 1 r) ks
      /\ openai_key_manager st' = rotate_times r (openai_key_manager st).
Proof.
  intros Hraise. induction r as [|r IH]; intros client st Hr Hpool.
  - cbn [image_loop].
    destruct (image_attempt_spec client prompt st) as (res & st1 & Hatt & Hl1 & Hm1 & He).
    destruct (Hraise (world st) client) as (e & w' & Hgen).
    rewrite Hatt, (He _ _ Hgen).
    destruct (on_image_error_spec N (N - 1) client e st1)
      as (o & st2 & Hh & Hl2 & _ & _ & _ & Hlast).
    destruct Hlast as [-> ->]; [lia|]. rewrite Hh.
    exists st1, []. split; [reflexivity|]. split; [exact Hl1|].
    split; [constructor|exact Hm1].
  - cbn [image_loop].
    destruct (image_attempt_spec client prompt st) as (res & st1 & Hatt & Hl1 & Hm1 & He).
    destruct (Hraise (world st) client) as (e & w' & Hgen).
    rewrite Hatt, (He _ _ Hgen).
    destruct (on_image_error_spec N (N - S (S r)) client e st1)
      as (o & st2 & Hh & Hl2 & Hk2 & _ & Hrot & _).
    destruct Hrot as [Hm2 ->];
      [unfold has_multiple_keys; rewrite Hm1; apply Nat.ltb_lt; exact Hpool|lia|].
    rewrite Hm1 in Hm2.
    set (m := openai_key_manager st) in *.
    assert (Hsome : exists k, get_key (snd (rotate_key m)) = Some k).
    { unfold get_key. rewrite rotate_key_keys.
      destruct (keys m) as [|k0 l] eqn:Ek; [simpl in Hpool; lia|].
      rewrite <- Ek. apply lookup_lt_is_Some_2.
      rewrite rotate_key_index by (rewrite Ek; exact Hpool).
      apply Nat.mod_upper_bound. rewrite Ek. discriminate. }
    destruct Hsome as (k & Hk). rewrite Hm1 in Hh. fold m in Hh.
    rewrite Hk in Hh. simpl default in Hh. rewrite Hh.
    destruct (IH k st2) as (st' & ks & Hloop & Hl & Hf & Hm'); [lia| |].
    { rewrite Hm2, rotate_key_keys. exact Hpool. }
    exists st', (k :: ks). split; [exact Hloop|].
    split; [rewrite Hl, Hl2, Hl1, <- app_assoc; reflexivity|].
    rewrite Hm2 in Hf, Hm'. split; [|exact Hm'].
    rewrite seq_one_succ. constructor; [exact Hk|].
    apply Forall2_fmap_l. exact Hf.
Qed.

Lemma max_retries_of_length (m : KeyManager) :
  keys m <> [] -> max_retries_of m = length (keys m).
Proof. unfold max_retries_of, get_all_keys. destruct (keys m); [congruence|reflexivity]. Qed.

End ImageCalls.

(** X10.  [generate_image_for_component] never raises and makes no chat
    call.  It makes at most [max_retries] image calls, each with the key
    of the client it was given or with a key of the OpenAI pool; it
    returns no reference exactly when the component has no image prompt,
    and every reference it returns lies under [/static/generated/]. *)
Theorem image_generation_budget (P : Providers) (comp : component)
    (timestamp client : string) (st : state P) :
  exists o st' ks,
    generate_image_for_component P comp timestamp client st = (Ok o, st')
    /\ log st' = log st ++ image_calls (default "" (image_prompt comp)) ks
    /\ (length ks <= max_retries_of (consolidated_openai st))%nat
    /\ Forall (fun k => k = client \/ In k (keys (openai_key_manager st))) ks
    /\ (o = None <-> Py.truthy (default "" (image_prompt comp)) = false)
    /\ (forall url, o = Some url -> Py.startswith "/static/generated/" url = true).
Proof.
  unfold generate_image_for_component.
  destruct (Py.truthy (default "" (image_prompt comp))) eqn:Hp; cbn [negb].
  - unfold try_except, bind, get_state, ret.
    destruct (image_loop_budget P (default "component" (name comp))
                (default "" (image_prompt comp)) timestamp
                (max_retries_of (consolidated_openai st))
                (max_retries_of (consolidated_openai st)) client st)
      as (o & st' & ks & Hloop & Hl & Hlen & Hall & _).
    rewrite Hloop.
    assert (Hurl : forall url,
              match o with
              | Some u => Some u
              | None => Some (fallback_image (default "component" (name comp)))
              end = Some url ->
              Py.startswith "/static/generated/" url = true).
    { intros url E. destruct o as [u|]; inversion E; subst.
      - pose proof (image_loop_trace P (default "component" (name comp))
                      (default "" (image_prompt comp)) timestamp
                      (max_retries_of (consolidated_openai st))
                      (max_retries_of (consolidated_openai st)) client st)
          as (o2 & st2 & evs & Hloop2 & _ & _ & Hcases & _).
        rewrite Hloop in Hloop2. inversion Hloop2; subst.
        destruct Hcases as [E2|E2]; inversion E2; subst.
        unfold local_image_url. apply startswith_app.
      - unfold fallback_image. destruct (String.eqb _ _); reflexivity. }
    destruct o as [u|]; eexists _, st', ks; (split; [reflexivity|]);
      (split; [exact Hl|]); (split; [exact Hlen|]); (split; [exact Hall|]);
      (split; [split; discriminate|exact Hurl]).
  - exists None, st, []. unfold ret. simpl. rewrite app_nil_r.
    split; [reflexivity|]. split; [reflexivity|]. split; [lia|]. split; [constructor|].
    split; [tauto|discriminate].
Qed.

(** X11.  Image retries walk the pool.  With [N >= 2] OpenAI keys and an
    image API that raises on every call, [generate_image_for_component]
    makes exactly [N] calls: the first with the client it was given, the
    retry after [j] failures with the key the manager holds after [j]
    rotations.  It leaves the manager [N - 1] places further and returns
    the fallback reference. *)
Theorem image_retries_walk_the_pool (P : Providers) (comp : component)
    (timestamp client : string) (st : state P) :
  Py.truthy (default "" (image_prompt comp)) = true ->
  image_always_raises P (default "" (image_prompt comp)) ->
  (1 < length (keys (openai_key_manager st)))%nat ->
  length (keys (consolidated_openai st)) = length (keys (openai_key_manager st)) ->
  exists st' ks,
    generate_image_for_component P comp timestamp client st
    = (Ok (Some (fallback_image (default "component" (name comp)))), st')
    /\ log st' = log st ++ image_calls (default "" (image_prompt comp)) (client :: ks)
    /\ length ks = (length (keys (openai_key_manager st)) - 1)%nat
    /\ Forall2 (fun j k => get_key (rotate_times j (openai_key_manager st)) = Some k)
         (seq 1 (length (keys (openai_key_manager st)) - 1)) ks
    /\ openai_key_manager st'
       = rotate_times (length (keys (openai_key_manager st)) - 1) (openai_key_manager st).
Proof.
  intros Hp Hraise Hpool Hcons.
  unfold generate_image_for_component. rewrite Hp. cbn [negb].
  unfold try_except, bind, get_state, ret.
  rewrite max_retries_of_length by (destruct (keys (consolidated_openai st));
                                     [simpl in Hcons; lia|discriminate]).
  rewrite Hcons.
  set (N := length (keys (openai_key_manager st))) in *.
  destruct (image_loop_walk P (default "component" (name comp))
              (default "" (image_prompt comp)) timestamp N Hraise (N - 1) client st)
    as (st' & ks & Hloop & Hl & Hf & Hm); [lia|exact Hpool|].
  replace (S (N - 1)) with N in Hloop by lia. rewrite Hloop.
  exists st', ks. split; [reflexivity|]. split; [exact Hl|].
  split; [|split; assumption].
  apply Forall2_length in Hf. rewrite length_seq in Hf. symmetry. exact Hf.
Qed.

Lemma image_retries_walk_the_pool_witness :
  exists st',
    generate_image_for_component Examples.always_429
      Examples.hero_with_prompt "20260101_000000" "a"
      (Examples.initial_state Examples.always_429 (0%nat, 0%nat) ["a"; "b"; "c"] ["k1"])
    = (Ok (Some hero_fallback_path), st')
    /\ log st' = image_calls "a bakery at dawn" ["a"; "b"; "c"].
Proof.
  destruct (image_retries_walk_the_pool Examples.always_429
              Examples.hero_with_prompt "20260101_000000" "a"
              (Examples.initial_state Examples.always_429 (0%nat, 0%nat)
                 ["a"; "b"; "c"] ["k1"]))
    as (st' & ks & Hrun & Hl & Hlen & Hf & _).
  - reflexivity.
  - intros w key. eexists _, _. reflexivity.
  - simpl. lia.
  - reflexivity.
  - exists st'. split; [exact Hrun|].
    simpl in Hf. inversion Hf as [|j1 k1 js1 ks1 H1 Hf1]; subst.
    inversion Hf1 as [|j2 k2 js2 ks2 H2 Hf2]; subst. inversion Hf2; subst.
    vm_compute in H1. vm_compute in H2. inversion H1; inversion H2; subst.
    exact Hl.
Defined.

(* ===================================================================== *)
(** ** The dict a generation run returns *)
(* ===================================================================== *)

Section RunInvariants.

Variable P : Providers.

Lemma dict_set_missing (k v : string) (d : markup_map) :
  dict_has k d = false -> dict_set k v d = d ++ [(k, v)].
Proof.
  induction d as [|[k' v'] d IH]; simpl; [reflexivity|].
  unfold dict_has in *. simpl. destruct (String.eqb k' k); simpl; [discriminate|].
  intros H. rewrite (IH H). reflexivity.
Qed.

Lemma dict_set_keys_present (k v : string) (d : markup_map) :
  dict_has k d = true -> dict_keys (dict_set k v d) = dict_keys d.
Proof.
  induction d as [|[k' v'] d IH]; simpl; [discriminate|].
  unfold dict_has in *. simpl. destruct (String.eqb k' k) eqn:E; simpl; [reflexivity|].
  intros H. unfold dict_keys in *. rewrite (IH H). reflexivity.
Qed.

Lemma dict_has_keys (k : string) (d : markup_map) :
  dict_has k d = true <-> In k (dict_keys d).
Proof.
  unfold dict_has, dict_keys. rewrite existsb_exists, in_map_iff. split.
  - intros (kv & Hin & E). apply String.eqb_eq in E. eauto.
  - intros (kv & E & Hin). exists kv. split; [exact Hin|]. apply String.eqb_eq, E.
Qed.

Lemma dict_set_keys_nodup (k v : string) (d : markup_map) :
  NoDup (dict_keys d) -> NoDup (dict_keys (dict_set k v d)).
Proof.
  intros Hnd. destruct (dict_has k d) eqn:E.
  - rewrite dict_set_keys_present by exact E. exact Hnd.
  - rewrite dict_set_missing by exact E. unfold dict_keys. rewrite map_app. simpl.
    apply NoDup_app. split; [exact Hnd|]. split; [|apply NoDup_singleton].
    intros x Hx Hx'. apply list_elem_of_singleton in Hx'. subst x.
    apply list_elem_of_In, dict_has_keys in Hx. congruence.
Qed.

Lemma dict_set_Forall (Q : string * string -> Prop) (k v : string) (d : markup_map) :
  Forall Q d -> Q (k, v) -> Forall Q (dict_set k v d).
Proof.
  intros Hd Hq. induction d as [|[k' v'] d IH]; simpl; [repeat constructor; exact Hq|].
  inversion Hd; subst.
  destruct (String.eqb_spec k' k) as [->|Hne]; constructor; auto.
Qed.

(** What one markup step does to the dict. *)
Lemma markup_step_cases (ctx : generation_context) (prompts : image_plan_t)
    (comp : component) (imgs : list string) (cs cs' : markup_map) (st st' : state P) :
  markup_step P ctx prompts comp imgs cs st = (Ok cs', st') ->
  cs' = cs \/ exists code, Py.truthy code = true
                           /\ cs' = dict_set (comp_name_of comp) code cs.
Proof.
  unfold markup_step, bind, ret.
  destruct (generate_component P _ _ _ st) as [[[code|]|e] st1]; intros H;
    [destruct (Py.truthy code) eqn:Ht| |]; inversion H; subst; eauto.
Qed.

Lemma regenerate_if_missing_cases (role dflt : string) (ctx : generation_context)
    (prompts : image_plan_t) (comps : list component) (imgs : list string)
    (cs cs' : markup_map) (st st' : state P) :
  regenerate_if_missing P role dflt ctx prompts comps imgs cs st = (Ok cs', st') ->
  cs' = cs
  \/ (dict_has role cs = false
      /\ (exists comp, find_component role comps = Some comp)
      /\ exists code, Py.truthy code = true /\ cs' = cs ++ [(role, code)]).
Proof.
  unfold regenerate_if_missing.
  destruct (dict_has role cs) eqn:Hhas; [intros H; inversion H; auto|].
  destruct (find_component role comps) as [comp|] eqn:Hfind; [|intros H; inversion H; auto].
  unfold bind, ret.
  destruct (generate_component P _ _ _ st) as [[[code|]|e] st1]; intros H;
    [destruct (Py.truthy code) eqn:Ht| |]; inversion H; subst; auto.
  right. split; [reflexivity|]. split; [eauto|]. exists code. split; [exact Ht|].
  apply dict_set_missing, Hhas.
Qed.

Lemma find_component_name (role : string) (comps : list component) (comp : component) :
  find_component role comps = Some comp ->
  In comp comps /\ comp_name_of comp = role.
Proof.
  unfold find_component. intros H. apply find_some in H as [Hin Hn].
  split; [exact Hin|]. unfold comp_name_of. destruct (name comp) as [n|]; [|discriminate].
  apply String.eqb_eq in Hn. subst. reflexivity.
Qed.

(** Distinct keys, each the name of a descriptor of [names], each with
    non-empty markup. *)
Lemma generation_loop_dict (ctx : generation_context) (prompts : image_plan_t)
    (names : list string) :
  forall (comps : list component) (acc acc' : markup_map * list string)
         (err : option py_error) (st st' : state P),
    generation_loop P ctx prompts comps acc st = (acc', err, st') ->
    (forall c, In c comps -> In (comp_name_of c) names) ->
    NoDup (dict_keys (fst acc)) ->
    Forall (fun kv => In (fst kv) names /\ Py.truthy (snd kv) = true) (fst acc) ->
    NoDup (dict_keys (fst acc'))
    /\ Forall (fun kv => In (fst kv) names /\ Py.truthy (snd kv) = true) (fst acc').
Proof.
  induction comps as [|comp comps IH]; intros acc acc' err st st' H Hnames Hnd Hall.
  - inversion H; subst. auto.
  - cbn [generation_loop] in H.
    destruct (process_component P ctx prompts comp acc st) as [[acc1|e] st1] eqn:Hp.
    + apply (IH _ _ _ _ _ H); [intros c Hc; apply Hnames; right; exact Hc| |].
      * unfold process_component, bind, ret in Hp.
        destruct (image_step P ctx comp (snd acc) st) as [[imgs|e] st0]; [|discriminate].
        destruct (markup_step P ctx prompts comp imgs (fst acc) st0) as [[cs|e] st2] eqn:Hm;
          [|discriminate].
        inversion Hp; subst. simpl.
        apply markup_step_cases in Hm as [->|(code & Ht & ->)]; [exact Hnd|].
        apply dict_set_keys_nodup, Hnd.
      * unfold process_component, bind, ret in Hp.
        destruct (image_step P ctx comp (snd acc) st) as [[imgs|e] st0]; [|discriminate].
        destruct (markup_step P ctx prompts comp imgs (fst acc) st0) as [[cs|e] st2] eqn:Hm;
          [|discriminate].
        inversion Hp; subst. simpl.
        apply markup_step_cases in Hm as [->|(code & Ht & ->)]; [exact Hall|].
        apply dict_set_Forall; [exact Hall|].
        simpl. split; [apply Hnames; left; reflexivity|exact Ht].
    + inversion H; subst. auto.
Qed.

Lemma regenerate_dict (role dflt : string) (ctx : generation_context)
    (prompts : image_plan_t) (names : list string) (comps : list component)
    (imgs : list string) (cs cs' : markup_map) (st st' : state P) :
  regenerate_if_missing P role dflt ctx prompts comps imgs cs st = (Ok cs', st') ->
  (forall c, In c comps -> In (comp_name_of c) names) ->
  NoDup (dict_keys cs) ->
  Forall (fun kv => In (fst kv) names /\ Py.truthy (snd kv) = true) cs ->
  NoDup (dict_keys cs')
  /\ Forall (fun kv => In (fst kv) names /\ Py.truthy (snd kv) = true) cs'.
Proof.
  intros H Hnames Hnd Hall.
  apply regenerate_if_missing_cases in H
    as [->|(Hhas & (comp & Hfind) & code & Ht & ->)]; [auto|].
  apply find_component_name in Hfind as [Hin Hname].
  rewrite <- (dict_set_missing role code cs Hhas). split.
  - apply dict_set_keys_nodup, Hnd.
  - apply dict_set_Forall; [exact Hall|]. simpl. split; [|exact Ht].
    rewrite <- Hname. apply Hnames, Hin.
Qed.

Lemma filter_dict (Q : string * string -> Prop) (f : string * string -> bool)
    (d : markup_map) :
  NoDup (dict_keys d) -> Forall Q d ->
  NoDup (dict_keys (List.filter f d)) /\ Forall Q (List.filter f d).
Proof.
  intros Hnd Hall. split.
  - unfold dict_keys in *. clear Hall. induction d as [|kv d IH]; simpl; [constructor|].
    simpl in Hnd. apply NoDup_cons in Hnd as [Hnotin Hnd].
    destruct (f kv); simpl; [|auto]. apply NoDup_cons. split; [|auto].
    intros Hin. apply Hnotin. apply list_elem_of_In. apply list_elem_of_In in Hin.
    apply in_map_iff in Hin as (kv' & E & Hin). apply filter_In in Hin as [Hin _].
    apply in_map_iff. eauto.
  - apply List.Forall_forall. intros kv Hin. apply filter_In in Hin as [Hin _].
    rewrite List.Forall_forall in Hall. auto.
Qed.

Lemma nodup_incl_length (l names : list string) :
  NoDup l -> (forall x, In x l -> In x names) -> (length l <= length names)%nat.
Proof. intros Hnd Hincl. apply List.NoDup_incl_length; [apply NoDup_ListNoDup, Hnd|exact Hincl]. Qed.

(** A chat call that ends in an HTTP error status that is not
    rate-limit-classified ends [generate_component] at once. *)
Lemma generate_component_http_abort (args : component_prompt_args) (key : string)
    (st : state P) :
  chat_always_http_error P ->
  exists e st',
    generate_component P args key (Some []) st = (Raise e, st')
    /\ log st' = log st ++ [EvPost key (ComponentRequest args [])].
Proof.
  intros Hw. unfold generate_component, bind at 1, get_state. unfold bind.
  pose proof (max_retries_of_pos (consolidated_openrouter st)) as HN.
  destruct (max_retries_of (consolidated_openrouter st)) as [|N]; [lia|].
  cbn [component_loop]. change (has_bootstrap (Some [])) with false.
  change (build_contents (Some []) false) with (@nil (string * string)).
  destruct (Hw (world st) key (ComponentRequest args [])) as (e & w' & Hc & Hcls & Hresp & Hrl).
  unfold post at 1. rewrite Hc. rewrite Hcls.
  unfold on_http_error. destruct (err_response_status e) as [status|]; [|congruence].
  rewrite Hrl. unfold bind, ret, raise.
  destruct (_ =? _)%nat; eexists _, _; split; reflexivity.
Qed.

End RunInvariants.

(** X12.  The dict [generate_all_components] returns, for every provider
    and every plan: its keys are distinct, each is the name of a
    descriptor of the plan, each holds non-empty markup, and so it has
    no more entries than the plan has descriptors. *)
Theorem generated_dict_is_well_formed (P : Providers) (pd : plan_data)
    (ctx : generation_context) (image_urls : list string) (st : state P) :
  let g := fst (generate_all_components P pd ctx image_urls st) in
  let names := map comp_name_of (components_to_generate pd) in
  NoDup (dict_keys (components g))
  /\ Forall (fun kv => In (fst kv) names /\ Py.truthy (snd kv) = true) (components g)
  /\ (length (components g) <= length (components_to_generate pd))%nat.
Proof.
  cbv zeta.
  set (names := map comp_name_of (components_to_generate pd)).
  assert (Hnames : forall c, In c (components_to_generate pd) -> In (comp_name_of c) names).
  { intros c Hc. apply in_map, Hc. }
  assert (Hgoal : NoDup (dict_keys
                     (components (fst (generate_all_components P pd ctx image_urls st))))
                  /\ Forall (fun kv => In (fst kv) names /\ Py.truthy (snd kv) = true)
                       (components (fst (generate_all_components P pd ctx image_urls st)))).
  { unfold generate_all_components. cbv zeta.
    destruct (generation_loop P ctx _ _ _ st) as [[acc err] st1] eqn:Hloop.
    destruct (generation_loop_dict P ctx _ names _ _ _ _ _ _ Hloop Hnames)
      as [Hnd Hall]; [constructor|constructor|].
    destruct err as [e|]; [simpl; auto|].
    destruct (regenerate_if_missing P "Contact" _ ctx _ _ _ _ st1) as [[cs2|e] st2] eqn:Hr1;
      [|simpl; auto].
    destruct (regenerate_dict P _ _ _ _ names _ _ _ _ _ _ Hr1 Hnames Hnd Hall)
      as [Hnd2 Hall2].
    destruct (regenerate_if_missing P "Footer" _ ctx _ _ _ _ st2) as [[cs3|e] st3] eqn:Hr2;
      [|simpl; auto].
    destruct (regenerate_dict P _ _ _ _ names _ _ _ _ _ _ Hr2 Hnames Hnd2 Hall2)
      as [Hnd3 Hall3].
    simpl. apply filter_dict; assumption. }
  destruct Hgoal as [Hnd Hall]. split; [exact Hnd|]. split; [exact Hall|].
  replace (length (components_to_generate pd)) with (length names)
    by (unfold names; apply length_map).
  replace (length (components (fst (generate_all_components P pd ctx image_urls st))))
    with (length (dict_keys (components (fst (generate_all_components P pd ctx image_urls st)))))
    by (unfold dict_keys; apply length_map).
  apply nodup_incl_length; [exact Hnd|].
  intros k Hk. unfold dict_keys in Hk. apply in_map_iff in Hk as (kv & <- & Hin).
  rewrite List.Forall_forall in Hall. apply Hall, Hin.
Qed.

(** X13.  A role regenerated after the main loop is appended at the end
    of the dict: a regenerated Contact comes after every component the
    loop stored, Footer included, whatever its slot.  Regeneration
    happens only for a role that is missing and is named in the plan. *)
Theorem regenerated_component_goes_last (P : Providers) (role dflt : string)
    (ctx : generation_context) (prompts : image_plan_t) (comps : list component)
    (imgs : list string) (cs cs' : markup_map) (st st' : state P) :
  regenerate_if_missing P role dflt ctx prompts comps imgs cs st = (Ok cs', st') ->
  cs' = cs
  \/ (dict_has role cs = false
      /\ (exists comp, find_component role comps = Some comp)
      /\ exists code, Py.truthy code = true /\ cs' = cs ++ [(role, code)]).
Proof. apply regenerate_if_missing_cases. Qed.

Lemma regenerated_component_goes_last_witness :
  exists st',
    regenerate_if_missing Examples.always_answers "Contact" "Contact form with mailto: link"
      Examples.bakery_context None fixed_components []
      [("Navigation", "<nav>ok</nav>"); ("Footer", "<footer>ok</footer>")]
      (Examples.initial_state Examples.always_answers (0%nat, 0%nat) ["img-key"] ["k1"])
    = (Ok [("Navigation", "<nav>ok</nav>"); ("Footer", "<footer>ok</footer>");
           ("Contact", "<section>ok</section>")], st').
Proof.
  destruct (regenerate_if_missing Examples.always_answers "Contact"
              "Contact form with mailto: link" Examples.bakery_context None
              fixed_components []
              [("Navigation", "<nav>ok</nav>"); ("Footer", "<footer>ok</footer>")]
              (Examples.initial_state Examples.always_answers (0%nat, 0%nat)
                 ["img-key"] ["k1"])) as [[cs'|e] st'] eqn:Hrun.
  - destruct (regenerated_component_goes_last _ _ _ _ _ _ _ _ _ _ _ Hrun)
      as [->|(_ & _ & code & _ & ->)].
    + vm_compute in Hrun. discriminate.
    + exists st'. vm_compute in Hrun. inversion Hrun; subst. reflexivity.
  - vm_compute in Hrun. discriminate.
Defined.

(** X14.  One HTTP error status ends the whole run.  When the provider
    answers chat calls with an HTTP error that is not
    rate-limit-classified, [generate_all_components] makes the image
    calls of the first descriptor and a single chat call, and returns an
    empty dict without the image list, however many keys and descriptors
    there are. *)
Theorem http_error_aborts_run (P : Providers) (pd : plan_data)
    (ctx : generation_context) (image_urls : list string) (st : state P) :
  chat_always_http_error P ->
  components_to_generate pd <> [] ->
  exists st' image_events req,
    generate_all_components P pd ctx image_urls st
    = ({| components := []; generated_images := None |}, st')
    /\ log st' = log st ++ image_events ++ [EvPost (gc_openrouter_key ctx) req]
    /\ Forall not_post image_events.
Proof.
  intros Hw Hne. unfold generate_all_components. cbv zeta.
  destruct (components_to_generate pd) as [|comp comps]; [congruence|].
  cbn [generation_loop]. unfold process_component, bind at 1. cbn [snd fst].
  destruct (image_step_trace P ctx comp image_urls st)
    as (new & st1 & ievs & Hi & _ & Hl1 & Hall & _).
  rewrite Hi. unfold bind at 1. unfold markup_step, bind at 1.
  destruct (generate_component_http_abort P
              (prompt_args ctx (image_prompts_of ctx pd) (default "Unknown" (name comp))
                 (default "Component" (purpose comp)) (image_urls ++ new)
                 (Some (design_info_of comp)))
              (gc_openrouter_key ctx) st1 Hw) as (e & st2 & Hg & Hl2).
  rewrite Hg. eexists st2, ievs, _. split; [reflexivity|].
  split; [rewrite Hl2, Hl1, <- app_assoc; reflexivity|exact Hall].
Qed.

Lemma http_error_aborts_run_witness :
  exists st',
    generate_all_components Examples.always_500 (get_fallback_plan ∅)
      Examples.bakery_context []
      (Examples.initial_state Examples.always_500 (0%nat, 0%nat) ["img-key"] ["k1"; "k2"])
    = ({| components := []; generated_images := None |}, st')
    /\ length (log st') = 1%nat.
Proof.
  destruct (http_error_aborts_run Examples.always_500 (get_fallback_plan ∅)
              Examples.bakery_context []
              (Examples.initial_state Examples.always_500 (0%nat, 0%nat)
                 ["img-key"] ["k1"; "k2"])) as (st' & ievs & req & Hrun & Hl & _).
  - intros w key req. eexists _, _. split; [reflexivity|].
    split; [reflexivity|]. split; [discriminate|vm_compute; reflexivity].
  - vm_compute. discriminate.
  - exists st'. split; [exact Hrun|]. clear Hl.
    assert (E : snd (generate_all_components Examples.always_500 (get_fallback_plan ∅)
                       Examples.bakery_context []
                       (Examples.initial_state Examples.always_500 (0%nat, 0%nat)
                          ["img-key"] ["k1"; "k2"])) = st') by (rewrite Hrun; reflexivity).
    rewrite <- E. vm_compute. reflexivity.
Defined.

(* ===================================================================== *)
(** ** The order of the descriptors *)
(* ===================================================================== *)

Section Ordering.

Lemma insert_by_order_filter (f : component -> bool) (c : component) :
  (forall d, (order_key d < order_key c)%Z -> f d = true -> f c = false) ->
  forall l, List.filter f (insert_by_order c l) = List.filter f (c :: l).
Proof.
  intros Hf. induction l as [|d l IH]; [reflexivity|].
  cbn [insert_by_order]. destruct (Z.leb_spec (order_key c) (order_key d)) as [Hle|Hgt];
    [reflexivity|].
  cbn [List.filter] in *. rewrite IH.
  destruct (f d) eqn:Hd; [|reflexivity].
  rewrite (Hf d Hgt Hd). reflexivity.
Qed.

Lemma sort_by_order_filter (z : Z) (l : list component) :
  List.filter (fun c => (order_key c =? z)%Z) (sort_by_order l)
  = List.filter (fun c => (order_key c =? z)%Z) l.
Proof.
  induction l as [|c l IH]; [reflexivity|].
  unfold sort_by_order in *. cbn [fold_right].
  rewrite insert_by_order_filter.
  - cbn [List.filter]. rewrite IH. reflexivity.
  - intros d Hlt Hd. apply Z.eqb_eq in Hd. apply Z.eqb_neq. lia.
Qed.

Lemma build_image_plan_from (comps : list component) (start : image_plan_t) :
  fold_left
    (fun (plan : image_plan_t) (comp : component) =>
       if default false (needs_image comp)
       then if String.eqb (default "" (name comp)) "Hero"
            then Some {| hi_purpose := "Hero section banner";
                         hi_prompt := default "" (image_prompt comp);
                         hi_dimensions := default "1920x600" (image_dimensions comp);
                         hi_aspect_ratio := default "16:5" (image_aspect_ratio comp) |}
            else plan
       else plan)
    comps start
  = match last (List.filter is_hero_with_image comps) with
    | Some comp => Some (hero_entry comp)
    | None => start
    end.
Proof.
  revert start. induction comps as [|comp comps IH]; intros start; [reflexivity|].
  cbn [fold_left List.filter]. rewrite IH. unfold is_hero_with_image at 2.
  destruct (default false (needs_image comp)); cbn [andb]; [|reflexivity].
  destruct (String.eqb (default "" (name comp)) "Hero"); [|reflexivity].
  destruct (List.filter is_hero_with_image comps) as [|c l] eqn:E; [reflexivity|].
  rewrite last_cons_cons.
  destruct (last (c :: l)) eqn:El; [reflexivity|].
  apply last_None in El. discriminate.
Qed.

End Ordering.

(** X15.  [sort_by_order] is the stable sort by order that
    [list.sort(key=...)] is: the result is a rearrangement of the list,
    ascending in the order key, and descriptors with the same key keep
    the order they had. *)
Theorem sort_by_order_is_stable (l : list component) :
  Permutation (sort_by_order l) l
  /\ StronglySorted ascending (sort_by_order l)
  /\ forall z, List.filter (fun c => (order_key c =? z)%Z) (sort_by_order l)
               = List.filter (fun c => (order_key c =? z)%Z) l.
Proof.
  split; [apply sort_by_order_perm|]. split; [apply sort_by_order_sorted|].
  intros z. apply sort_by_order_filter.
Qed.

(** X16.  The backward-compatible layout.  For a plan without
    [all_components] and with at most four dynamic components that
    carry no order (or one below 3), the run processes Navigation and
    Hero, then the dynamic components in the order of their list with
    the orders 3, 4, 5, 6, then Contact and Footer. *)
Theorem backward_compatible_layout (pd : plan_data) (dyn : list component) :
  default [] (all_components pd) = [] ->
  dynamic_components pd = Some dyn ->
  (length dyn <= 4)%nat ->
  Forall lacks_order dyn ->
  components_to_generate pd
  = firstn 2 fixed_components
    ++ imap (fun idx comp => set_order (3 + Z.of_nat idx) comp) dyn
    ++ skipn 2 fixed_components.
Proof.
  intros Hall Hdyn Hlen Hlack. unfold components_to_generate. rewrite Hall, Hdyn.
  change (default [] (Some dyn)) with dyn. cbv zeta iota.
  assert (Hens : forall c idx, lacks_order c ->
            match order c with
            | Some o => if (o <? 3)%Z then set_order (3 + idx) c else c
            | None => set_order (3 + idx) c
            end = set_order (3 + idx) c).
  { intros c idx Hc. unfold lacks_order in Hc. destruct (order c) as [o|]; [|reflexivity].
    destruct (Z.ltb_spec o 3); [reflexivity|lia]. }
  destruct dyn as [|c0 [|c1 [|c2 [|c3 [|c4 dyn]]]]]; simpl in Hlen; try lia;
    repeat match goal with
           | H : Forall lacks_order (_ :: _) |- _ => inversion H; subst; clear H
           end;
    cbn [ensure_orders]; rewrite ?Hens by assumption; reflexivity.
Qed.

Lemma backward_compatible_layout_witness :
  map comp_name_of
    (components_to_generate
       {| all_components := None;
          dynamic_components :=
            Some [bare_component "Services" "What we bake" 0 false;
                  bare_component "About" "Who we are" 0 false];
          image_plan := None; component_order := None; notes := None |})
  = ["Navigation"; "Hero"; "Services"; "About"; "Contact"; "Footer"].
Proof.
  rewrite (backward_compatible_layout _
             [bare_component "Services" "What we bake" 0 false;
              bare_component "About" "Who we are" 0 false]).
  - reflexivity.
  - reflexivity.
  - reflexivity.
  - simpl. lia.
  - repeat constructor.
Defined.

(** X17.  The [image_plan] of a validated plan: it has a ['hero_image']
    entry exactly when some component named Hero asks for an image, and
    when several do, the entry is built from the last of them. *)
Theorem image_plan_takes_last_hero (comps : list component) :
  build_image_plan comps
  = option_map hero_entry (last (List.filter is_hero_with_image comps)).
Proof.
  unfold build_image_plan. rewrite build_image_plan_from.
  destruct (last _); reflexivity.
Qed.

(* ===================================================================== *)
(** ** The repairs made to the merged document *)
(* ===================================================================== *)

Section Repairs.

Import Py.

(** Replacing an [old] that occurs brings in whatever [new] contains. *)
Lemma str_in_replace_new (pat old new : string) (c0 : ascii) (old' : string) :
  old = String c0 old' ->
  str_in pat new = true ->
  forall s, str_in old s = true -> str_in pat (replace_from old new 0 s) = true.
Proof.
  intros Hold Hnew. induction s as [|c s IH]; intros Hin.
  - rewrite Hold in Hin. discriminate.
  - cbn [replace_from]. destruct (startswith old (String c s)) eqn:Hsw.
    + apply str_in_app_l. exact Hnew.
    + cbn [str_in] in Hin. rewrite Hsw in Hin. apply str_in_cons, IH, Hin.
Qed.

Lemma str_in_lower_replace_new (pat old new : string) (c0 : ascii) (old' : string) :
  old = String c0 old' ->
  str_in pat (lower new) = true ->
  forall s, str_in old s = true -> str_in pat (lower (replace_from old new 0 s)) = true.
Proof.
  intros Hold Hnew. induction s as [|c s IH]; intros Hin.
  - rewrite Hold in Hin. discriminate.
  - cbn [replace_from]. destruct (startswith old (String c s)) eqn:Hsw.
    + rewrite lower_app. apply str_in_app_l. exact Hnew.
    + cbn [str_in] in Hin. rewrite Hsw in Hin. cbn [lower]. apply str_in_cons, IH, Hin.
Qed.

(** Nothing to replace, nothing changed. *)
Lemma replace_absent (old new : string) :
  forall s, str_in old s = false -> replace_from old new 0 s = s.
Proof.
  induction s as [|c s IH]; intros Hin; [reflexivity|].
  cbn [str_in] in Hin. apply orb_false_iff in Hin as [Hsw Hin].
  cbn [replace_from]. rewrite Hsw, (IH Hin). reflexivity.
Qed.

Lemma ensure_bootstrap_done (s : string) :
  str_in "cdn.jsdelivr.net/npm/bootstrap" (lower s) = true ->
  str_in "bootstrap" (lower s) = true ->
  ensure_bootstrap s = s.
Proof. intros H1 H2. unfold ensure_bootstrap. rewrite H1, H2. reflexivity. Qed.

End Repairs.

(** X18.  [ensure_spacing] changes a document only when it has a
    [<style>] tag and neither spacing marker; after it, a document with
    a [<style>] tag has a spacing marker, and a second pass changes
    nothing. *)
Theorem ensure_spacing_is_idempotent (html_code : string) :
  ensure_spacing (ensure_spacing html_code) = ensure_spacing html_code
  /\ (Py.str_in "<style>" html_code = true ->
      Py.str_in "padding-top: 80px" (ensure_spacing html_code)
      || Py.str_in "py-5" (ensure_spacing html_code) = true)
  /\ (Py.str_in "<style>" html_code = false -> ensure_spacing html_code = html_code).
Proof.
  destruct (Py.str_in "padding-top: 80px" html_code) eqn:Hpad.
  { assert (E : ensure_spacing html_code = html_code)
      by (unfold ensure_spacing; rewrite Hpad; reflexivity).
    rewrite !E. split; [reflexivity|]. split; [|reflexivity].
    intros _. rewrite Hpad. reflexivity. }
  destruct (Py.str_in "py-5" html_code) eqn:Hpy.
  { assert (E : ensure_spacing html_code = html_code)
      by (unfold ensure_spacing; rewrite Hpad, Hpy; reflexivity).
    rewrite !E. split; [reflexivity|]. split; [|reflexivity].
    intros _. rewrite Hpy. apply orb_true_r. }
  destruct (Py.str_in "<style>" html_code) eqn:Hst.
  - assert (E : ensure_spacing html_code
                = Py.replace "<style>" ("<style>" +:+ spacing_css) html_code)
      by (unfold ensure_spacing; rewrite Hpad, Hpy, Hst; reflexivity).
    assert (Hnew : Py.str_in "padding-top: 80px"
                     (Py.replace "<style>" ("<style>" +:+ spacing_css) html_code) = true).
    { unfold Py.replace. eapply str_in_replace_new; [reflexivity| |exact Hst].
      vm_compute. reflexivity. }
    rewrite !E. split; [unfold ensure_spacing; rewrite Hnew; reflexivity|].
    split; [intros _; rewrite Hnew; reflexivity|discriminate].
  - assert (E : ensure_spacing html_code = html_code)
      by (unfold ensure_spacing; rewrite Hpad, Hpy, Hst; reflexivity).
    rewrite !E. split; [reflexivity|]. split; [discriminate|reflexivity].
Qed.

(** X19.  [ensure_bootstrap] looks for the four tags in lower case only.
    When the document has one of them, the result refers to the
    Bootstrap CDN; when it has none of them (a document written with
    upper-case tags, say), nothing is added; in both cases a second pass
    changes nothing. *)
Theorem ensure_bootstrap_is_idempotent (generated_code : string) :
  ensure_bootstrap (ensure_bootstrap generated_code) = ensure_bootstrap generated_code
  /\ (Py.str_in "</head>" generated_code || Py.str_in "<head>" generated_code
      || Py.str_in "</body>" generated_code || Py.str_in "<body>" generated_code = true ->
      Py.str_in "cdn.jsdelivr.net/npm/bootstrap" (Py.lower (ensure_bootstrap generated_code))
      = true)
  /\ (Py.str_in "</head>" generated_code || Py.str_in "<head>" generated_code
      || Py.str_in "</body>" generated_code || Py.str_in "<body>" generated_code = false ->
      ensure_bootstrap generated_code = generated_code).
Proof.
  set (s := generated_code).
  destruct (Py.str_in "bootstrap" (Py.lower s)
            && Py.str_in "cdn.jsdelivr.net/npm/bootstrap" (Py.lower s)) eqn:Hdone.
  { apply andb_true_iff in Hdone as [H1 H2].
    rewrite !(ensure_bootstrap_done s H2 H1). split; [reflexivity|]. split; auto. }
  assert (Hcdn : forall t,
            Py.str_in "cdn.jsdelivr.net/npm/bootstrap" (Py.lower t) = true ->
            Py.str_in "bootstrap" (Py.lower t) = true).
  { intros t Ht.
    assert (Hgen : forall u, Py.str_in "cdn.jsdelivr.net/npm/bootstrap" u = true ->
                             Py.str_in "bootstrap" u = true).
    { induction u as [|c u IHu]; intros Hu; [discriminate|].
      cbn [Py.str_in] in Hu. apply orb_true_iff in Hu as [Hu|Hu].
      - apply startswith_split in Hu as [r ->].
        apply (str_in_app_r "bootstrap" "cdn.jsdelivr.net/npm/" ("bootstrap" +:+ r)).
        apply startswith_str_in, startswith_app.
      - apply str_in_cons, IHu, Hu. }
    apply Hgen, Ht. }
  assert (Hfix : forall t, Py.str_in "cdn.jsdelivr.net/npm/bootstrap" (Py.lower t) = true ->
                           ensure_bootstrap t = t).
  { intros t Ht. apply ensure_bootstrap_done; [exact Ht|apply Hcdn, Ht]. }
  set (with_css :=
         if Py.str_in "</head>" s
         then Py.replace "</head>" (bootstrap_css +:+ "</head>") s
         else if Py.str_in "<head>" s
         then Py.replace "<head>" ("<head>" +:+ nl +:+ bootstrap_css) s
         else s).
  assert (Hunf : ensure_bootstrap s
                 = if Py.str_in "</body>" with_css
                   then Py.replace "</body>" (bootstrap_js +:+ "</body>") with_css
                   else if Py.str_in "<body>" with_css
                   then Py.replace "<body>" ("<body>" +:+ nl +:+ bootstrap_js) with_css
                   else with_css).
  { unfold ensure_bootstrap. fold s.
    destruct (Py.str_in "bootstrap" (Py.lower s));
      destruct (Py.str_in "cdn.jsdelivr.net/npm/bootstrap" (Py.lower s));
      try discriminate; reflexivity. }
  assert (Hcss : Py.str_in "</head>" s || Py.str_in "<head>" s = true ->
                 Py.str_in "cdn.jsdelivr.net/npm/bootstrap" (Py.lower with_css) = true).
  { intros Hh. unfold with_css.
    destruct (Py.str_in "</head>" s) eqn:H1.
    - unfold Py.replace. eapply str_in_lower_replace_new; [reflexivity| |exact H1].
      vm_compute. reflexivity.
    - simpl in Hh. rewrite Hh. unfold Py.replace.
      eapply str_in_lower_replace_new; [reflexivity| |exact Hh]. vm_compute. reflexivity. }
  assert (Hnocss : Py.str_in "</head>" s || Py.str_in "<head>" s = false -> with_css = s).
  { intros Hh. apply orb_false_iff in Hh as [H1 H2]. unfold with_css.
    rewrite H1, H2. reflexivity. }
  assert (Hres : Py.str_in "</head>" s || Py.str_in "<head>" s
                 || Py.str_in "</body>" s || Py.str_in "<body>" s = true ->
                 Py.str_in "cdn.jsdelivr.net/npm/bootstrap" (Py.lower (ensure_bootstrap s))
                 = true).
  { intros Hany. rewrite Hunf.
    destruct (Py.str_in "</body>" with_css) eqn:Hb1.
    - unfold Py.replace. eapply str_in_lower_replace_new; [reflexivity| |exact Hb1].
      vm_compute. reflexivity.
    - destruct (Py.str_in "<body>" with_css) eqn:Hb2.
      + unfold Py.replace. eapply str_in_lower_replace_new; [reflexivity| |exact Hb2].
        vm_compute. reflexivity.
      + destruct (Py.str_in "</head>" s || Py.str_in "<head>" s) eqn:Hh;
          [apply Hcss; reflexivity|].
        rewrite (Hnocss eq_refl) in Hb1, Hb2. rewrite Hb1, Hb2 in Hany.
        simpl in Hany. discriminate. }
  assert (Hnone : Py.str_in "</head>" s || Py.str_in "<head>" s
                  || Py.str_in "</body>" s || Py.str_in "<body>" s = false ->
                  ensure_bootstrap s = s).
  { intros Hany. apply orb_false_iff in Hany as [Hany H4].
    apply orb_false_iff in Hany as [Hany H3].
    rewrite Hunf, (Hnocss Hany), H3, H4. reflexivity. }
  split; [|split; [exact Hres|exact Hnone]].
  destruct (Py.str_in "</head>" s || Py.str_in "<head>" s
            || Py.str_in "</body>" s || Py.str_in "<body>" s) eqn:Hany.
  - apply Hfix, Hres. reflexivity.
  - rewrite !(Hnone eq_refl). reflexivity.
Qed.

(* ===================================================================== *)
(** ** Unwrapping a fenced answer *)
(* ===================================================================== *)

Section Fences.

Import Py.

Lemma split_from_skip (sep : string) (k : nat) (s : string) :
  split_from sep k s = split_from sep 0 (drop k s).
Proof.
  revert k. induction s as [|c s IH]; intros k.
  - destruct k; reflexivity.
  - destruct k as [|k]; [reflexivity|]. cbn [split_from drop]. apply IH.
Qed.

Lemma split_from_occurrence (sep t : string) (c0 : ascii) (sep' : string) :
  sep = String c0 sep' ->
  split_from sep 0 (sep +:+ t)
  = (EmptyString, fst (split_from sep 0 t) :: snd (split_from sep 0 t)).
Proof.
  intros ->. change (String c0 sep' +:+ t) with (String c0 (sep' +:+ t)).
  cbn [split_from].
  change (String c0 (sep' +:+ t)) with (String c0 sep' +:+ t).
  rewrite startswith_app, split_from_skip.
  replace (String.length (String c0 sep') - 1)%nat with (String.length sep')
    by (simpl; lia).
  rewrite drop_app_length. destruct (split_from (String c0 sep') 0 t). reflexivity.
Qed.

Lemma no_backtick_cons (c : ascii) (s : string) :
  no_backtick (String c s) -> Ascii.eqb "`" c = false /\ no_backtick s.
Proof.
  unfold no_backtick. cbn [str_in startswith]. intros H.
  apply orb_false_iff in H as [H1 H2]. split; [|exact H2].
  destruct (Ascii.eqb "`" c); [discriminate|reflexivity].
Qed.

(** A separator that starts with a backtick is not found in a text
    without one. *)
Lemma split_from_prefix (sep' pre t : string) :
  no_backtick pre ->
  split_from (String "`" sep') 0 (pre +:+ t)
  = (pre +:+ fst (split_from (String "`" sep') 0 t),
     snd (split_from (String "`" sep') 0 t)).
Proof.
  induction pre as [|c pre IH]; intros Hpre.
  - change ("" +:+ t) with t. destruct (split_from _ 0 t) as [p ps].
    change ("" +:+ (p, ps).1) with p. reflexivity.
  - apply no_backtick_cons in Hpre as [Hc Hpre].
    change (String c pre +:+ t) with (String c (pre +:+ t)).
    cbn [split_from startswith]. rewrite Hc, (IH Hpre). reflexivity.
Qed.

Lemma append_empty (s : string) : s +:+ "" = s.
Proof.
  induction s as [|c s IH]; [reflexivity|].
  change (String c s +:+ "") with (String c (s +:+ "")). rewrite IH. reflexivity.
Qed.

Lemma split_from_absent (sep' s : string) :
  no_backtick s -> split_from (String "`" sep') 0 s = (s, []).
Proof.
  intros Hs. rewrite <- (append_empty s) at 1. rewrite (split_from_prefix sep' s "" Hs).
  simpl. rewrite append_empty. reflexivity.
Qed.

Lemma startswith_no_backtick (sep' s : string) :
  no_backtick s -> startswith (String "`" sep') s = false.
Proof.
  destruct s as [|c s]; [reflexivity|]. intros H.
  apply no_backtick_cons in H as [Hc _]. cbn [startswith]. rewrite Hc. reflexivity.
Qed.

(** The piece in front of the first opening fence of a text that starts
    with a closing fence: nothing, or all of it. *)
Lemma first_piece_after_close (lang post : string) :
  no_backtick post ->
  fst (split_from ("```" +:+ lang) 0 ("```" +:+ post)) = ""
  \/ fst (split_from ("```" +:+ lang) 0 ("```" +:+ post)) = "```" +:+ post.
Proof.
  intros Hpost.
  destruct (startswith ("```" +:+ lang) ("```" +:+ post)) eqn:Hsw.
  - left. apply startswith_split in Hsw as [t Ht]. rewrite Ht.
    rewrite (split_from_occurrence ("```" +:+ lang) t "`" ("``" +:+ lang) eq_refl).
    reflexivity.
  - right.
    change ("```" +:+ post) with (String "`" (String "`" (String "`" post))) in *.
    change ("```" +:+ lang) with (String "`" (String "`" (String "`" lang))) in *.
    cbn [split_from]. rewrite Hsw.
    assert (H2 : startswith (String "`" (String "`" (String "`" lang)))
                   (String "`" (String "`" post)) = false).
    { rewrite startswith_cons, Ascii.eqb_refl, startswith_cons, Ascii.eqb_refl.
      apply startswith_no_backtick, Hpost. }
    assert (H1 : startswith (String "`" (String "`" (String "`" lang)))
                   (String "`" post) = false).
    { rewrite startswith_cons, Ascii.eqb_refl. apply startswith_no_backtick, Hpost. }
    rewrite H2, H1, (split_from_absent _ post Hpost). reflexivity.
Qed.

Lemma str_in_prefix (a b : string) :
  forall s, str_in (a +:+ b) s = true -> str_in a s = true.
Proof.
  assert (Hsw : forall s, startswith (a +:+ b) s = true -> startswith a s = true).
  { induction a as [|c a IH]; intros s H; [reflexivity|].
    change (String c a +:+ b) with (String c (a +:+ b)) in H.
    destruct s as [|d s]; [discriminate|]. cbn [startswith] in *.
    destruct (Ascii.eqb c d); [|discriminate]. apply IH, H. }
  induction s as [|c s IH]; intros H.
  - cbn [str_in] in *. apply Hsw, H.
  - cbn [str_in] in *. apply orb_true_iff in H as [H|H].
    + rewrite (Hsw _ H). reflexivity.
    + rewrite (IH H). apply orb_true_r.
Qed.

Lemma no_backtick_no_fence (lang s : string) :
  no_backtick s -> str_in ("```" +:+ lang) s = false.
Proof.
  intros Hs. destruct (str_in ("```" +:+ lang) s) eqn:E; [|reflexivity].
  change ("```" +:+ lang) with ("`" +:+ ("``" +:+ lang)) in E.
  apply str_in_prefix in E. unfold no_backtick in Hs. congruence.
Qed.

Lemma hd_split_body (body rest : string) :
  no_backtick body ->
  rest = "" \/ (exists r, rest = "```" +:+ r) ->
  hd EmptyString (split "```" (body +:+ rest)) = body.
Proof.
  intros Hbody Hrest. unfold split.
  change "```" with (String "`" "``") at 1.
  rewrite (split_from_prefix "``" body rest Hbody).
  destruct Hrest as [->|(r & ->)].
  - simpl. apply append_empty.
  - rewrite (split_from_occurrence "```" r "`" "``" eq_refl). simpl. apply append_empty.
Qed.

End Fences.

(** X20.  The fence clean-up of the planner, the generator and the
    combiner, on texts whose parts hold no backtick.  An answer with a
    block under the expected fence is reduced to the stripped body of
    the block, the text before and after it dropped; a block under
    another fence is reduced to what stands between the fences, its
    language word included; an answer without a fence is left as it
    is. *)
Theorem fenced_answer_is_unwrapped (lang pre body post : string) :
  no_backtick pre -> no_backtick body -> no_backtick post ->
  Py.strip_code_fence ("```" +:+ lang)
    (pre +:+ ("```" +:+ lang) +:+ body +:+ "```" +:+ post) = Py.strip body
  /\ (forall tagged_fence,
        Py.str_in tagged_fence (pre +:+ "```" +:+ body +:+ "```" +:+ post) = false ->
        Py.strip_code_fence tagged_fence (pre +:+ "```" +:+ body +:+ "```" +:+ post)
        = Py.strip body)
  /\ Py.strip_code_fence ("```" +:+ lang) pre = pre.
Proof.
  intros Hpre Hbody Hpost.
  assert (Hopen : forall lang0,
            Py.between_fences ("```" +:+ lang0)
              (pre +:+ ("```" +:+ lang0) +:+ body +:+ "```" +:+ post) = Py.strip body).
  { intros lang0. unfold Py.between_fences, Py.split at 2.
    change ("```" +:+ lang0) with (String "`" ("``" +:+ lang0)) at 1.
    rewrite (split_from_prefix ("``" +:+ lang0) pre _ Hpre).
    change (String "`" ("``" +:+ lang0)) with ("```" +:+ lang0).
    rewrite (split_from_occurrence ("```" +:+ lang0) _ "`" ("``" +:+ lang0) eq_refl).
    cbn [fst snd nth].
    change ("```" +:+ lang0) with (String "`" ("``" +:+ lang0)) at 1.
    rewrite (split_from_prefix ("``" +:+ lang0) body _ Hbody). cbn [fst].
    change (String "`" ("``" +:+ lang0)) with ("```" +:+ lang0).
    f_equal. apply hd_split_body; [exact Hbody|].
    destruct (first_piece_after_close lang0 post Hpost) as [E|E]; rewrite E; eauto. }
  assert (Hin : forall lang0 rest,
            Py.str_in ("```" +:+ lang0) (pre +:+ ("```" +:+ lang0) +:+ rest) = true).
  { intros lang0 rest. apply str_in_app_r, startswith_str_in, startswith_app. }
  split; [|split].
  - unfold Py.strip_code_fence. rewrite Hin. apply Hopen.
  - intros tagged_fence Hno. unfold Py.strip_code_fence. rewrite Hno.
    change "```" with ("```" +:+ "") at 1. rewrite (Hin "" _).
    apply (Hopen "").
  - unfold Py.strip_code_fence.
    rewrite (no_backtick_no_fence lang pre Hpre).
    change "```" with ("```" +:+ ""). rewrite (no_backtick_no_fence "" pre Hpre).
    reflexivity.
Qed.

Lemma fenced_answer_is_unwrapped_witness :
  Py.strip_code_fence ("```" +:+ "html")
    (("Here is the section:" +:+ nl) +:+ ("```" +:+ "html")
     +:+ (nl +:+ "<section>ok</section>" +:+ nl) +:+ "```" +:+ (nl +:+ "Enjoy."))
  = "<section>ok</section>".
Proof.
  destruct (fenced_answer_is_unwrapped "html" ("Here is the section:" +:+ nl)
              (nl +:+ "<section>ok</section>" +:+ nl) (nl +:+ "Enjoy."))
    as (Hopen & _ & _).
  - vm_compute. reflexivity.
  - vm_compute. reflexivity.
  - vm_compute. reflexivity.
  - rewrite Hopen. vm_compute. reflexivity.
Defined.

(* ===================================================================== *)
(** ** The endpoint [create_website] *)
(* ===================================================================== *)

Section EndpointProps.

Variable P : Providers.
Variable str_of_http_exception : Z -> string -> string.

Lemma same_pools_refl (st : state P) : same_pools st st.
Proof. repeat split. Qed.

Lemma same_pools_trans (st1 st2 st3 : state P) :
  same_pools st1 st2 -> same_pools st2 st3 -> same_pools st1 st3.
Proof. unfold same_pools. intuition congruence. Qed.

Lemma post_same_pools (key : string) (req : chat_request) (st st' : state P)
    (r : result (option string)) :
  post P key req st = (r, st') -> same_pools st st'.
Proof.
  unfold post. destruct (chat_completions P _ _ _) as [[e|c] w]; intros H; inversion H;
    repeat split.
Qed.

Lemma rotate_openrouter_same_pools (st st' : state P) (r : result bool) :
  rotate_openrouter_key P st = (r, st') -> same_pools st st'.
Proof.
  unfold rotate_openrouter_key.
  pose proof (rotate_key_keys (openrouter_key_manager st)) as Hk.
  destruct (rotate_key _) as [b m]. intros H. inversion H; subst. repeat split. exact Hk.
Qed.

Lemma on_http_error_same_pools (what : string) (N attempt : nat) (e : py_error)
    (st st' : state P) (r : result (option unit)) :
  on_http_error P what N attempt e st = (r, st') -> same_pools st st'.
Proof.
  unfold on_http_error.
  destruct (err_response_status e); [|intros H; inversion H; apply same_pools_refl].
  unfold bind, has_multiple_keys_openrouter, ret, raise.
  destruct (OpenRouterKeyManager.is_rate_limit_error e).
  - destruct (has_multiple_keys _).
    + destruct (rotate_openrouter_key P st) as [[[]|e'] st1] eqn:Hrot;
        apply rotate_openrouter_same_pools in Hrot;
        repeat (destruct (_ =? _)%nat); intros H; inversion H; subst; exact Hrot.
    + destruct (_ =? _)%nat; intros H; inversion H; apply same_pools_refl.
  - destruct (_ =? _)%nat; intros H; inversion H; apply same_pools_refl.
Qed.

Lemma on_exception_same_pools (N attempt : nat) (e : py_error) (st st' : state P)
    (r : result (option unit)) :
  on_exception P N attempt e st = (r, st') -> same_pools st st'.
Proof.
  unfold on_exception, bind, has_multiple_keys_openrouter, ret, raise.
  destruct (_ && _ && _).
  - destruct (rotate_openrouter_key P st) as [[b|e'] st1] eqn:Hrot;
      apply rotate_openrouter_same_pools in Hrot; intros H; inversion H; subst; exact Hrot.
  - destruct (_ <? _)%nat; [|intros H; inversion H; apply same_pools_refl].
    destruct (has_multiple_keys _); [|intros H; inversion H; apply same_pools_refl].
    destruct (rotate_openrouter_key P st) as [[b|e'] st1] eqn:Hrot;
      apply rotate_openrouter_same_pools in Hrot; intros H; inversion H; subst; exact Hrot.
Qed.

Lemma retry_loop_same_pools {A} (what which : string) (body : M P A) (N : nat) :
  (forall st st' r, body st = (r, st') -> same_pools st st') ->
  forall (r : nat) (st st' : state P) (res : result A),
    retry_loop P what which body N r st = (res, st') -> same_pools st st'.
Proof.
  intros Hbody. induction r as [|r IH]; intros st st' res H.
  - simpl in H. inversion H; subst. apply same_pools_refl.
  - cbn [retry_loop] in H. cbv zeta in H.
    destruct (body st) as [[a|e] st1] eqn:Hb; pose proof (Hbody _ _ _ Hb) as Hs1.
    + inversion H; subst. exact Hs1.
    + assert (Hstep : forall (h : M P (option unit)),
                same_pools st1 (snd (h st1)) ->
                match h st1 with
                | (Ok _, st'') => retry_loop P what which body N r st''
                | (Raise e', st'') => (Raise e', st'')
                end = (res, st') ->
                same_pools st st').
      { intros h Hs2 Hm. destruct (h st1) as [[u|e'] st2]; simpl in Hs2.
        - eapply same_pools_trans; [exact Hs1|]. eapply same_pools_trans; [exact Hs2|].
          eapply IH. exact Hm.
        - inversion Hm; subst. eapply same_pools_trans; eassumption. }
      destruct (err_class e).
      * apply (Hstep _ (on_http_error_same_pools _ _ _ _ _ _ _ (surjective_pairing _)) H).
      * apply (Hstep _ (on_exception_same_pools _ _ _ _ _ _ (surjective_pairing _)) H).
      * apply (Hstep _ (on_exception_same_pools _ _ _ _ _ _ (surjective_pairing _)) H).
Qed.

(** The planner: its calls, and what it leaves of the pools. *)
Lemma planner_trace (form_data : form_data_t) (st : state P) :
  exists pd st' k,
    plan_website_components P form_data st = (Ok pd, st')
    /\ same_pools st st'
    /\ (k <= max_retries_of (consolidated_openrouter st))%nat
    /\ (forall key, usable_key (get_key (openrouter_key_manager st)) = Some key ->
          (1 <= k)%nat
          /\ log st' = log st ++ repeat (EvPost key (PlanningRequest form_data)) k)
    /\ (usable_key (get_key (openrouter_key_manager st)) = None -> k = 0%nat /\ st' = st).
Proof.
  unfold plan_website_components, try_except, bind, get_openrouter_key, get_state.
  destruct (usable_key (get_key (openrouter_key_manager st))) as [key|] eqn:Hkey.
  - destruct (retry_loop P _ _ _ _ _ st) as [res st1] eqn:Hloop.
    destruct (retry_loop_trace P _ _ _ _ _ (plan_attempt_one_call P form_data key)
                _ _ _ _ Hloop) as (k & Hk & Hpos & Hl & _).
    specialize (Hpos (max_retries_of_pos _)).
    assert (Hs : same_pools st st1).
    { eapply retry_loop_same_pools; [|exact Hloop].
      intros sa sb r. unfold plan_attempt, bind, raise.
      destruct (post P key _ sa) as [[c|e] sc] eqn:Hp; apply post_same_pools in Hp.
      - destruct c as [c|]; [destruct (Py.truthy c)|]; intros H; inversion H; subst;
          exact Hp.
      - intros H; inversion H; subst; exact Hp. }
    assert (Hlog : forall key0, Some key = Some key0 ->
              (1 <= k)%nat
              /\ log st1 = log st ++ repeat (EvPost key0 (PlanningRequest form_data)) k).
    { intros key0 E. inversion E; subst. auto. }
    destruct res as [pd|e]; eexists _, st1, k; (split; [reflexivity|]);
      (split; [exact Hs|]); (split; [exact Hk|]); (split; [exact Hlog|discriminate]).
  - exists (get_fallback_plan form_data), st, 0%nat.
    split; [reflexivity|]. split; [apply same_pools_refl|]. split; [lia|].
    split; [discriminate|auto].
Qed.

(** The combiner: its calls, and the doctype of what it returns. *)
Lemma combiner_trace (cs : markup_map) (form_data : form_data_t) (image_urls : list string)
    (logo_url favicon_url theme_color font_name : string) (st st' : state P)
    (r : result (option string)) :
  combine_components P cs form_data image_urls logo_url favicon_url theme_color font_name st
  = (r, st') ->
  exists o k,
    r = Ok o
    /\ (forall html, o = Some html ->
          Py.startswith "<!DOCTYPE" html = true
          /\ (1 <= k)%nat
          /\ exists key,
               log st' = log st
                 ++ repeat (EvPost key (CombinationRequest cs form_data image_urls
                                          logo_url favicon_url theme_color font_name)) k).
Proof.
  unfold combine_components, try_except, bind at 1, get_openrouter_key, get_state.
  destruct (usable_key (get_key (openrouter_key_manager st))) as [key|] eqn:Hkey.
  - unfold bind.
    destruct (retry_loop P _ _ _ _ _ st) as [res st1] eqn:Hloop.
    destruct (retry_loop_trace P _ _ _ _ _ (combine_attempt_one_call P _ key)
                _ _ _ _ Hloop) as (k & Hk & Hpos & Hl & Hok).
    specialize (Hpos (max_retries_of_pos _)).
    destruct res as [html|e]; intros H; inversion H; subst.
    + exists (Some html), k. split; [reflexivity|]. intros html' E. inversion E; subst html'.
      split; [|split; [exact Hpos|eauto]].
      destruct (Hok html eq_refl) as (st0 & st2 & Hb).
      unfold combine_attempt, bind, raise, ret in Hb.
      destruct (post P key _ st0) as [[[c|]|e] st3]; try discriminate.
      destruct (Py.truthy c); [|discriminate].
      inversion Hb; subst. apply postprocess_html_doctype.
    + exists None, k. split; [reflexivity|]. discriminate.
  - intros H. inversion H; subst. exists None, 0%nat. split; [reflexivity|]. discriminate.
Qed.

Lemma generate_image_local (comp : component) (timestamp client url : string)
    (st st' : state P) :
  generate_image_for_component P comp timestamp client st = (Ok (Some url), st') ->
  is_local_image url.
Proof.
  unfold generate_image_for_component, is_local_image.
  destruct (Py.truthy (default "" (image_prompt comp))); cbn [negb];
    [|intros H; inversion H].
  unfold try_except, bind, get_state, ret.
  pose proof (image_loop_trace P (default "component" (name comp))
                (default "" (image_prompt comp)) timestamp
                (max_retries_of (consolidated_openai st))
                (max_retries_of (consolidated_openai st)) client st)
    as (o & st2 & evs & Hloop & _ & _ & Hcases & _).
  rewrite Hloop. destruct o as [u|]; intros H; inversion H; subst.
  - destruct Hcases as [E|E]; inversion E; subst.
    unfold local_image_url. apply startswith_app.
  - unfold fallback_image. destruct (String.eqb _ _); reflexivity.
Qed.

Lemma process_component_images (ctx : generation_context) (prompts : image_plan_t)
    (comp : component) (acc acc' : markup_map * list string) (st st' : state P) :
  process_component P ctx prompts comp acc st = (Ok acc', st') ->
  Forall is_local_image (snd acc) -> Forall is_local_image (snd acc').
Proof.
  unfold process_component, bind at 1. intros H Hloc.
  destruct (image_step P ctx comp (snd acc) st) as [[imgs|e] st1] eqn:Hi; [|discriminate].
  assert (Himgs : Forall is_local_image imgs).
  { unfold image_step in Hi. destruct (default false (needs_image comp)).
    - unfold bind, ret in Hi.
      destruct (generate_image_for_component P comp _ _ st) as [[[url|]|e] st0] eqn:Hg;
        [|inversion Hi; subst; exact Hloc|discriminate].
      destruct (Py.truthy url); inversion Hi; subst; [|exact Hloc].
      apply Forall_app. split; [exact Hloc|]. constructor; [|constructor].
      eapply generate_image_local. exact Hg.
    - inversion Hi; subst. exact Hloc. }
  unfold bind, ret in H.
  destruct (markup_step P ctx prompts comp imgs (fst acc) st1) as [[cs|e] st2];
    inversion H; subst. exact Himgs.
Qed.

Lemma not_post_generation (evs : list event) :
  Forall not_post evs -> Forall (fun ev => is_generation_event ev = true) evs.
Proof.
  intros Hall. eapply Forall_impl; [exact Hall|].
  intros [k r|k p] H; [discriminate H|reflexivity].
Qed.

Lemma generation_loop_events (ctx : generation_context) (prompts : image_plan_t) :
  forall (comps : list component) (acc acc' : markup_map * list string)
         (err : option py_error) (st st' : state P),
    generation_loop P ctx prompts comps acc st = (acc', err, st') ->
    (exists evs, log st' = log st ++ evs
                 /\ Forall (fun ev => is_generation_event ev = true) evs)
    /\ (Forall is_local_image (snd acc) -> Forall is_local_image (snd acc')).
Proof.
  induction comps as [|comp comps IH]; intros acc acc' err st st' H.
  - inversion H; subst. split; [|auto]. exists []. rewrite app_nil_r. auto.
  - cbn [generation_loop] in H.
    destruct (process_component P ctx prompts comp acc st) as [r st1] eqn:Hp.
    destruct (process_component_trace P _ _ _ _ _ _ _ Hp)
      as (new & ievs & cevs & _ & _ & Hall1 & _ & Hall2 & Hl1 & _).
    assert (Hev : Forall (fun ev => is_generation_event ev = true) (ievs ++ cevs)).
    { apply Forall_app. split; [apply not_post_generation, Hall1|].
      eapply Forall_impl; [exact Hall2|]. intros ev <-. reflexivity. }
    destruct r as [acc1|e].
    + destruct (IH _ _ _ _ _ H) as [(evs & Hl & Hall) Himg]. split.
      * exists ((ievs ++ cevs) ++ evs). split; [rewrite Hl, Hl1, <- !app_assoc; reflexivity|].
        apply Forall_app. auto.
      * intros Hloc. apply Himg. eapply process_component_images; eassumption.
    + inversion H; subst. split; [|auto]. exists (ievs ++ cevs). auto.
Qed.

Lemma regenerate_events (role dflt : string) (ctx : generation_context)
    (prompts : image_plan_t) (comps : list component) (imgs : list string)
    (cs : markup_map) (st st' : state P) (r : result markup_map) :
  regenerate_if_missing P role dflt ctx prompts comps imgs cs st = (r, st') ->
  exists evs, log st' = log st ++ evs
              /\ Forall (fun ev => is_generation_event ev = true) evs.
Proof.
  unfold regenerate_if_missing.
  assert (Hnil : forall (sa : state P), exists evs,
            log sa = log sa ++ evs /\ Forall (fun ev => is_generation_event ev = true) evs).
  { intros sa. exists []. rewrite app_nil_r. auto. }
  destruct (dict_has role cs); [intros H; inversion H; subst; apply Hnil|].
  destruct (find_component role comps) as [comp|]; [|intros H; inversion H; subst; apply Hnil].
  unfold bind, ret.
  destruct (generate_component P _ _ _ st) as [gr st1] eqn:Hg.
  destruct (generate_component_trace P _ _ _ _ _ Hg) as (evs & Hl & _ & Hall).
  assert (Hev : Forall (fun ev => is_generation_event ev = true) evs).
  { eapply Forall_impl; [exact Hall|]. intros ev <-. reflexivity. }
  destruct gr as [[code|]|e]; [destruct (Py.truthy code)| |];
    intros H; inversion H; subst; eauto.
Qed.

Lemma generate_all_components_events (pd : plan_data) (ctx : generation_context)
    (st st' : state P) (g : generated) :
  generate_all_components P pd ctx [] st = (g, st') ->
  (exists evs, log st' = log st ++ evs
               /\ Forall (fun ev => is_generation_event ev = true) evs)
  /\ Forall is_local_image (default [] (generated_images g)).
Proof.
  unfold generate_all_components. cbv zeta.
  destruct (generation_loop P ctx _ _ _ st) as [[acc err] st1] eqn:Hloop.
  destruct (generation_loop_events _ _ _ _ _ _ _ _ Hloop) as [(evs1 & Hl1 & Hall1) Himg].
  specialize (Himg (List.Forall_nil _)).
  destruct err as [e|].
  { intros H. inversion H; subst. split; [eauto|constructor]. }
  destruct (regenerate_if_missing P "Contact" _ ctx _ _ _ _ st1) as [r2 st2] eqn:Hr1.
  destruct (regenerate_events _ _ _ _ _ _ _ _ _ _ Hr1) as (evs2 & Hl2 & Hall2).
  assert (H12 : exists evs, log st2 = log st ++ evs
                  /\ Forall (fun ev => is_generation_event ev = true) evs).
  { exists (evs1 ++ evs2). split; [rewrite Hl2, Hl1, <- app_assoc; reflexivity|].
    apply Forall_app. auto. }
  destruct r2 as [cs2|e].
  2:{ intros H. inversion H; subst. split; [exact H12|constructor]. }
  destruct (regenerate_if_missing P "Footer" _ ctx _ _ _ _ st2) as [r3 st3] eqn:Hr2.
  destruct (regenerate_events _ _ _ _ _ _ _ _ _ _ Hr2) as (evs3 & Hl3 & Hall3).
  assert (H123 : exists evs, log st3 = log st ++ evs
                   /\ Forall (fun ev => is_generation_event ev = true) evs).
  { destruct H12 as (evs & Hl & Hall). exists (evs ++ evs3).
    split; [rewrite Hl3, Hl, <- app_assoc; reflexivity|]. apply Forall_app. auto. }
  destruct r3 as [cs3|e]; intros H; inversion H; subst;
    (split; [exact H123|]); [exact Himg|constructor].
Qed.

(** The dict of a run, for every provider: distinct keys, non-empty
    markup. *)
Lemma generate_all_components_dict (pd : plan_data) (ctx : generation_context)
    (image_urls : list string) (st : state P) :
  NoDup (dict_keys (components (fst (generate_all_components P pd ctx image_urls st))))
  /\ Forall (fun kv => Py.truthy (snd kv) = true)
       (components (fst (generate_all_components P pd ctx image_urls st))).
Proof.
  set (names := map comp_name_of (components_to_generate pd)).
  assert (Hnames : forall c, In c (components_to_generate pd) -> In (comp_name_of c) names).
  { intros c Hc. apply in_map, Hc. }
  assert (Hgoal : NoDup (dict_keys
                     (components (fst (generate_all_components P pd ctx image_urls st))))
                  /\ Forall (fun kv => In (fst kv) names /\ Py.truthy (snd kv) = true)
                       (components (fst (generate_all_components P pd ctx image_urls st)))).
  { unfold generate_all_components. cbv zeta.
    destruct (generation_loop P ctx _ _ _ st) as [[acc err] st1] eqn:Hloop.
    destruct (generation_loop_dict P ctx _ names _ _ _ _ _ _ Hloop Hnames)
      as [Hnd Hall]; [constructor|constructor|].
    destruct err as [e|]; [simpl; auto|].
    destruct (regenerate_if_missing P "Contact" _ ctx _ _ _ _ st1) as [[cs2|e] st2] eqn:Hr1;
      [|simpl; auto].
    destruct (regenerate_dict P _ _ _ _ names _ _ _ _ _ _ Hr1 Hnames Hnd Hall)
      as [Hnd2 Hall2].
    destruct (regenerate_if_missing P "Footer" _ ctx _ _ _ _ st2) as [[cs3|e] st3] eqn:Hr2;
      [|simpl; auto].
    destruct (regenerate_dict P _ _ _ _ names _ _ _ _ _ _ Hr2 Hnames Hnd2 Hall2)
      as [Hnd3 Hall3].
    simpl. apply filter_dict; assumption. }
  destruct Hgoal as [Hnd Hall]. split; [exact Hnd|].
  eapply Forall_impl; [exact Hall|]. intros kv [_ H]. exact H.
Qed.

Lemma dict_get_In (k v : string) (d : markup_map) :
  dict_get k d = Some v -> In (k, v) d.
Proof.
  unfold dict_get. destruct (List.find _ d) as [[k' v']|] eqn:Hf; [|discriminate].
  intros H. inversion H; subst. apply find_some in Hf as [Hin Hk].
  simpl in Hk. apply String.eqb_eq in Hk. subst. exact Hin.
Qed.

(** Popping a key of a dict with distinct keys takes one entry away. *)
Lemma dict_remove_length (k v : string) (d : markup_map) :
  NoDup (dict_keys d) -> In (k, v) d -> S (length (dict_remove k d)) = length d.
Proof.
  unfold dict_remove, dict_keys. induction d as [|[k' v'] d IH]; intros Hnd Hin; [destruct Hin|].
  cbn [map fst] in Hnd. apply NoDup_cons in Hnd as [Hk' Hnd].
  cbn [List.filter fst]. destruct (String.eqb_spec k' k) as [->|Hne]; cbn [negb].
  - f_equal. cbn [length]. f_equal.
    assert (Hall : forall kv, In kv d -> negb (String.eqb (fst kv) k) = true).
    { intros [k0 v0] H0. simpl. destruct (String.eqb_spec k0 k) as [->|]; [|reflexivity].
      exfalso. apply Hk'. apply list_elem_of_In, in_map_iff. exists (k, v0). auto. }
    clear -Hall. induction d as [|kv d IH]; [reflexivity|].
    cbn [List.filter]. rewrite (Hall kv (or_introl eq_refl)). cbn [length].
    f_equal. apply IH. intros kv' H'. apply Hall. right. exact H'.
  - cbn [length]. f_equal. apply IH; [exact Hnd|].
    destruct Hin as [E|Hin]; [inversion E; congruence|exact Hin].
Qed.

End EndpointProps.

(** X21.  The validation of [create_website].  The request is refused
    with status 400 exactly when the site name, the business category
    or the business sub-category is empty, and then no key is read and
    no call is made; every other refusal has status 500. *)
Theorem create_website_validation (P : Providers)
    (str_of_http_exception : Z -> string -> string) (f : website_form)
    (timestamp gen_timestamp : string) (st : state P) :
  let run := create_website P str_of_http_exception f timestamp gen_timestamp st in
  ((exists detail, fst run = HTTPException 400 detail)
   <-> siteName f = "" \/ businessCategory f = "" \/ businessSubCategory f = "")
  /\ (forall detail, fst run = HTTPException 400 detail -> snd run = st)
  /\ (forall status detail, fst run = HTTPException status detail ->
        status = 400%Z \/ status = 500%Z).
Proof.
  cbv zeta.
  assert (Hlate : forall (o1 o2 : string) pd (st1 : state P) status detail,
            fst (generate_and_combine P str_of_http_exception f
                   (upload_url "logo" timestamp (logoImage f))
                   (upload_url "favicon" timestamp (faviconImage f))
                   gen_timestamp pd o1 o2 st1) = HTTPException status detail ->
            status = 500%Z).
  { intros o1 o2 pd st1 status detail. unfold generate_and_combine. cbv zeta.
    destruct (generate_all_components P pd _ [] st1) as [g st2].
    destruct (dict_len g <? 4)%nat; [intros H; inversion H; reflexivity|].
    destruct (pop_generated_images g) as [cs image_urls].
    destruct (combine_components P _ _ _ _ _ _ _ st2) as [[code|e] st3];
      [|intros H; inversion H; reflexivity].
    destruct (negb (Py.truthy (default "" code))); [intros H; inversion H; reflexivity|].
    destruct (finalize_document code); intros H; inversion H; reflexivity. }
  assert (Hrest : forall status detail,
            fst (match plan_website_components P (form_data_of f) st with
                 | (Raise e, st1) => (HTTPException 500 (err_str e), st1)
                 | (Ok plan, st1) =>
                     match usable_key (get_key (openai_key_manager st1)) with
                     | None =>
                         (HTTPException 500
                            "OPENAI_API_KEY not configured for image generation", st1)
                     | Some openai_key =>
                         match usable_key (get_key (openrouter_key_manager st1)) with
                         | None =>
                             (HTTPException 500
                                "OPENROUTER_API_KEY not configured for component generation",
                              st1)
                         | Some openrouter_key =>
                             generate_and_combine P str_of_http_exception f
                               (upload_url "logo" timestamp (logoImage f))
                               (upload_url "favicon" timestamp (faviconImage f))
                               gen_timestamp plan openai_key openrouter_key st1
                         end
                     end
                 end) = HTTPException status detail -> status = 500%Z).
  { intros status detail.
    destruct (plan_website_components P (form_data_of f) st) as [[pd|e] st1];
      [|intros H; inversion H; reflexivity].
    destruct (usable_key (get_key (openai_key_manager st1)));
      [|intros H; inversion H; reflexivity].
    destruct (usable_key (get_key (openrouter_key_manager st1)));
      [|intros H; inversion H; reflexivity].
    apply Hlate. }
  unfold create_website. cbv zeta.
  destruct (siteName f) as [|c1 s1] eqn:E1; cbn [Py.truthy negb].
  { split; [split; eauto|]. split; [reflexivity|]. intros status detail H.
    inversion H; auto. }
  destruct (businessCategory f) as [|c2 s2] eqn:E2; cbn [Py.truthy negb].
  { split; [split; eauto|]. split; [reflexivity|]. intros status detail H.
    inversion H; auto. }
  destruct (businessSubCategory f) as [|c3 s3] eqn:E3; cbn [Py.truthy negb].
  { split; [split; eauto|]. split; [reflexivity|]. intros status detail H.
    inversion H; auto. }
  split; [|split].
  - split.
    + intros (detail & H). apply Hrest in H. discriminate.
    + intros [H|[H|H]]; discriminate.
  - intros detail H. apply Hrest in H. discriminate.
  - intros status detail H. right. eapply Hrest. exact H.
Qed.

(** X22.  The OpenAI key is looked at only after the planner has run:
    a valid request that finds no OpenAI key but an OpenRouter key is
    refused with status 500 after between one and [max_retries]
    planning calls have been made with that key. *)
Theorem openai_key_is_checked_after_planning (P : Providers)
    (str_of_http_exception : Z -> string -> string) (f : website_form)
    (timestamp gen_timestamp : string) (st : state P) (key : string) :
  Py.truthy (siteName f) = true ->
  Py.truthy (businessCategory f) = true ->
  Py.truthy (businessSubCategory f) = true ->
  usable_key (get_key (openai_key_manager st)) = None ->
  usable_key (get_key (openrouter_key_manager st)) = Some key ->
  exists st' k,
    create_website P str_of_http_exception f timestamp gen_timestamp st
    = (HTTPException 500 "OPENAI_API_KEY not configured for image generation", st')
    /\ (1 <= k <= max_retries_of (consolidated_openrouter st))%nat
    /\ log st' = log st ++ repeat (EvPost key (PlanningRequest (form_data_of f))) k.
Proof.
  intros H1 H2 H3 Hopenai Hrouter. unfold create_website.
  rewrite H1, H2, H3. cbn [negb]. cbv zeta.
  destruct (planner_trace P (form_data_of f) st)
    as (pd & st1 & k & Hplan & Hs & Hk & Hlog & _).
  destruct (Hlog key Hrouter) as [Hpos Hl].
  rewrite Hplan. destruct Hs as (Ho & _). rewrite Ho, Hopenai.
  exists st1, k. split; [reflexivity|]. split; [lia|exact Hl].
Qed.

Lemma openai_key_is_checked_after_planning_witness :
  exists st',
    create_website Examples.always_answers (fun _ detail => detail) EndpointExamples.bakery_form
      "20260101_000000" "20260101_000001"
      (Examples.initial_state Examples.always_answers (0%nat, 0%nat) [] ["k1"])
    = (HTTPException 500 "OPENAI_API_KEY not configured for image generation", st')
    /\ length (log st') = 1%nat.
Proof.
  destruct (openai_key_is_checked_after_planning Examples.always_answers
              (fun _ detail => detail) EndpointExamples.bakery_form
              "20260101_000000" "20260101_000001"
              (Examples.initial_state Examples.always_answers (0%nat, 0%nat) [] ["k1"])
              "k1") as (st' & k & Hrun & Hk & Hl); try reflexivity.
  exists st'. split; [exact Hrun|].
  rewrite Hl, length_app, repeat_length.
  change (max_retries_of _) with 1%nat in Hk. simpl. lia.
Defined.

(** X23.  What a successful answer of [create_website] guarantees.  The
    document starts with the doctype and has an html and a body tag.  Its
    images are a list of references that all lie under
    [/static/generated/], unless the generation run ended by an exception
    and left a markup entry named ['__generated_images__']: then the
    images of the answer are that non-empty markup text.  The calls were
    made in three phases: planning calls with one key, then image calls
    and component requests, then combination requests with one key, which
    carry the images of the answer and at least three components. *)
Theorem create_website_success (P : Providers)
    (str_of_http_exception : Z -> string -> string) (f : website_form)
    (timestamp gen_timestamp : string) (st st' : state P)
    (code : string) (images : image_value) :
  create_website P str_of_http_exception f timestamp gen_timestamp st
  = (JSONResponse code images, st') ->
  has_markers code
  /\ (forall urls, images = ImageList urls -> Forall is_local_image urls)
  /\ (forall markup, images = ImageText markup -> Py.truthy markup = true)
  /\ exists plan_key k1 generation combine_key cs k2,
       log st' = log st
         ++ repeat (EvPost plan_key (PlanningRequest (form_data_of f))) k1
         ++ generation
         ++ repeat (EvPost combine_key
                      (CombinationRequest cs (form_data_of f) (items_of images)
                         (upload_url "logo" timestamp (logoImage f))
                         (upload_url "favicon" timestamp (faviconImage f))
                         (themeColor f) (fontName f))) k2
       /\ (1 <= k1)%nat /\ (1 <= k2)%nat
       /\ Forall (fun ev => is_generation_event ev = true) generation
       /\ (3 <= length cs)%nat.
Proof.
  unfold create_website.
  destruct (negb (Py.truthy (siteName f))); [discriminate|].
  destruct (negb (Py.truthy (businessCategory f))); [discriminate|].
  destruct (negb (Py.truthy (businessSubCategory f))); [discriminate|].
  cbv zeta.
  destruct (planner_trace P (form_data_of f) st)
    as (pd & st1 & k1 & Hplan & Hs & Hk1 & Hlog1 & Hnokey).
  rewrite Hplan.
  destruct (usable_key (get_key (openai_key_manager st1))) as [openai_key|]; [|discriminate].
  destruct (usable_key (get_key (openrouter_key_manager st1))) as [openrouter_key|] eqn:Hk;
    [|discriminate].
  destruct (usable_key (get_key (openrouter_key_manager st))) as [plan_key|] eqn:Hpk.
  2:{ destruct (Hnokey eq_refl) as [_ ->]. congruence. }
  destruct (Hlog1 plan_key eq_refl) as [Hpos1 Hl1].
  unfold generate_and_combine. cbv zeta.
  match goal with
  | |- context [generate_all_components P pd ?c [] st1] => set (ctx := c)
  end.
  pose proof (generate_all_components_dict P pd ctx [] st1) as [Hnd Htruthy].
  destruct (generate_all_components P pd ctx [] st1) as [g st2] eqn:Hgen.
  cbn [fst] in Hnd, Htruthy.
  destruct (generate_all_components_events P _ _ _ _ _ Hgen) as [(gen & Hl2 & Hall) Himg].
  destruct (Nat.ltb_spec (dict_len g) 4) as [Hlt|Hge]; [discriminate|].
  assert (Hpop : (forall urls, snd (pop_generated_images g) = ImageList urls ->
                    Forall is_local_image urls)
                 /\ (forall markup, snd (pop_generated_images g) = ImageText markup ->
                       Py.truthy markup = true)
                 /\ (3 <= length (fst (pop_generated_images g)))%nat).
  { unfold pop_generated_images. unfold dict_len in Hge.
    destruct (generated_images g) as [imgs|] eqn:Hg; cbn [fst snd].
    - split; [|split; [discriminate|lia]].
      intros urls E. inversion E; subst. exact Himg.
    - destruct (dict_get "__generated_images__" (components g)) as [markup|] eqn:Hget;
        cbn [fst snd].
      + apply dict_get_In in Hget. split; [discriminate|]. split.
        * intros m E. inversion E; subst.
          rewrite List.Forall_forall in Htruthy. apply (Htruthy _ Hget).
        * pose proof (dict_remove_length _ _ _ Hnd Hget). lia.
      + split; [|split; [discriminate|lia]].
        intros urls E. inversion E; subst. constructor. }
  destruct (pop_generated_images g) as [cs image_urls]. cbn [fst snd] in Hpop.
  destruct Hpop as (Hlist & Htext & Hlen).
  destruct (combine_components P _ _ _ _ _ _ _ st2) as [r st3] eqn:Hcomb.
  destruct (combiner_trace P _ _ _ _ _ _ _ _ _ _ Hcomb) as (o & k2 & -> & Ho).
  destruct o as [html|];
    [change (default "" (Some html)) with html
    |change (default "" (@None string)) with ""; discriminate].
  destruct (Py.truthy html) eqn:Ht; cbn [negb]; [|discriminate].
  destruct (Ho html eq_refl) as (Hdoc & Hpos2 & combine_key & Hl3).
  destruct (finalize_document (Some html)) as [doc|e] eqn:Hfin; [|discriminate].
  intros H. inversion H; subst.
  split; [eapply finalize_document_markers; eassumption|].
  split; [exact Hlist|]. split; [exact Htext|].
  exists plan_key, k1, gen, combine_key, cs, k2.
  split; [|split; [exact Hpos1|split; [exact Hpos2|split; [exact Hall|exact Hlen]]]].
  rewrite Hl3, Hl2, Hl1, <- !app_assoc. reflexivity.
Qed.

Lemma create_website_success_witness :
  (exists code st',
      create_website EndpointExamples.bakery_site (fun _ detail => detail)
        EndpointExamples.bakery_form "20260101_000000" "20260101_000001"
        (Examples.initial_state EndpointExamples.bakery_site (0%nat, 0%nat) ["img-key"] ["k1"])
      = (JSONResponse code (ImageList [hero_fallback_path; additional_fallback_path;
                                       additional_fallback_path]), st')
      /\ has_markers code)
  /\ (exists code st',
         create_website EndpointExamples.mislabelled_site (fun _ detail => detail)
           EndpointExamples.bakery_form "20260101_000000" "20260101_000001"
           (Examples.initial_state EndpointExamples.mislabelled_site (0%nat, 0%nat)
              ["img-key"] ["k1"])
         = (JSONResponse code (ImageText "<section>ok</section>"), st')
         /\ has_markers code).
Proof.
  split.
  - pose (run := create_website EndpointExamples.bakery_site (fun _ detail => detail)
                   EndpointExamples.bakery_form "20260101_000000" "20260101_000001"
                   (Examples.initial_state EndpointExamples.bakery_site (0%nat, 0%nat)
                      ["img-key"] ["k1"])).
    assert (Hr : exists code, fst run = JSONResponse code
                   (ImageList [hero_fallback_path; additional_fallback_path;
                               additional_fallback_path])).
    { vm_compute. eexists. reflexivity. }
    destruct Hr as (code & Hr).
    assert (Hrun : run = (JSONResponse code
                            (ImageList [hero_fallback_path; additional_fallback_path;
                                        additional_fallback_path]), snd run)).
    { rewrite <- Hr. apply surjective_pairing. }
    exists code, (snd run). split; [exact Hrun|].
    apply (create_website_success _ _ _ _ _ _ _ _ _ Hrun).
  - pose (run := create_website EndpointExamples.mislabelled_site (fun _ detail => detail)
                   EndpointExamples.bakery_form "20260101_000000" "20260101_000001"
                   (Examples.initial_state EndpointExamples.mislabelled_site (0%nat, 0%nat)
                      ["img-key"] ["k1"])).
    assert (Hr : exists code, fst run = JSONResponse code (ImageText "<section>ok</section>")).
    { vm_compute. eexists. reflexivity. }
    destruct Hr as (code & Hr).
    assert (Hrun : run = (JSONResponse code (ImageText "<section>ok</section>"), snd run)).
    { rewrite <- Hr. apply surjective_pairing. }
    exists code, (snd run). split; [exact Hrun|].
    apply (create_website_success _ _ _ _ _ _ _ _ _ Hrun).
Defined.

(* ===================================================================== *)
(** ** The fence clean-up of [edit_component] *)
(* ===================================================================== *)

Section Lines.

Import Py.

Lemma split_nonempty (sep s : string) : split sep s <> [].
Proof. unfold split. destruct (split_from sep 0 s). discriminate. Qed.

Lemma split_nl_cons (c : ascii) (s : string) :
  split nl (String c s)
  = if Ascii.eqb "010" c then "" :: split nl s
    else match split nl s with
         | p :: ps => String c p :: ps
         | [] => [String c ""]
         end.
Proof.
  unfold split, nl. cbn [split_from startswith String.length Nat.sub].
  destruct (Ascii.eqb "010" c); destruct (split_from _ 0 s); reflexivity.
Qed.

Lemma split_nl_app (a b : string) :
  split nl (a +:+ nl +:+ b) = split nl a ++ split nl b.
Proof.
  induction a as [|c a IH].
  - change ("" +:+ nl +:+ b) with (String "010" b). rewrite split_nl_cons. reflexivity.
  - change (String c a +:+ nl +:+ b) with (String c (a +:+ nl +:+ b)).
    rewrite !split_nl_cons, IH. destruct (Ascii.eqb "010" c); [reflexivity|].
    destruct (split nl a) as [|p ps] eqn:E; [apply split_nonempty in E; destruct E|].
    reflexivity.
Qed.

Lemma concat_cons_char (sep : string) (c : ascii) (p : string) (ps : list string) :
  String.concat sep (String c p :: ps) = String c (String.concat sep (p :: ps)).
Proof. destruct ps; reflexivity. Qed.

Lemma join_split_nl (s : string) : String.concat nl (split nl s) = s.
Proof.
  induction s as [|c s IH]; [reflexivity|].
  rewrite split_nl_cons. destruct (Ascii.eqb_spec "010" c) as [<-|Hne].
  - destruct (split nl s) as [|p ps] eqn:E; [apply split_nonempty in E; destruct E|].
    change (String.concat nl ("" :: p :: ps)) with ("" +:+ nl +:+ String.concat nl (p :: ps)).
    rewrite IH. reflexivity.
  - destruct (split nl s) as [|p ps] eqn:E; [apply split_nonempty in E; destruct E|].
    rewrite concat_cons_char, IH. reflexivity.
Qed.

Lemma split_nl_single (s : string) : str_in nl s = false -> split nl s = [s].
Proof.
  induction s as [|c s IH]; intros H; [reflexivity|].
  unfold nl in H. cbn [str_in startswith] in H.
  apply orb_false_iff in H as [Hc H]. rewrite split_nl_cons.
  destruct (Ascii.eqb "010" c); [discriminate|].
  fold nl in H. rewrite (IH H). reflexivity.
Qed.

Lemma lstrip_nonspace (c : ascii) (s : string) :
  is_space c = false -> lstrip (String c s) = String c s.
Proof. intros H. cbn [lstrip]. rewrite H. reflexivity. Qed.

Lemma rstrip_app_nonspace (a b : string) :
  rstrip b = b -> b <> "" -> rstrip (a +:+ b) = a +:+ b.
Proof.
  intros Hb Hne. induction a as [|c a IH]; [exact Hb|].
  change (String c a +:+ b) with (String c (a +:+ b)). cbn [rstrip]. rewrite IH.
  destruct (a +:+ b) eqn:E; [|reflexivity].
  destruct a as [|d a]; [change ("" +:+ b) with b in E; congruence|].
  change (String d a +:+ b) with (String d (a +:+ b)) in E. discriminate.
Qed.

Lemma str_app_assoc (a b c : string) : (a +:+ b) +:+ c = a +:+ b +:+ c.
Proof.
  induction a as [|x a IH]; [reflexivity|].
  change (String x (a +:+ b) +:+ c = String x (a +:+ b +:+ c)).
  change (String x ((a +:+ b) +:+ c) = String x (a +:+ b +:+ c)). rewrite IH. reflexivity.
Qed.

Lemma rstrip_idempotent (s : string) : rstrip (rstrip s) = rstrip s.
Proof.
  induction s as [|c s IH]; [reflexivity|].
  cbn [rstrip]. destruct (rstrip s) as [|d r] eqn:E.
  - destruct (is_space c) eqn:Hc; [reflexivity|]. cbn [rstrip]. rewrite Hc. reflexivity.
  - cbn [rstrip] in IH |- *. rewrite IH. reflexivity.
Qed.

Lemma lstrip_head (s : string) :
  lstrip s = "" \/ exists c t, lstrip s = String c t /\ is_space c = false.
Proof.
  induction s as [|c s IH]; [left; reflexivity|].
  cbn [lstrip]. destruct (is_space c) eqn:Hc; [exact IH|]. right. eauto.
Qed.

Lemma rstrip_head (c : ascii) (t : string) :
  is_space c = false -> exists r, rstrip (String c t) = String c r.
Proof.
  intros Hc. cbn [rstrip]. rewrite Hc. destruct (rstrip t); eauto.
Qed.

Lemma strip_idempotent (s : string) : strip (strip s) = strip s.
Proof.
  unfold strip. destruct (lstrip_head s) as [E|(c & t & E & Hc)]; rewrite E.
  - reflexivity.
  - destruct (rstrip_head c t Hc) as (r & Er). rewrite Er.
    rewrite (lstrip_nonspace c r Hc), <- Er. apply rstrip_idempotent.
Qed.

End Lines.

(** X24.  The fence clean-up of [edit_component].  An answer that is one
    fenced block, its first line the opening fence with any language
    word and its last line the closing fence, is reduced to the stripped
    body of the block, whatever the body holds; an answer that does not
    start with a fence is only stripped, fences further down included. *)
Theorem edited_code_is_unfenced (lang body : string) :
  Py.str_in nl lang = false ->
  clean_edited_code ("```" +:+ lang +:+ nl +:+ body +:+ nl +:+ "```") = Py.strip body
  /\ forall content, Py.startswith "```" (Py.strip content) = false ->
                     clean_edited_code content = Py.strip content.
Proof.
  intros Hlang. split.
  - unfold clean_edited_code.
    assert (Hstrip : Py.strip ("```" +:+ lang +:+ nl +:+ body +:+ nl +:+ "```")
                     = "```" +:+ lang +:+ nl +:+ body +:+ nl +:+ "```").
    { unfold Py.strip.
      change ("```" +:+ lang +:+ nl +:+ body +:+ nl +:+ "```")
        with (String "`" ("``" +:+ lang +:+ nl +:+ body +:+ nl +:+ "```")).
      rewrite lstrip_nonspace by reflexivity.
      change (String "`" ("``" +:+ lang +:+ nl +:+ body +:+ nl +:+ "```"))
        with ("```" +:+ lang +:+ nl +:+ body +:+ nl +:+ "```").
      replace ("```" +:+ lang +:+ nl +:+ body +:+ nl +:+ "```")
        with (("```" +:+ lang +:+ nl +:+ body +:+ nl) +:+ "```").
      - apply rstrip_app_nonspace; [reflexivity|discriminate].
      - rewrite !str_app_assoc. reflexivity. }
    rewrite Hstrip. f_equal. unfold unfence_lines.
    change (Py.startswith "```" ("```" +:+ lang +:+ nl +:+ body +:+ nl +:+ "```"))
      with true. cbv iota zeta.
    replace ("```" +:+ lang +:+ nl +:+ body +:+ nl +:+ "```")
      with (("```" +:+ lang) +:+ nl +:+ (body +:+ nl +:+ "```"))
      by (rewrite !str_app_assoc; reflexivity).
    rewrite !split_nl_app.
    assert (Hfirst : Py.split nl ("```" +:+ lang) = ["```" +:+ lang]).
    { apply split_nl_single.
      change ("```" +:+ lang) with (String "`" (String "`" (String "`" lang))).
      cbn [Py.str_in]. rewrite Hlang. reflexivity. }
    rewrite Hfirst. change (Py.split nl "```") with ["```"].
    cbn [app tl]. rewrite last_snoc. change (Py.strip "```") with "```".
    cbn [String.eqb Ascii.eqb Bool.eqb]. rewrite removelast_last. apply join_split_nl.
  - intros content Hno. unfold clean_edited_code, unfence_lines. rewrite Hno.
    apply strip_idempotent.
Qed.

Lemma edited_code_is_unfenced_witness :
  clean_edited_code ("```" +:+ "html" +:+ nl +:+ "<div>``ok``</div>" +:+ nl +:+ "```")
  = "<div>``ok``</div>".
Proof.
  destruct (edited_code_is_unfenced "html" "<div>``ok``</div>") as [Hfenced _].
  - vm_compute. reflexivity.
  - rewrite Hfenced. vm_compute. reflexivity.
Defined.

(* ===================================================================== *)
(** ** The endpoint [generate_image] *)
(* ===================================================================== *)

Section ImageEndpointProps.

Variable P : Providers.
Variable payload_status : nested_payload -> option string.
Variable generate_content : World P -> string -> string -> result nat * World P.

Lemma image_call_spec (key prompt : string) (st : state P) :
  exists r st1,
    image_call P generate_content key prompt st = (r, st1)
    /\ log st1 = log st ++ [EvImage key prompt]
    /\ consolidated_openai st1 = consolidated_openai st
    /\ r = fst (generate_content (world st) key prompt).
Proof.
  unfold image_call. destruct (generate_content (world st) key prompt) as [r w].
  eexists _, _. split; [reflexivity|]. repeat split.
Qed.

Lemma rotate_consolidated_spec (st : state P) :
  exists st',
    rotate_consolidated P st = (Ok (has_multiple_keys (consolidated_openai st)), st')
    /\ log st' = log st
    /\ consolidated_openai st' = snd (rotate_key (consolidated_openai st)).
Proof.
  unfold rotate_consolidated.
  pose proof (rotate_key_flag (consolidated_openai st)) as Hf.
  destruct (rotate_key (consolidated_openai st)) as [b m]. simpl in *. subst b.
  eexists. split; [reflexivity|]. split; reflexivity.
Qed.

Lemma usable_key_in_pool (m : KeyManager) (k : string) :
  usable_key (get_key m) = Some k -> get_key m = Some k /\ In k (keys m).
Proof.
  unfold usable_key. destruct (get_key m) as [s|] eqn:E; [|discriminate].
  destruct (Py.truthy s); [|discriminate]. intros H. inversion H; subst.
  split; [reflexivity|]. apply get_key_in_pool, E.
Qed.

(** The loop makes at most one call per iteration, each with the key
    that is current when it is made, and ends without an answer only
    after the last iteration. *)
Lemma generate_image_loop_budget (prompt timestamp : string) (N : nat) :
  forall (r : nat) (st : state P),
    exists a st' ks,
      generate_image_loop P payload_status generate_content prompt timestamp N r st
      = (a, st')
      /\ log st' = log st ++ image_calls prompt ks
      /\ (length ks <= r)%nat
      /\ (a = Unanswered -> length ks = r)
      /\ keys (consolidated_openai st') = keys (consolidated_openai st)
      /\ Forall (fun k => In k (keys (consolidated_openai st))) ks
      /\ (forall k, head ks = Some k -> get_key (consolidated_openai st) = Some k).
Proof.
  induction r as [|r IH]; intros st.
  - exists Unanswered, st, []. simpl. rewrite app_nil_r.
    repeat split; auto. intros k H. discriminate.
  - cbn [generate_image_loop].
    destruct (usable_key (get_key (consolidated_openai st))) as [key|] eqn:Hkey.
    2:{ eexists _, st, []. split; [reflexivity|]. simpl. rewrite app_nil_r.
        split; [reflexivity|]. split; [lia|]. split; [discriminate|].
        split; [reflexivity|]. split; [constructor|]. intros k H. discriminate. }
    apply usable_key_in_pool in Hkey as [Hget Hin].
    destruct (image_call_spec key prompt st) as (res & st1 & Hcall & Hl1 & Hm1 & _).
    rewrite Hcall.
    assert (Hstop : forall (a : answer (list string)) (st2 : state P),
              a <> Unanswered -> log st2 = log st1 ->
              keys (consolidated_openai st2) = keys (consolidated_openai st) ->
              exists a' st' ks,
                (a, st2) = (a', st')
                /\ log st' = log st ++ image_calls prompt ks
                /\ (length ks <= S r)%nat
                /\ (a' = Unanswered -> length ks = S r)
                /\ keys (consolidated_openai st') = keys (consolidated_openai st)
                /\ Forall (fun k => In k (keys (consolidated_openai st))) ks
                /\ (forall k, head ks = Some k -> get_key (consolidated_openai st) = Some k)).
    { intros a st2 Ha Hl2 Hk2. exists a, st2, [key]. split; [reflexivity|].
      split; [rewrite Hl2; exact Hl1|]. split; [simpl; lia|]. split; [congruence|].
      split; [exact Hk2|]. split; [repeat constructor; exact Hin|].
      intros k H. inversion H; subst. exact Hget. }
    destruct res as [saved|e].
    { apply Hstop; [discriminate|reflexivity|congruence]. }
    destruct (ConsolidatedKeyManager.is_rate_limit_error payload_status e).
    + destruct (rotate_consolidated_spec st1) as (st2 & Hrot & Hl2 & Hm2).
      rewrite Hrot.
      assert (Hk2 : keys (consolidated_openai st2) = keys (consolidated_openai st)).
      { rewrite Hm2, rotate_key_keys, Hm1. reflexivity. }
      destruct (has_multiple_keys (consolidated_openai st1)).
      * destruct (IH st2) as (a & st' & ks & Hloop & Hl & Hlen & Hun & Hk & Hall & _).
        exists a, st', (key :: ks). split; [exact Hloop|].
        split; [rewrite Hl, Hl2, Hl1, <- app_assoc; reflexivity|].
        split; [simpl; lia|]. split; [intros Ha; simpl; rewrite (Hun Ha); reflexivity|].
        split; [congruence|]. split.
        -- constructor; [exact Hin|]. eapply Forall_impl; [exact Hall|].
           intros k Hk'. rewrite <- Hk2. exact Hk'.
        -- intros k H. inversion H; subst. exact Hget.
      * destruct (_ =? _)%nat; apply Hstop; try discriminate; assumption.
    + destruct (_ =? _)%nat; apply Hstop; try discriminate; try reflexivity; congruence.
Qed.

End ImageEndpointProps.

(** X25.  The endpoint [generate_image] makes at most two calls,
    however many keys there are: each with a key of the consolidated
    pool, the first with the key that is current when the request comes
    in.  An empty prompt is refused with status 400 before any call; and
    the request ends without any answer only after two calls. *)
Theorem image_endpoint_budget (P : Providers)
    (payload_status : nested_payload -> option string)
    (generate_content : World P -> string -> string -> result nat * World P)
    (prompt timestamp : string) (st : state P) :
  exists a st' ks,
    generate_image P payload_status generate_content prompt timestamp st = (a, st')
    /\ log st' = log st ++ image_calls prompt ks
    /\ (length ks <= 2)%nat
    /\ Forall (fun k => In k (keys (consolidated_openai st))) ks
    /\ (forall k, head ks = Some k -> get_key (consolidated_openai st) = Some k)
    /\ (a = Unanswered -> length ks = 2%nat)
    /\ (prompt = "" -> a = Refused 400 "Prompt is required" /\ st' = st).
Proof.
  unfold generate_image. destruct prompt as [|c prompt]; cbn [Py.truthy negb].
  - exists (Refused 400 "Prompt is required"), st, []. simpl. rewrite app_nil_r.
    split; [reflexivity|]. split; [reflexivity|]. split; [lia|]. split; [constructor|].
    split; [discriminate|]. split; [discriminate|auto].
  - destruct (generate_image_loop_budget P payload_status generate_content
                (String c prompt) timestamp 2 2 st)
      as (a & st' & ks & Hloop & Hl & Hlen & Hun & _ & Hall & Hhead).
    exists a, st', ks. split; [exact Hloop|]. split; [exact Hl|]. split; [exact Hlen|].
    split; [exact Hall|]. split; [exact Hhead|]. split; [exact Hun|discriminate].
Qed.

(** X26.  With at least two usable keys and an image API that is
    rate-limited on both attempts, [generate_image] rotates after each
    failure, the second time on its last attempt, and so leaves its loop
    without [return] and without [raise]: the request gets no answer at
    all.  The second call is made with the key rotated to, and the
    cursor ends two places further. *)
Theorem image_endpoint_gives_no_answer (P : Providers)
    (payload_status : nested_payload -> option string)
    (generate_content : World P -> string -> string -> result nat * World P)
    (prompt timestamp : string) (st : state P) :
  Py.truthy prompt = true ->
  content_always_rate_limited P payload_status generate_content prompt ->
  (1 < length (keys (consolidated_openai st)))%nat ->
  cursor_in_range (consolidated_openai st) ->
  Forall (fun k => Py.truthy k = true) (keys (consolidated_openai st)) ->
  exists st' k0 k1,
    generate_image P payload_status generate_content prompt timestamp st
    = (Unanswered, st')
    /\ get_key (consolidated_openai st) = Some k0
    /\ get_key (rotate_times 1 (consolidated_openai st)) = Some k1
    /\ log st' = log st ++ image_calls prompt [k0; k1]
    /\ consolidated_openai st' = rotate_times 2 (consolidated_openai st).
Proof.
  intros Hp Hrl Hpool Hin Htruthy. unfold generate_image. rewrite Hp. cbn [negb].
  assert (Husable : forall m : KeyManager,
            keys m = keys (consolidated_openai st) -> cursor_in_range m ->
            exists k, get_key m = Some k /\ usable_key (get_key m) = Some k).
  { intros m Hk Hc. unfold cursor_in_range in Hc.
    destruct (lookup_lt_is_Some_2 (keys m) (current_key_index m) Hc) as [k Hget].
    exists k. assert (Hg : get_key m = Some k).
    { unfold get_key. destruct (keys m); [discriminate Hget|exact Hget]. }
    split; [exact Hg|]. rewrite Hg. unfold usable_key.
    rewrite List.Forall_forall in Htruthy. rewrite (Htruthy k); [reflexivity|].
    rewrite <- Hk. apply list_elem_of_In. eapply list_elem_of_lookup_2. exact Hget. }
  assert (Hrot_range : forall m : KeyManager,
            (1 < length (keys m))%nat -> cursor_in_range (snd (rotate_key m))).
  { intros m Hm. unfold cursor_in_range.
    rewrite rotate_key_keys, rotate_key_index by exact Hm.
    apply Nat.mod_upper_bound. lia. }
  set (m0 := consolidated_openai st) in *.
  destruct (Husable m0 eq_refl Hin) as (k0 & Hg0 & Hu0).
  (* first attempt *)
  cbn [generate_image_loop]. fold m0. rewrite Hu0.
  destruct (image_call_spec P generate_content k0 prompt st)
    as (r1 & st1 & Hcall1 & Hl1 & Hm1 & Hr1).
  destruct (Hrl (world st) k0) as (e1 & w1 & Hgen1 & Hcls1).
  rewrite Hgen1 in Hr1. simpl in Hr1. subst r1. rewrite Hcall1, Hcls1.
  destruct (rotate_consolidated_spec P st1) as (st2 & Hrot1 & Hl2 & Hm2).
  rewrite Hrot1. fold m0 in Hm1. rewrite Hm1 in Hm2 |- *.
  assert (Hmulti : has_multiple_keys m0 = true).
  { unfold has_multiple_keys. apply Nat.ltb_lt. exact Hpool. }
  rewrite Hmulti.
  (* second attempt *)
  cbn [generate_image_loop]. rewrite Hm2.
  destruct (Husable (snd (rotate_key m0)) (rotate_key_keys m0) (Hrot_range m0 Hpool))
    as (k1 & Hg1 & Hu1).
  rewrite Hu1.
  destruct (image_call_spec P generate_content k1 prompt st2)
    as (r2 & st3 & Hcall2 & Hl3 & Hm3 & Hr2).
  destruct (Hrl (world st2) k1) as (e2 & w2 & Hgen2 & Hcls2).
  rewrite Hgen2 in Hr2. simpl in Hr2. subst r2. rewrite Hcall2, Hcls2.
  destruct (rotate_consolidated_spec P st3) as (st4 & Hrot2 & Hl4 & Hm4).
  rewrite Hrot2. rewrite Hm3, Hm2 in Hm4 |- *.
  assert (Hmulti1 : has_multiple_keys (snd (rotate_key m0)) = true).
  { unfold has_multiple_keys. rewrite rotate_key_keys. apply Nat.ltb_lt. exact Hpool. }
  rewrite Hmulti1.
  exists st4, k0, k1. split; [reflexivity|]. split; [exact Hg0|]. split; [exact Hg1|].
  split; [|exact Hm4].
  rewrite Hl4, Hl3, Hl2, Hl1, <- app_assoc. reflexivity.
Qed.

Lemma image_endpoint_gives_no_answer_witness :
  fst (generate_image Examples.always_429 (fun _ => None)
         (fun w _ _ => (Raise Examples.openai_429, w)) "a bakery at dawn" "20260101_000000"
         (Examples.initial_state Examples.always_429 (0%nat, 0%nat) ["a"; "b"; "c"] ["k1"]))
  = Unanswered.
Proof.
  destruct (image_endpoint_gives_no_answer Examples.always_429 (fun _ => None)
              (fun w _ _ => (Raise Examples.openai_429, w)) "a bakery at dawn"
              "20260101_000000"
              (Examples.initial_state Examples.always_429 (0%nat, 0%nat)
                 ["a"; "b"; "c"] ["k1"])) as (st' & k0 & k1 & Hrun & _).
  - reflexivity.
  - intros w key. eexists _, _. split; [reflexivity|]. vm_compute. reflexivity.
  - simpl. lia.
  - unfold cursor_in_range. simpl. lia.
  - repeat constructor.
  - rewrite Hrun. reflexivity.
Defined.
